(** * PPE detection demo: inference service and capture/render client

    A shallow embedding of [app_server_x.py] (the Flask inference
    endpoint) and [ppe_detector_rpi.py] (the capture / request / render
    loop), with the properties of the natural-language specification
    stated and settled against it.

    Conventions of the embedding.
    - A Python [str] is a [string]; each character stands for the code
      point of the same number (0..255), so a character above 127 is a
      non-ASCII code point.
    - Python [int] is [Z]; Python [float] values (confidences, frame
      rates, box corners) are the rationals they denote, in [Q].
    - Parsed JSON is the inductive [json]; a [dict] is an association
      list read by its first binding of a key.
    - [print], OpenCV calls and the network are recorded as events of a
      trace; what the outside world answers (file system, camera frames,
      server replies, key presses, timer samples, [hash], text sizes,
      whether [cv2.resize] succeeds on a positive size, the rounded mean
      [np.mean] returns) is an explicit input.
    - Statements that can raise or call [sys.exit] live in the [script]
      monad below: a result or an exit code or an exception, together
      with the events emitted so far. *)

From Stdlib Require Import ZArith QArith Qabs List String Ascii Bool Lia DecimalString.
Import ListNotations.

Local Open Scope string_scope.
Local Open Scope list_scope.
Local Open Scope Z_scope.

(** ** Python exceptions, exits and traces *)

(** The exception classes the two programs can meet.  All of them derive
    from [Exception]; [binascii.Error] and [json.JSONDecodeError] also
    derive from [ValueError]. *)
Inductive exn : Type :=
| ValueError (msg : string)
| BinasciiError (msg : string)
| JSONDecodeError (msg : string)
| TypeError (msg : string)
| IndexError (msg : string)
| KeyError (msg : string)
| NameError (msg : string)
| AttributeError (msg : string)
| Cv2Error (msg : string)
| RequestsTimeout (msg : string)
| RequestsConnectionError (msg : string)
| RequestsHTTPError (status_code : Z) (text : string)
| BadRequest (msg : string)
| OverflowError (msg : string)
| OtherException (msg : string).

(** [str(e)] *)
Definition exn_str (e : exn) : string :=
  match e with
  | ValueError m | BinasciiError m | JSONDecodeError m | TypeError m
  | IndexError m | KeyError m | NameError m | AttributeError m
  | Cv2Error m | RequestsTimeout m | RequestsConnectionError m
  | BadRequest m | OverflowError m | OtherException m => m
  | RequestsHTTPError _ t => t
  end.

(** [isinstance(e, ValueError)] *)
Definition is_ValueError (e : exn) : bool :=
  match e with
  | ValueError _ | BinasciiError _ | JSONDecodeError _ => true
  | _ => false
  end.

(** [str(n)] for an integer *)
Definition str_of_Z (z : Z) : string := NilZero.string_of_int (Z.to_int z).

Inductive outcome (A : Type) : Type :=
| Ret (a : A)
| Exit (code : Z)
| Raise (e : exn).
Arguments Ret {A} a.
Arguments Exit {A} code.
Arguments Raise {A} e.

(** A script over events [E]: what it ends with, and what it emitted. *)
Definition script (E A : Type) : Type := (outcome A * list E)%type.

Definition ret {E A} (a : A) : script E A := (Ret a, []).
Definition emit {E} (e : E) : script E unit := (Ret tt, [e]).
Definition sys_exit {E A} (code : Z) : script E A := (Exit code, []).
Definition raise {E A} (e : exn) : script E A := (Raise e, []).

Definition bind {E A B} (m : script E A) (k : A -> script E B) : script E B :=
  match m with
  | (Ret a, t1) => let '(o, t2) := k a in (o, t1 ++ t2)
  | (Exit c, t1) => (Exit c, t1)
  | (Raise e, t1) => (Raise e, t1)
  end.

(** [try: m  except <handlers>]: the first handler that accepts the
    exception runs; an exception no handler accepts propagates, and so
    does [sys.exit] unless a handler takes it. *)
Definition try_except {E A} (m : script E A)
    (handler : exn -> option (script E A)) : script E A :=
  match m with
  | (Raise e, t1) =>
      match handler e with
      | Some k => let '(o, t2) := k in (o, t1 ++ t2)
      | None => (Raise e, t1)
      end
  | other => other
  end.

Definition result_of {E A} (m : script E A) : outcome A := fst m.
Definition trace_of {E A} (m : script E A) : list E := snd m.

Declare Scope script_scope.
Delimit Scope script_scope with script.
Notation "x <- m ;; k" := (bind m (fun x => k))
  (at level 61, m at next level, right associativity) : script_scope.
Notation "m ;;; k" := (bind m (fun _ => k))
  (at level 61, right associativity) : script_scope.

(** ** Python built-ins used by the two programs *)

Module Py.

Definition ord (c : ascii) : Z := Z.of_N (N_of_ascii c).

Definition chr_eqb (a b : ascii) : bool := Ascii.eqb a b.

(** [s.startswith(p)] *)
Definition startswith (s p : string) : bool := String.prefix p s.

(** [s[n:]] for [0 <= n] *)
Fixpoint slice_from (n : nat) (s : string) : string :=
  match n, s with
  | O, _ => s
  | S n', String _ r => slice_from n' r
  | S _, EmptyString => EmptyString
  end.

(** [s[:n]] for [0 <= n] *)
Fixpoint slice_to (n : nat) (s : string) : string :=
  match n, s with
  | O, _ => EmptyString
  | S n', String c r => String c (slice_to n' r)
  | S _, EmptyString => EmptyString
  end.

(** [s.rfind(c)]: the last index of [c], or -1. *)
Fixpoint rfind_from (c : ascii) (s : string) (i last : Z) : Z :=
  match s with
  | EmptyString => last
  | String d r => rfind_from c r (i + 1) (if chr_eqb d c then i else last)
  end.
Definition rfind (c : ascii) (s : string) : Z := rfind_from c s 0 (-1).

(** [needle in haystack] on strings *)
Fixpoint contains (needle hay : string) : bool :=
  String.prefix needle hay ||
  match hay with
  | EmptyString => false
  | String _ r => contains needle r
  end.

(** [x in l] for a list of strings *)
Definition str_in (x : string) (l : list string) : bool :=
  existsb (String.eqb x) l.

(** [s.split(sep)] for a one-character separator. *)
Fixpoint split_acc (sep : ascii) (s : string) (cur : string) : list string :=
  match s with
  | EmptyString => [cur]
  | String c r =>
      if chr_eqb c sep then cur :: split_acc sep r EmptyString
      else split_acc sep r (cur ++ String c EmptyString)%string
  end.
Definition split (sep : ascii) (s : string) : list string :=
  split_acc sep s EmptyString.

(** *** [int(s)] on a string, base 10

    CPython strips white space on both sides, takes an optional sign,
    then decimal digits in which single underscores may separate
    digits.  Since CPython 3.11 (and the security releases of the
    earlier branches) a text of more than [int_max_str_digits] = 4300
    digits is refused as well, with [ValueError]. *)

Definition is_int_space (c : ascii) : bool :=
  let n := ord c in
  ((9 <=? n) && (n <=? 13)) || (n =? 32) || (n =? 133) || (n =? 160).

Definition digit_val (c : ascii) : option Z :=
  let n := ord c in
  if (48 <=? n) && (n <=? 57) then Some (n - 48) else None.

Fixpoint lstrip (s : string) : string :=
  match s with
  | String c r => if is_int_space c then lstrip r else s
  | EmptyString => EmptyString
  end.

Inductive int_state : Type :=
| NeedDigit | AfterDigit | AfterUnderscore | Trailing.

Fixpoint int_body (st : int_state) (acc : Z) (s : string) : option Z :=
  match s with
  | EmptyString =>
      match st with
      | AfterDigit | Trailing => Some acc
      | NeedDigit | AfterUnderscore => None
      end
  | String c r =>
      match st with
      | Trailing => if is_int_space c then int_body Trailing acc r else None
      | _ =>
          match digit_val c with
          | Some d => int_body AfterDigit (10 * acc + d) r
          | None =>
              match st with
              | AfterDigit =>
                  if chr_eqb c "_" then int_body AfterUnderscore acc r
                  else if is_int_space c then int_body Trailing acc r
                  else None
              | _ => None
              end
          end
      end
  end.

(** The value of a text that is a well-formed literal, whatever its
    length. *)
Definition int_literal (s : string) : option Z :=
  match lstrip s with
  | String "+" r => int_body NeedDigit 0 r
  | String "-" r => option_map Z.opp (int_body NeedDigit 0 r)
  | s1 => int_body NeedDigit 0 s1
  end.

(** [sys.int_info.default_max_str_digits] *)
Definition int_max_str_digits : Z := 4300.

(** The number of decimal digits of a text (underscores, sign and white
    space do not count). *)
Fixpoint count_digits (s : string) : Z :=
  match s with
  | EmptyString => 0
  | String c r =>
      match digit_val c with
      | Some _ => 1 + count_digits r
      | None => count_digits r
      end
  end.

Definition int_of_str (s : string) : option Z :=
  match int_literal s with
  | Some z => if int_max_str_digits <? count_digits s then None else Some z
  | None => None
  end.

(** The text of the [ValueError]: the limit, for a well-formed literal
    that is too long; the invalid literal otherwise. *)
Definition int_error_msg (s : string) : string :=
  match int_literal s with
  | Some _ =>
      ("Exceeds the limit (4300 digits) for integer string conversion: value has "
       ++ str_of_Z (count_digits s)
       ++ " digits; use sys.set_int_max_str_digits() to increase the limit")%string
  | None => ("invalid literal for int() with base 10: '" ++ s ++ "'")%string
  end.

(** [int(s)] as a statement: the value, or [ValueError]. *)
Definition int {E} (s : string) : script E Z :=
  match int_of_str s with
  | Some z => ret z
  | None => raise (ValueError (int_error_msg s))
  end.

(** *** [os.path.splitext] (posixpath: separator [/], no altsep) *)

Definition char_at (p : string) (i : nat) : option ascii := String.get i p.

(** The [while filenameIndex < dotIndex] loop: [true] as soon as a
    character that is not a dot is met, [false] if the loop runs out. *)
Fixpoint skip_leading_dots (p : string) (filenameIndex : nat) (n : nat) : bool :=
  match n with
  | O => false
  | S n' =>
      match char_at p filenameIndex with
      | Some c =>
          if negb (chr_eqb c ".") then true
          else skip_leading_dots p (S filenameIndex) n'
      | None => true
      end
  end.

Definition splitext (p : string) : string * string :=
  let sepIndex := rfind "/" p in
  let dotIndex := rfind "." p in
  if (sepIndex <? dotIndex)
     && skip_leading_dots p (Z.to_nat (sepIndex + 1))
                          (Z.to_nat (dotIndex - (sepIndex + 1)))
  then (slice_to (Z.to_nat dotIndex) p, slice_from (Z.to_nat dotIndex) p)
  else (p, EmptyString).

(** [os.path.join(a, b)] for a relative [b]. *)
Definition path_join (a b : string) : string :=
  if String.eqb a EmptyString then b
  else if String.eqb (slice_from (String.length a - 1) a) "/" then (a ++ b)%string
  else (a ++ "/" ++ b)%string.

(** [a % n] for [n > 0] has the sign of [n], as [Z.modulo]. *)
Definition mod_ (a n : Z) : Z := a mod n.

End Py.

(** ** Parsed JSON values *)

#[local] Set Warnings "-register-all".

Inductive json : Type :=
| JNull
| JBool (b : bool)
| JInt (z : Z)
| JFloat (q : Q)
| JStr (s : string)
| JList (l : list json)
| JDict (d : list (string * json)).

Module Json.

Fixpoint assoc {V : Type} (k : string) (d : list (string * V)) : option V :=
  match d with
  | [] => None
  | (k', v) :: r => if String.eqb k k' then Some v else assoc k r
  end.

(** [type(v).__name__] *)
Definition type_name (v : json) : string :=
  match v with
  | JNull => "NoneType"
  | JBool _ => "bool"
  | JInt _ => "int"
  | JFloat _ => "float"
  | JStr _ => "str"
  | JList _ => "list"
  | JDict _ => "dict"
  end.

(** [v.get(k, default)]: only a [dict] has the method. *)
Definition get {E} (v : json) (k : string) (default : json) : script E json :=
  match v with
  | JDict d =>
      ret (match assoc k d with Some x => x | None => default end)
  | _ =>
      raise (AttributeError
               ("'" ++ type_name v ++ "' object has no attribute 'get'")%string)
  end.

(** The items [for x in v] goes through. *)
Definition iter {E} (v : json) : script E (list json) :=
  match v with
  | JList l => ret l
  | JDict d => ret (map (fun kv => JStr (fst kv)) d)
  | JStr s =>
      ret (map (fun c => JStr (String c EmptyString)) (list_ascii_of_string s))
  | _ =>
      raise (TypeError ("'" ++ type_name v ++ "' object is not iterable")%string)
  end.

(** The number a JSON value denotes in a comparison with a float;
    [bool] is a subclass of [int]. *)
Definition as_number (v : json) : option Q :=
  match v with
  | JInt z => Some (inject_Z z)
  | JFloat q => Some q
  | JBool b => Some (inject_Z (if b then 1 else 0))
  | _ => None
  end.

(** [hash(v)] is defined on everything but lists and dicts. *)
Definition hashable (v : json) : bool :=
  match v with
  | JList _ | JDict _ => false
  | _ => true
  end.

End Json.

(** [a > b] on floats *)
Definition Qgtb (a b : Q) : bool := negb (Qle_bool a b).

(** [l[i]] on a list *)
Definition py_index {E A} (l : list A) (i : nat) : script E A :=
  match nth_error l i with
  | Some x => ret x
  | None => raise (IndexError "list index out of range")
  end.

(** [l[i]] with Python's negative indices *)
Definition py_getitem {E A} (l : list A) (i : Z) : script E A :=
  let n := Z.of_nat (List.length l) in
  if (0 <=? i) && (i <? n) then py_index l (Z.to_nat i)
  else if (- n <=? i) && (i <? 0) then py_index l (Z.to_nat (n + i))
  else raise (IndexError "list index out of range").

(** [l.pop(0)] *)
Definition py_pop0 {E A} (l : list A) : script E (A * list A) :=
  match l with
  | x :: r => ret (x, r)
  | [] => raise (IndexError "pop from empty list")
  end.

(** ** The client: [ppe_detector_rpi.py] *)

Module Client.

Local Open Scope script_scope.

(** *** Data *)

(** Pixel data is opaque to the script; a frame is known by a number. *)
Inductive frame : Type :=
| Frame (id : N).

Definition color : Type := (Z * Z * Z)%type.

Definition bbox_colors : list color :=
  [(164,120,87); (68,148,228); (93,97,209); (178,182,133); (88,159,106);
   (96,202,231); (159,124,168); (169,162,241); (98,118,150); (172,176,184);
   (255,0,0); (0,255,0); (0,0,255); (255,255,0); (0,255,255);
   (255,0,255); (192,192,192); (128,128,128); (128,0,0); (128,128,0)].

(** Texts drawn on a frame.  Where a float is formatted the value is
    kept instead of its digits. *)
Inductive text : Type :=
| LabelText (classname : json) (conf : Q)
| FpsText (avg_frame_rate : Q)
| CountText (object_count : Z).

Definition FILLED : Z := -1.

Inductive draw_op : Type :=
| Rectangle (pt1 pt2 : Z * Z) (c : color) (thickness : Z)
| PutText (t : text) (org : Z * Z) (c : color) (thickness : Z)
| Resize (w h : Z).

(** [display_frame]: a copy of the frame and what was drawn on it, in
    order. *)
Record display : Type := { base : frame; ops : list draw_op }.

Inductive source_type : Type :=
| folder
| image
| video
| usb (usb_idx : Z)
| picamera (picam_idx : Z)
| rtsp.

Inductive cap_arg : Type :=
| CapPath (p : string)
| CapIndex (i : Z).

Definition cap_arg_str (c : cap_arg) : string :=
  match c with
  | CapPath p => p
  | CapIndex i => str_of_Z i
  end.

Inductive event : Type :=
| Print (s : string)
| PrintAvgFps (avg_frame_rate : Q)
| VideoWriterOpen (name : string) (fps w h : Z)
| VideoCaptureOpen (c : cap_arg)
| CapSet (w h : Z)
| PicameraCreate
| PicameraStart (w h : Z)
| Imread (file : string)
| CapRead
| PicameraCapture
| Post (url : string) (f : frame)
| Imshow (d : display)
| RecorderWrite (d : display)
| WaitKey (delay : option Z)
| Imwrite (name : string) (d : display)
| CapRelease
| PicameraStop
| RecorderRelease
| DestroyAllWindows.

(** What the machine around the script answers. *)
Record world : Type := {
  isdir : string -> bool;
  isfile : string -> bool;
  glob : string -> list string;
  cap_isOpened : cap_arg -> bool;
  cap_isOpened_at_end : bool;
  recorder_isOpened_at_end : bool;
  py_hash : json -> Z;
  getTextSize : text -> (Z * Z) * Z;
  cv2_resize_ok : Z -> Z -> bool;
  np_mean : list Q -> Q
}.

Record args : Type := {
  server_url : string;
  source : string;
  thresh : Q;
  resolution : option string;
  record : bool
}.

(** Truth value of [user_res]: [None] and the empty string are false. *)
Definition truthy (user_res : option string) : bool :=
  match user_res with
  | Some s => negb (String.eqb s EmptyString)
  | None => false
  end.

(** *** Source type (lines 55-80) *)

Definition img_ext_list : list string :=
  [".jpg"; ".JPG"; ".jpeg"; ".JPEG"; ".png"; ".PNG"; ".bmp"; ".BMP"].
Definition vid_ext_list : list string :=
  [".avi"; ".mov"; ".mp4"; ".mkv"; ".wmv"].

Definition unsupported_ext_msg (ext : string) : string :=
  ("Ekstensi file " ++ ext ++ " tidak didukung.")%string.

Definition invalid_source_msg (img_source : string) : string :=
  ("Input " ++ img_source ++
   " tidak valid. Silakan coba lagi. Tipe yang didukung: file, folder, video, usbX, picameraX, rtsp://URL")%string.

Definition resolve_source (w : world) (img_source : string)
  : script event source_type :=
  if isdir w img_source then ret folder
  else if isfile w img_source then
    let ext := snd (Py.splitext img_source) in
    if Py.str_in ext img_ext_list then ret image
    else if Py.str_in ext vid_ext_list then ret video
    else emit (Print (unsupported_ext_msg ext)) ;;; sys_exit 0
  else if Py.startswith img_source "usb" then
    usb_idx <- Py.int (Py.slice_from 3 img_source) ;;
    ret (usb usb_idx)
  else if Py.startswith img_source "picamera" then
    picam_idx <- Py.int (Py.slice_from 8 img_source) ;;
    ret (picamera picam_idx)
  else if Py.startswith img_source "rtsp://" then ret rtsp
  else emit (Print (invalid_source_msg img_source)) ;;; sys_exit 0.

(** *** Display resolution (lines 82-90) *)

Definition bad_resolution_msg (user_res : string) : string :=
  ("Error: Format resolusi tidak valid '" ++ user_res ++
   "'. Harap gunakan WxH (misalnya, 1280x720).")%string.

(** [resize] and [resW], [resH] are bound together: the result is
    [Some (resW, resH)] when [resize = True] and [None] when
    [resize = False]. *)
Definition parse_resolution (user_res : option string)
  : script event (option (Z * Z)) :=
  match user_res with
  | Some s =>
      if truthy user_res then
        try_except
          (resW <- (p0 <- py_index (Py.split "x" s) 0 ;; Py.int p0) ;;
           resH <- (p1 <- py_index (Py.split "x" s) 1 ;; Py.int p1) ;;
           ret (Some (resW, resH)))
          (fun e =>
             if is_ValueError e
             then Some (emit (Print (bad_resolution_msg s)) ;;; sys_exit 0)
             else None)
      else ret None
  | None => ret None
  end.

(** *** Recording (lines 92-103) *)

Definition is_stream (t : source_type) : bool :=
  match t with
  | video | usb _ | rtsp | picamera _ => true
  | folder | image => false
  end.

(** Reading [resW], [resH]: bound only if the resolution was parsed. *)
Definition read_res (res : option (Z * Z)) : script event (Z * Z) :=
  match res with
  | Some r => ret r
  | None => raise (NameError "name 'resW' is not defined")
  end.

Definition setup_recording (t : source_type) (user_res : option string)
    (res : option (Z * Z)) (record : bool) : script event unit :=
  if record then
    if negb (is_stream t) then
      emit (Print "Perekaman hanya berfungsi untuk sumber video, kamera, atau RTSP. Silakan coba lagi.") ;;;
      sys_exit 0
    else if negb (truthy user_res) then
      emit (Print "Harap tentukan resolusi untuk merekam video.") ;;;
      sys_exit 0
    else
      r <- read_res res ;;
      emit (VideoWriterOpen "demo1.avi" 30 (fst r) (snd r))
  else ret tt.

(** *** Opening the source (lines 106-138) *)

Definition cannot_open_msg (c : cap_arg) : string :=
  ("ERROR: Tidak dapat membuka sumber video " ++ cap_arg_str c ++
   ". Harap periksa path/indeks/URL sumber.")%string.

Definition init_source (w : world) (t : source_type) (img_source : string)
    (user_res : option string) (res : option (Z * Z))
  : script event (list string) :=
  match t with
  | image => ret [img_source]
  | folder =>
      ret (filter (fun file => Py.str_in (snd (Py.splitext file)) img_ext_list)
                  (glob w (Py.path_join img_source "*")))
  | video | usb _ | rtsp =>
      let c := match t with usb usb_idx => CapIndex usb_idx
                          | _ => CapPath img_source end in
      emit (VideoCaptureOpen c) ;;;
      if negb (cap_isOpened w c) then
        emit (Print (cannot_open_msg c)) ;;; sys_exit 0
      else if truthy user_res then
        r <- read_res res ;;
        emit (CapSet (fst r) (snd r)) ;;; ret []
      else ret []
  | picamera _ =>
      emit PicameraCreate ;;;
      if negb (truthy user_res) then
        emit (Print "ERROR: Resolusi harus ditentukan untuk sumber Picamera2.") ;;;
        sys_exit 0
      else
        r <- read_res res ;;
        emit (PicameraStart (fst r) (snd r)) ;;; ret []
  end.

Record config : Type := {
  cfg_server_url : string;
  cfg_min_thresh : Q;
  cfg_source_type : source_type;
  cfg_resize : option (Z * Z);
  cfg_record : bool;
  cfg_imgs_list : list string
}.

(** Everything the script does before [while True]. *)
Definition startup (w : world) (a : args) : script event config :=
  t <- resolve_source w (source a) ;;
  res <- parse_resolution (resolution a) ;;
  setup_recording t (resolution a) res (record a) ;;;
  imgs_list <- init_source w t (source a) (resolution a) res ;;
  ret {| cfg_server_url := server_url a;
         cfg_min_thresh := thresh a;
         cfg_source_type := t;
         cfg_resize := res;
         cfg_record := record a;
         cfg_imgs_list := imgs_list |}.

(** *** The inference loop (lines 140-270) *)

Record loop_state : Type := {
  avg_frame_rate : Q;
  frame_rate_buffer : list Q;
  img_count : nat
}.

Definition fps_avg_len : nat := 200.

Definition initial_state : loop_state :=
  {| avg_frame_rate := 0; frame_rate_buffer := []; img_count := 0 |}.

(** What [requests.post], [raise_for_status] and [response.json] do
    for one frame: raise, or hand back the decoded body. *)
Inductive request_outcome : Type :=
| ReqRaises (e : exn)
| ReqJson (results_data : json).

(** The world's answers during one iteration. *)
Record iter_input : Type := {
  in_imread : option frame;
  in_cap_read : bool * option frame;
  in_picamera : option frame;
  in_request : request_outcome;
  in_key : Z;
  in_frame_rate : Q
}.

Inductive acquired : Type :=
| Got (f : option frame) (img_count' : nat)
| Stop.

Definition acquire (cfg : config) (st : loop_state) (inp : iter_input)
  : script event acquired :=
  match cfg_source_type cfg with
  | image | folder =>
      if (List.length (cfg_imgs_list cfg) <=? img_count st)%nat then
        emit (Print "Semua gambar telah diproses. Keluar dari program.") ;;;
        sys_exit 0
      else
        img_filename <- py_index (cfg_imgs_list cfg) (img_count st) ;;
        emit (Imread img_filename) ;;;
        ret (Got (in_imread inp) (S (img_count st)))
  | video | usb _ | rtsp =>
      emit CapRead ;;;
      match in_cap_read inp with
      | (true, Some f) => ret (Got (Some f) (img_count st))
      | _ =>
          emit (Print "Tidak dapat membaca frame dari sumber. Ini menunjukkan sumber terputus atau tidak berfungsi. Keluar dari program.") ;;;
          ret Stop
      end
  | picamera _ =>
      emit PicameraCapture ;;;
      match in_picamera inp with
      | Some f => ret (Got (Some f) (img_count st))
      | None =>
          emit (Print "Tidak dapat membaca frame dari Picamera. Ini menunjukkan kamera terputus atau tidak berfungsi. Keluar dari program.") ;;;
          ret Stop
      end
  end.

(** The message each [except] clause prints (lines 194-203). *)
Definition failure_msg (e : exn) : string :=
  match e with
  | RequestsTimeout _ =>
      "Permintaan server timed out. Pastikan VPS Anda berjalan dan dapat diakses."
  | RequestsConnectionError m =>
      ("Kesalahan koneksi ke server: " ++ m ++
       ". Pastikan URL server benar dan server berjalan.")%string
  | RequestsHTTPError status_code text =>
      ("Kesalahan HTTP dari server: " ++ str_of_Z status_code ++ " - " ++ text)%string
  | JSONDecodeError _ => "Gagal mendekode respons JSON dari server."
  | _ =>
      ("Terjadi kesalahan tak terduga selama komunikasi server: " ++ exn_str e)%string
  end.

(** Lines 185-203: [predictions] starts as the empty list and is only
    rebound by the last statement of the [try] block. *)
Definition request_predictions (cfg : config) (f : frame)
    (r : request_outcome) : script event json :=
  try_except
    (emit (Post (cfg_server_url cfg) f) ;;;
     results_data <- match r with
                     | ReqRaises e => raise e
                     | ReqJson v => ret v
                     end ;;
     Json.get results_data "predictions" (JList []))
    (fun e => Some (emit (Print (failure_msg e)) ;;; ret (JList []))).

(** The OpenCV bindings read every coordinate into a C [int]. *)
Definition in_c_int (z : Z) : bool :=
  (-2147483648 <=? z) && (z <=? 2147483647).

(** What a drawing call raises on an argument it cannot read. *)
Definition cv2_bad_argument : exn :=
  Cv2Error "(-5:Bad argument) Overload resolution failed".

(** A corner handed to an OpenCV drawing call must be an [int] (a [bool]
    or a [float] is refused) that fits a C [int]. *)
Definition as_pixel (v : json) : script event Z :=
  match v with
  | JInt z => if in_c_int z then ret z else raise cv2_bad_argument
  | _ => raise cv2_bad_argument
  end.

(** A point the script computes and hands to a drawing call. *)
Definition cv_point (p : Z * Z) : script event (Z * Z) :=
  if in_c_int (fst p) && in_c_int (snd p) then ret p
  else raise cv2_bad_argument.

(** The least magnitude that rounds to infinity as a double. *)
Definition float_overflow : Z := 2 ^ 1024 - 2 ^ 970.

(** [int(conf*100)] (line 223) raises [OverflowError] when the product of
    a [float] confidence by 100 overflows to infinity; an [int] or [bool]
    confidence is multiplied exactly. *)
Definition percent_overflows (conf : json) : bool :=
  match conf with
  | JFloat q => Qle_bool (inject_Z float_overflow) (Qabs (q * 100))
  | _ => false
  end.

(** Lines 216-229: the threshold test and the drawing calls, on the six
    values read from a detection, the operations drawn so far and
    [object_count]. *)
Definition draw_box (cfg : config) (w : world) (acc : list draw_op * Z)
    (xmin ymin xmax ymax classname conf : json)
  : script event (list draw_op * Z) :=
  match Json.as_number conf with
  | None =>
      raise (TypeError ("'>' not supported between instances of '" ++
                        Json.type_name conf ++ "' and 'float'")%string)
  | Some c =>
      if Qgtb c (cfg_min_thresh cfg) then
        if negb (Json.hashable classname) then
          raise (TypeError ("unhashable type: '" ++
                            Json.type_name classname ++ "'")%string)
        else
          let color_idx :=
            Py.mod_ (py_hash w classname) (Z.of_nat (List.length bbox_colors)) in
          color <- py_getitem bbox_colors color_idx ;;
          x1 <- as_pixel xmin ;;
          y1 <- as_pixel ymin ;;
          x2 <- as_pixel xmax ;;
          y2 <- as_pixel ymax ;;
          if percent_overflows conf then
            raise (OverflowError "cannot convert float infinity to integer")
          else
            let label := LabelText classname c in
            let labelSize := fst (getTextSize w label) in
            let baseLine := snd (getTextSize w label) in
            let label_ymin := Z.max y1 (snd labelSize + 10) in
            pt1 <- cv_point (x1, label_ymin - snd labelSize - 10) ;;
            pt2 <- cv_point (x1 + fst labelSize, label_ymin + baseLine - 10) ;;
            org <- cv_point (x1, label_ymin - 7) ;;
            ret (fst acc ++
                 [Rectangle (x1, y1) (x2, y2) color 2;
                  Rectangle pt1 pt2 color FILLED;
                  PutText label org (0, 0, 0) 1],
                 snd acc + 1)
      else ret acc
  end.

(** The body of [for detection in predictions] (lines 207-229). *)
Definition draw_detection (cfg : config) (w : world)
    (acc : list draw_op * Z) (detection : json)
  : script event (list draw_op * Z) :=
  xmin <- Json.get detection "xmin" (JInt 0) ;;
  ymin <- Json.get detection "ymin" (JInt 0) ;;
  xmax <- Json.get detection "xmax" (JInt 0) ;;
  ymax <- Json.get detection "ymax" (JInt 0) ;;
  classname <- Json.get detection "class_name" (JStr "unknown") ;;
  conf <- Json.get detection "confidence" (JFloat 0) ;;
  draw_box cfg w acc xmin ymin xmax ymax classname conf.

Fixpoint draw_detections (cfg : config) (w : world) (dets : list json)
    (acc : list draw_op * Z) : script event (list draw_op * Z) :=
  match dets with
  | [] => ret acc
  | detection :: rest =>
      acc' <- draw_detection cfg w acc detection ;;
      draw_detections cfg w rest acc'
  end.

(** [cv2.resize] to [(resW, resH)] raises [cv2.error] when a side is not
    positive; whether it succeeds on a positive size (one that fits a C
    [int] and the memory of the machine) is the world's answer. *)
Definition resize_succeeds (w : world) (size : Z * Z) : bool :=
  (0 <? fst size) && (0 <? snd size) && cv2_resize_ok w (fst size) (snd size).

Definition resize_error : exn :=
  Cv2Error "(-215:Assertion failed) !dsize.empty() in function 'resize'".

(** The resize of lines 232-233, where there is one, succeeds. *)
Definition resize_ok (w : world) (cfg : config) : bool :=
  match cfg_resize cfg with
  | Some size => resize_succeeds w size
  | None => true
  end.

(** Lines 205-240: boxes, optional resize, frame rate and count. *)
Definition render (cfg : config) (w : world) (st : loop_state) (f : frame)
    (predictions : json) : script event (display * Z) :=
  dets <- Json.iter predictions ;;
  drawn <- draw_detections cfg w dets ([], 0) ;;
  ops1 <- match cfg_resize cfg with
          | Some (resW, resH) =>
              if resize_succeeds w (resW, resH)
              then ret (fst drawn ++ [Resize resW resH])
              else raise resize_error
          | None => ret (fst drawn)
          end ;;
  let ops2 :=
    if is_stream (cfg_source_type cfg)
    then ops1 ++ [PutText (FpsText (avg_frame_rate st)) (10, 20) (0, 255, 255) 2]
    else ops1 in
  ret ({| base := f;
          ops := ops2 ++ [PutText (CountText (snd drawn)) (10, 40) (0, 255, 255) 2] |},
       snd drawn).

(** What lines 231-240 add to a frame once the boxes are drawn: the
    optional resize, the frame rate for stream sources, the count. *)
Definition annotations (cfg : config) (st : loop_state) (object_count : Z)
  : list draw_op :=
  match cfg_resize cfg with
  | Some (resW, resH) => [Resize resW resH]
  | None => []
  end ++
  (if is_stream (cfg_source_type cfg)
   then [PutText (FpsText (avg_frame_rate st)) (10, 20) (0, 255, 255) 2]
   else []) ++
  [PutText (CountText object_count) (10, 40) (0, 255, 255) 2].

(** The exception, if any, that lines 188-192 raise on what the network
    answered: the one the transport or the decoder raised, or the
    [AttributeError] of [.get] on a body that is not an object. *)
Definition request_failure (r : request_outcome) : option exn :=
  match r with
  | ReqRaises e => Some e
  | ReqJson (JDict _) => None
  | ReqJson v =>
      Some (AttributeError
              ("'" ++ Json.type_name v ++ "' object has no attribute 'get'")%string)
  end.

(** Lines 251-256; [true] stands for [break]. *)
Definition handle_key (key : Z) (d : display) : script event bool :=
  if (key =? Py.ord "q") || (key =? Py.ord "Q") then ret true
  else if (key =? Py.ord "s") || (key =? Py.ord "S") then
    emit (WaitKey None) ;;; ret false
  else if (key =? Py.ord "p") || (key =? Py.ord "P") then
    emit (Imwrite "capture.png" d) ;;; ret false
  else ret false.

(** Lines 263-267. *)
Definition update_frame_rate_buffer (frame_rate_buffer : list Q)
    (frame_rate_calc : Q) : script event (list Q) :=
  if (fps_avg_len <=? List.length frame_rate_buffer)%nat then
    popped <- py_pop0 frame_rate_buffer ;;
    ret (snd popped ++ [frame_rate_calc])
  else ret (frame_rate_buffer ++ [frame_rate_calc]).

(** The buffer after the samples of several completed iterations. *)
Fixpoint feed_samples (samples : list Q) (frame_rate_buffer : list Q)
  : script event (list Q) :=
  match samples with
  | [] => ret frame_rate_buffer
  | x :: rest =>
      buf <- update_frame_rate_buffer frame_rate_buffer x ;;
      feed_samples rest buf
  end.

Inductive control : Type :=
| Continue (st : loop_state)
| Break (st : loop_state).

Definition set_img_count (st : loop_state) (n : nat) : loop_state :=
  {| avg_frame_rate := avg_frame_rate st;
     frame_rate_buffer := frame_rate_buffer st;
     img_count := n |}.

(** One pass through the body of [while True]. *)
Definition iteration (cfg : config) (w : world) (st : loop_state)
    (inp : iter_input) : script event control :=
  a <- acquire cfg st inp ;;
  match a with
  | Stop => ret (Break st)
  | Got None n => ret (Continue (set_img_count st n))
  | Got (Some f) n =>
      predictions <- request_predictions cfg f (in_request inp) ;;
      dc <- render cfg w st f predictions ;;
      emit (Imshow (fst dc)) ;;;
      (if cfg_record cfg then emit (RecorderWrite (fst dc)) else ret tt) ;;;
      emit (WaitKey (if is_stream (cfg_source_type cfg) then Some 5 else None)) ;;;
      stop <- handle_key (in_key inp) (fst dc) ;;
      if (stop : bool) then ret (Break (set_img_count st n))
      else
        buf <- update_frame_rate_buffer (frame_rate_buffer st) (in_frame_rate inp) ;;
        ret (Continue {| avg_frame_rate := np_mean w buf;
                         frame_rate_buffer := buf;
                         img_count := n |})
  end.

Definition state_of (c : control) : loop_state :=
  match c with
  | Continue st => st
  | Break st => st
  end.

(** How a finite run of the loop stands: left by [break], or still
    inside [while True] when the recorded inputs run out. *)
Inductive loop_end : Type :=
| Broke (st : loop_state)
| Running (st : loop_state).

Fixpoint loop (cfg : config) (w : world) (inputs : list iter_input)
    (st : loop_state) : script event loop_end :=
  match inputs with
  | [] => ret (Running st)
  | inp :: rest =>
      c <- iteration cfg w st inp ;;
      match c with
      | Continue st' => loop cfg w rest st'
      | Break st' => ret (Broke st')
      end
  end.

Definition end_state (e : loop_end) : loop_state :=
  match e with
  | Broke st => st
  | Running st => st
  end.

(** *** Clean-up (lines 273-284), reached by [break] only. *)
Definition cleanup (cfg : config) (w : world) (st : loop_state)
  : script event unit :=
  emit (PrintAvgFps (avg_frame_rate st)) ;;;
  match cfg_source_type cfg with
  | video | usb _ | rtsp =>
      if cap_isOpened_at_end w then emit CapRelease else ret tt
  | picamera _ => emit PicameraStop
  | folder | image => ret tt
  end ;;;
  (if cfg_record cfg then
     if recorder_isOpened_at_end w then emit RecorderRelease else ret tt
   else ret tt) ;;;
  emit DestroyAllWindows.

(** The whole script on a finite record of the world's answers. *)
Definition main (w : world) (a : args) (inputs : list iter_input)
  : script event loop_end :=
  cfg <- startup w a ;;
  e <- loop cfg w inputs initial_state ;;
  match e with
  | Broke st => cleanup cfg w st ;;; ret e
  | Running _ => ret e
  end.

End Client.

(** ** [base64.b64decode] of the standard library

    [b64decode(s)] turns a [str] into ASCII bytes (a non-ASCII character
    is a plain [ValueError], anything that is not a string or bytes a
    [TypeError]) and hands them to [binascii.a2b_base64], which in its
    default, non-strict mode skips every character outside the alphabet
    and raises [binascii.Error] only when the data characters do not
    fill their last group of four. *)

Module Base64.

(** [table_a2b_base64]: the 6-bit value of an alphabet character. *)
Definition b64_value (c : ascii) : option Z :=
  let n := Py.ord c in
  if (65 <=? n) && (n <=? 90) then Some (n - 65)
  else if (97 <=? n) && (n <=? 122) then Some (n - 97 + 26)
  else if (48 <=? n) && (n <=? 57) then Some (n - 48 + 52)
  else if n =? 43 then Some 62
  else if n =? 47 then Some 63
  else None.

Definition byte_of (z : Z) : Z := Z.land z 255.

(** The decoding loop: [quad_pos] is the position in the current group
    of four, [leftchar] the bits not yet written, [pads] the padding
    characters seen since the last data character, [n_data] the number
    of data characters, [out] the bytes written so far (reversed). *)
Fixpoint a2b_loop (s : string) (quad_pos leftchar pads n_data : Z)
    (out : list Z) : exn + list Z :=
  match s with
  | EmptyString =>
      if quad_pos =? 0 then inr (rev out)
      else if quad_pos =? 1 then
        inl (BinasciiError
               ("Invalid base64-encoded string: number of data characters ("
                ++ str_of_Z n_data
                ++ ") cannot be 1 more than a multiple of 4")%string)
      else inl (BinasciiError "Incorrect padding")
  | String c r =>
      if Py.chr_eqb c "=" then
        if (2 <=? quad_pos) && (4 <=? quad_pos + (pads + 1)) then inr (rev out)
        else a2b_loop r quad_pos leftchar
                      (if 2 <=? quad_pos then pads + 1 else pads) n_data out
      else
        match b64_value c with
        | None => a2b_loop r quad_pos leftchar pads n_data out
        | Some this_ch =>
            if quad_pos =? 0 then
              a2b_loop r 1 this_ch 0 (n_data + 1) out
            else if quad_pos =? 1 then
              a2b_loop r 2 (Z.land this_ch 15) 0 (n_data + 1)
                (byte_of (Z.lor (Z.shiftl leftchar 2) (Z.shiftr this_ch 4)) :: out)
            else if quad_pos =? 2 then
              a2b_loop r 3 (Z.land this_ch 3) 0 (n_data + 1)
                (byte_of (Z.lor (Z.shiftl leftchar 4) (Z.shiftr this_ch 2)) :: out)
            else
              a2b_loop r 0 0 0 (n_data + 1)
                (byte_of (Z.lor (Z.shiftl leftchar 6) this_ch) :: out)
        end
  end.

Definition a2b_base64 (s : string) : exn + list Z := a2b_loop s 0 0 0 0 [].

Definition is_ascii (s : string) : bool :=
  forallb (fun c => Py.ord c <? 128) (list_ascii_of_string s).

Definition b64decode {E} (s : json) : script E (list Z) :=
  match s with
  | JStr str =>
      if is_ascii str then
        match a2b_base64 str with
        | inr bytes => ret bytes
        | inl e => raise e
        end
      else raise (ValueError "string argument should contain only ASCII characters")
  | _ =>
      raise (TypeError
               ("argument should be a bytes-like object or ASCII string, not '"
                ++ Json.type_name s ++ "'")%string)
  end.

End Base64.

(** ** The inference service: [app_server_x.py] *)

Module Server.

Local Open Scope script_scope.

(** A decoded bitmap; its pixels are opaque to the service. *)
Inductive bitmap : Type :=
| Bitmap (id : N).

(** One box of [results[0].boxes]: corners, class index and score as the
    model's floats. *)
Record raw_box : Type := {
  xyxy : Q * Q * Q * Q;
  cls : Q;
  conf : Q
}.

Record detection : Type := {
  xmin : Z;
  ymin : Z;
  xmax : Z;
  ymax : Z;
  class_name : string;
  confidence : Q
}.

(** [int(x)] on a float: truncation toward zero. *)
Definition int_of_float (q : Q) : Z := Z.quot (Qnum q) (Zpos (Qden q)).

(** The detection model is a black box: on a bitmap it raises or returns
    its boxes. *)
Definition model_fn : Type := bitmap -> exn + list raw_box.

(** The module-level names [model] and [labels]; [None] when the name was
    never bound. *)
Record globals : Type := {
  model : option model_fn;
  labels : option (list (Z * string))
}.

Inductive log : Type :=
| Log (line : string)
| LogInferenceTime
| AppRun (host : string) (port : Z).

(** *** Start-up (lines 13-20 and 75-76) *)

Definition MODEL_PATH : string := "bestnew.pt".

(** What [YOLO(MODEL_PATH, task='detect')] and [model.names] do. *)
Inductive load_outcome : Type :=
| LoadRaises (e : exn)
| NamesRaises (m : model_fn) (e : exn)
| Loaded (m : model_fn) (names : list (Z * string)).

Definition startup_error_msg (e : exn) : string :=
  ("[SERVER STARTUP ERROR] Gagal memuat model YOLO: " ++ exn_str e)%string.

Definition startup_ok_msg (names : list (Z * string)) : string :=
  ("[SERVER STARTUP] Model YOLO '" ++ MODEL_PATH ++ "' berhasil dimuat dengan "
   ++ str_of_Z (Z.of_nat (List.length names)) ++ " kelas.")%string.

(** The [try] / [except Exception] around the load: the handler prints
    and falls through, whatever was bound before the exception stays
    bound. *)
Definition load_model (l : load_outcome) : script log globals :=
  match l with
  | LoadRaises e =>
      emit (Log (startup_error_msg e)) ;;;
      ret {| model := None; labels := None |}
  | NamesRaises m e =>
      emit (Log (startup_error_msg e)) ;;;
      ret {| model := Some m; labels := None |}
  | Loaded m names =>
      emit (Log (startup_ok_msg names)) ;;;
      ret {| model := Some m; labels := Some names |}
  end.

(** The script up to the point where Flask serves requests. *)
Definition server_main (l : load_outcome) : script log globals :=
  g <- load_model l ;;
  emit (AppRun "0.0.0.0" 5001) ;;;
  ret g.

(** *** The [/predict] handler (lines 22-73) *)

(** [request.is_json] and [request.json]; the latter is [None] when the
    body does not parse, which Flask reports as [BadRequest]. *)
Record request : Type := {
  is_json : bool;
  json_body : option json
}.

Inductive body : Type :=
| ErrorBody (error : string)
| PredictionsBody (predictions : list detection).

Definition response : Type := (body * Z)%type.

Definition request_json (r : request) : script log json :=
  match json_body r with
  | Some j => ret j
  | None => raise (BadRequest "Failed to decode JSON object")
  end.

(** ['image' in v] *)
Definition json_contains (k : string) (v : json) : script log bool :=
  match v with
  | JDict d => ret (match Json.assoc k d with Some _ => true | None => false end)
  | JList l =>
      ret (existsb (fun x => match x with JStr s => String.eqb s k | _ => false end) l)
  | JStr s => ret (Py.contains k s)
  | _ =>
      raise (TypeError ("argument of type '" ++ Json.type_name v
                        ++ "' is not iterable")%string)
  end.

(** [v['image']] *)
Definition json_getitem (k : string) (v : json) : script log json :=
  match v with
  | JDict d =>
      match Json.assoc k d with
      | Some x => ret x
      | None => raise (KeyError k)
      end
  | _ =>
      raise (TypeError ("'" ++ Json.type_name v
                        ++ "' object is not subscriptable by str")%string)
  end.

(** [cv2.imdecode] is a black box: it raises, or returns [None], or a
    bitmap. *)
Record world : Type := {
  imdecode : list Z -> exn + option bitmap
}.

Definition lift {A} (r : exn + A) : script log A :=
  match r with
  | inr a => ret a
  | inl e => raise e
  end.

Definition read_model (g : globals) : script log model_fn :=
  match model g with
  | Some m => ret m
  | None => raise (NameError "name 'model' is not defined")
  end.

Definition read_labels (g : globals) : script log (list (Z * string)) :=
  match labels g with
  | Some names => ret names
  | None => raise (NameError "name 'labels' is not defined")
  end.

Fixpoint lookup_label (class_id : Z) (names : list (Z * string)) : option string :=
  match names with
  | [] => None
  | (k, v) :: r => if k =? class_id then Some v else lookup_label class_id r
  end.

(** The body of [for i in range(len(detections))]. *)
Definition extract (g : globals) (b : raw_box) : script log detection :=
  let '(x1, y1, x2, y2) := xyxy b in
  let class_id := int_of_float (cls b) in
  names <- read_labels g ;;
  match lookup_label class_id names with
  | None => raise (KeyError (str_of_Z class_id))
  | Some name =>
      ret {| xmin := int_of_float x1; ymin := int_of_float y1;
             xmax := int_of_float x2; ymax := int_of_float y2;
             class_name := name; confidence := conf b |}
  end.

Fixpoint extract_all (g : globals) (boxes : list raw_box)
    (predictions : list detection) : script log (list detection) :=
  match boxes with
  | [] => ret predictions
  | b :: rest =>
      d <- extract g b ;;
      extract_all g rest (predictions ++ [d])
  end.

Definition missing_image_msg : string :=
  "Permintaan harus dalam format JSON dan menyertakan kunci 'image'.".
Definition undecodable_msg : string :=
  "Gagal mendekode gambar. Pastikan format gambar valid (mis. JPEG, PNG).".
Definition bad_base64_msg : string :=
  "Format string base64 gambar tidak valid.".
Definition internal_error_msg (e : exn) : string :=
  ("Kesalahan internal server: " ++ exn_str e)%string.

Definition predict (w : world) (g : globals) (r : request)
  : script log response :=
  bad <- (if negb (is_json r) then ret true
          else
            j <- request_json r ;;
            has <- json_contains "image" j ;;
            ret (negb has)) ;;
  if (bad : bool) then ret (ErrorBody missing_image_msg, 400)
  else
    j <- request_json r ;;
    image_b64 <- json_getitem "image" j ;;
    try_except
      (image_bytes <- Base64.b64decode image_b64 ;;
       frame <- lift (imdecode w image_bytes) ;;
       match frame with
       | None => ret (ErrorBody undecodable_msg, 400)
       | Some fr =>
           m <- read_model g ;;
           boxes <- lift (m fr) ;;
           emit LogInferenceTime ;;;
           predictions <- extract_all g boxes [] ;;
           ret (PredictionsBody predictions, 200)
       end)
      (fun e =>
         match e with
         | BinasciiError _ =>
             Some (emit (Log "[ERROR] String base64 tidak valid.") ;;;
                   ret (ErrorBody bad_base64_msg, 400))
         | _ =>
             Some (emit (Log ("[ERROR] Terjadi kesalahan saat melakukan prediksi: "
                              ++ exn_str e)%string) ;;;
                   ret (ErrorBody (internal_error_msg e), 500))
         end).

(** What the client of the service sees: the handler's response, or the
    response Flask makes of an exception that escapes the handler. *)
Inductive http_response : Type :=
| Handled (b : body) (status : Z)
| Framework (status : Z).

Definition serve (w : world) (g : globals) (r : request) : http_response :=
  match result_of (predict w g r) with
  | Ret (b, status) => Handled b status
  | Raise (BadRequest _) => Framework 400
  | Raise _ => Framework 500
  | Exit _ => Framework 500
  end.

Definition status_of (h : http_response) : Z :=
  match h with
  | Handled _ status => status
  | Framework status => status
  end.

End Server.

(** ** The source rules as the specification words them

    Section 4.2 of the specification, rule by rule and in its order;
    [classify] is written from that text, not from the script, and is
    what [Client.resolve_source] is compared with. *)

Module SourceRules.

Import Client.

Inductive verdict : Type :=
| Classified (t : source_type)
| UnsupportedFile (ext : string)
| InvalidSource.

Definition is_digit (c : ascii) : bool :=
  match Py.digit_val c with
  | Some _ => true
  | None => false
  end.

Fixpoint all_digits (s : string) : bool :=
  match s with
  | EmptyString => true
  | String c r => is_digit c && all_digits r
  end.

(** "followed by digits": one decimal digit or more, and nothing else. *)
Definition digits (s : string) : bool :=
  negb (String.eqb s EmptyString) && all_digits s.

Fixpoint decimal_value (acc : Z) (s : string) : Z :=
  match s with
  | EmptyString => acc
  | String c r =>
      match Py.digit_val c with
      | Some d => decimal_value (10 * acc + d) r
      | None => acc
      end
  end.

Definition classify (w : world) (s : string) : verdict :=
  if isdir w s then Classified folder
  else if isfile w s then
    let ext := snd (Py.splitext s) in
    if Py.str_in ext img_ext_list then Classified image
    else if Py.str_in ext vid_ext_list then Classified video
    else UnsupportedFile ext
  else if Py.startswith s "usb" && digits (Py.slice_from 3 s) then
    Classified (usb (decimal_value 0 (Py.slice_from 3 s)))
  else if Py.startswith s "picamera" && digits (Py.slice_from 8 s) then
    Classified (picamera (decimal_value 0 (Py.slice_from 8 s)))
  else if Py.startswith s "rtsp://" then Classified rtsp
  else InvalidSource.

(** The script carries out a verdict on [s]: it goes on with the source
    type, or prints the error of the verdict and terminates. *)
Definition realises (s : string) (m : script event source_type) (v : verdict)
  : Prop :=
  match v with
  | Classified t => m = ret t
  | UnsupportedFile ext =>
      exists code, m = (Exit code, [Print (unsupported_ext_msg ext)])
  | InvalidSource =>
      exists code, m = (Exit code, [Print (invalid_source_msg s)])
  end.

(** A text no longer than [int] accepts digits. *)
Definition within_int_limit (s : string) : bool :=
  Z.of_nat (String.length s) <=? Py.int_max_str_digits.

(** A camera prefix, where there is one and the string is no existing
    path, is followed by digits only, and by no more of them than [int]
    converts. *)
Definition camera_index_is_digits (w : world) (s : string) : bool :=
  isdir w s || isfile w s ||
  (if Py.startswith s "usb" then
     digits (Py.slice_from 3 s) && within_int_limit (Py.slice_from 3 s)
   else if Py.startswith s "picamera" then
     digits (Py.slice_from 8 s) && within_int_limit (Py.slice_from 8 s)
   else true).

End SourceRules.

(** ** Invalid command lines *)

Module Cli.

Import Client.

(** The source string is no existing path and has none of the three
    prefixes. *)
Definition no_source_rule (w : world) (s : string) : bool :=
  negb (isdir w s) && negb (isfile w s) && negb (Py.startswith s "usb")
  && negb (Py.startswith s "picamera") && negb (Py.startswith s "rtsp://").

(** The source is an existing file whose extension is on neither list. *)
Definition unsupported_file (w : world) (s : string) : bool :=
  negb (isdir w s) && isfile w s
  && negb (Py.str_in (snd (Py.splitext s)) img_ext_list)
  && negb (Py.str_in (snd (Py.splitext s)) vid_ext_list).

Definition source_ok (w : world) (s : string) : bool :=
  match result_of (resolve_source w s) with
  | Ret _ => true
  | _ => false
  end.

(** [int] rejects the width, or accepts it and rejects the height. *)
Definition resolution_value_error (s : string) : bool :=
  match Py.split "x" s with
  | p0 :: rest =>
      match Py.int_of_str p0 with
      | None => true
      | Some _ =>
          match rest with
          | p1 :: _ =>
              match Py.int_of_str p1 with
              | None => true
              | Some _ => false
              end
          | [] => false
          end
      end
  | [] => false
  end.

Definition malformed_resolution (user_res : option string) : bool :=
  match user_res with
  | Some s => truthy user_res && resolution_value_error s
  | None => false
  end.

Definition record_without_resolution (a : args) : bool :=
  record a && negb (truthy (resolution a)).

(** The source string is no existing path, has a camera prefix, and
    [int] rejects what follows the prefix. *)
Definition bad_camera_index (w : world) (s : string) : bool :=
  negb (isdir w s) && negb (isfile w s) &&
  (if Py.startswith s "usb" then
     match Py.int_of_str (Py.slice_from 3 s) with Some _ => false | None => true end
   else if Py.startswith s "picamera" then
     match Py.int_of_str (Py.slice_from 8 s) with Some _ => false | None => true end
   else false).

(** The resolution has no "x" and [int] accepts it whole: [split] gives
    one part, and index 1 is out of range. *)
Definition resolution_without_x (user_res : option string) : bool :=
  match user_res with
  | Some s =>
      truthy user_res &&
      match Py.split "x" s with
      | [p0] => match Py.int_of_str p0 with Some _ => true | None => false end
      | _ => false
      end
  | None => false
  end.

(** The invalid command lines: an unsupported source string (no rule
    applies, an existing file of unsupported extension, a camera prefix
    without an index [int] reads), a malformed resolution (a width or a
    height [int] rejects, or no "x"), or [--record] without
    [--resolution]. *)
Definition invalid_combination (w : world) (a : args) : bool :=
  no_source_rule w (source a) || unsupported_file w (source a)
  || bad_camera_index w (source a)
  || malformed_resolution (resolution a) || resolution_without_x (resolution a)
  || record_without_resolution a.

(** How the script ends on an invalid command line. *)
Inductive ending : Type :=
| Diagnostic
| UncaughtValueError
| UncaughtIndexError.

(** The source is examined first (lines 55-80), then the resolution
    (lines 82-90), then [--record] (lines 92-99). *)
Definition ending_of (w : world) (a : args) : ending :=
  if no_source_rule w (source a) || unsupported_file w (source a) then Diagnostic
  else if bad_camera_index w (source a) then UncaughtValueError
  else if resolution_without_x (resolution a) then UncaughtIndexError
  else Diagnostic.

(** An event that touches a frame. *)
Definition frame_event (e : event) : bool :=
  match e with
  | Imread _ | CapRead | PicameraCapture | Post _ _ | Imshow _
  | RecorderWrite _ | Imwrite _ _ => true
  | _ => false
  end.

End Cli.

(** ** Detections on the wire and on the frame *)

Module Wire.

Import Client.

(** The JSON object the service sends for one detection (lines 57-64 of
    the server). *)
Definition to_json (d : Server.detection) : json :=
  JDict [("xmin", JInt (Server.xmin d));
         ("ymin", JInt (Server.ymin d));
         ("xmax", JInt (Server.xmax d));
         ("ymax", JInt (Server.ymax d));
         ("class_name", JStr (Server.class_name d));
         ("confidence", JFloat (Server.confidence d))].

(** [conf > min_thresh] *)
Definition above (cfg : config) (d : Server.detection) : bool :=
  Qgtb (Server.confidence d) (cfg_min_thresh cfg).

(** The palette entry of a class name: [bbox_colors[hash(classname) % 20]]. *)
Definition palette_color (w : world) (classname : json) : color :=
  nth (Z.to_nat (Py.mod_ (py_hash w classname)
                         (Z.of_nat (List.length bbox_colors))))
      bbox_colors (0, 0, 0).

Definition color_of (w : world) (classname : string) : color :=
  palette_color w (JStr classname).

(** The box, the label background and the label of one detection, on the
    four corners, the class name and the confidence read from it. *)
Definition detection_ops (w : world) (x1 y1 x2 y2 : Z) (classname : json)
    (c : Q) : list draw_op :=
  let label := LabelText classname c in
  let labelSize := fst (getTextSize w label) in
  let baseLine := snd (getTextSize w label) in
  let label_ymin := Z.max y1 (snd labelSize + 10) in
  let color := palette_color w classname in
  [Rectangle (x1, y1) (x2, y2) color 2;
   Rectangle (x1, label_ymin - snd labelSize - 10)
             (x1 + fst labelSize, label_ymin + baseLine - 10)
             color FILLED;
   PutText label (x1, label_ymin - 7) (0, 0, 0) 1].

Definition box_ops (w : world) (d : Server.detection) : list draw_op :=
  detection_ops w (Server.xmin d) (Server.ymin d) (Server.xmax d)
                (Server.ymax d) (JStr (Server.class_name d))
                (Server.confidence d).

(** The values of one detection are ones the drawing code can use: a
    class name [hash] accepts, corners and label coordinates that fit a
    C [int], and a confidence whose percentage [int] converts. *)
Definition drawable (w : world) (x1 y1 x2 y2 : Z) (classname conf : json)
    (c : Q) : bool :=
  let label := LabelText classname c in
  let labelSize := fst (getTextSize w label) in
  let baseLine := snd (getTextSize w label) in
  let label_ymin := Z.max y1 (snd labelSize + 10) in
  Json.hashable classname
  && in_c_int x1 && in_c_int y1 && in_c_int x2 && in_c_int y2
  && negb (percent_overflows conf)
  && in_c_int (label_ymin - snd labelSize - 10)
  && in_c_int (x1 + fst labelSize)
  && in_c_int (label_ymin + baseLine - 10)
  && in_c_int (label_ymin - 7).

Definition drawable_box (w : world) (d : Server.detection) : bool :=
  drawable w (Server.xmin d) (Server.ymin d) (Server.xmax d) (Server.ymax d)
           (JStr (Server.class_name d)) (JFloat (Server.confidence d))
           (Server.confidence d).

(** A detection the drawing loop gets past: one under the threshold, or
    one it can draw. *)
Definition passes (cfg : config) (w : world) (d : Server.detection) : bool :=
  negb (above cfg d) || drawable_box w d.

(** [d.get(k, default)] on the fields of a JSON object. *)
Definition field (d : list (string * json)) (k : string) (default : json)
  : json :=
  match Json.assoc k d with
  | Some v => v
  | None => default
  end.






End Wire.

(** ** Concrete worlds and inputs, for running the scripts *)

Module Sample.

Import Client.

(** A machine on which [test.jpg] and [clip.mp4] are files, [shots] is a
    directory, every capture opens, every class name hashes to 7, and a
    frame can be resized up to 4096 x 4096.  [np.mean] is given as the
    exact mean, which is what NumPy returns for the samples used below:
    their sums are small integers and their means integers or halves. *)
Definition machine : world :=
  {| isdir := fun p => String.eqb p "shots";
     isfile := fun p => String.eqb p "test.jpg" || String.eqb p "clip.mp4";
     glob := fun _ => ["shots/a.jpg"; "shots/notes.txt"; "shots/b.png"];
     cap_isOpened := fun _ => true;
     cap_isOpened_at_end := true;
     recorder_isOpened_at_end := true;
     py_hash := fun _ => 7;
     getTextSize := fun _ => ((60, 12), 4);
     cv2_resize_ok := fun resW resH => (resW * resH <=? 4096 * 4096);
     np_mean := fun l =>
       Qred (fold_right Qplus 0 l / inject_Z (Z.of_nat (List.length l)))%Q |}.

Definition cli (source : string) (resolution : option string) (record : bool)
  : args :=
  {| server_url := "http://10.0.0.5:5001/predict";
     source := source;
     thresh := 1 # 2;
     resolution := resolution;
     record := record |}.

Definition image_cfg : config :=
  {| cfg_server_url := "http://10.0.0.5:5001/predict";
     cfg_min_thresh := 1 # 2;
     cfg_source_type := image;
     cfg_resize := None;
     cfg_record := false;
     cfg_imgs_list := ["test.jpg"] |}.

Definition video_cfg : config :=
  {| cfg_server_url := "http://10.0.0.5:5001/predict";
     cfg_min_thresh := 1 # 2;
     cfg_source_type := video;
     cfg_resize := Some (640, 480);
     cfg_record := true;
     cfg_imgs_list := [] |}.

(** One iteration's answers: a readable frame, the given reply of the
    server, the given key, and a frame-rate sample. *)
Definition answers (r : request_outcome) (key : Z) (fps : Q) : iter_input :=
  {| in_imread := Some (Frame 1);
     in_cap_read := (true, Some (Frame 1));
     in_picamera := Some (Frame 1);
     in_request := r;
     in_key := key;
     in_frame_rate := fps |}.

Definition no_key : Z := -1.

(** A run of 4301 digits, one more than [int] converts. *)
Definition long_digits : string :=
  string_of_list_ascii (repeat "7"%char 4301).

Definition space_key : Z := 32.

(** [cv2.imdecode] on this machine: no bytes is an OpenCV error, bytes
    that start with the JPEG marker 255, 216 decode, anything else is
    [None]. *)
Definition decoder : Server.world :=
  {| Server.imdecode := fun bytes =>
       match bytes with
       | [] => inl (Cv2Error "(-215:Assertion failed) !buf.empty() in function 'imdecode_'")
       | 255 :: 216 :: _ => inr (Some (Server.Bitmap 1))
       | _ => inr None
       end |}.

Definition post (v : json) : Server.request :=
  {| Server.is_json := true; Server.json_body := Some v |}.

(** The one-character string of code point 233. *)
Definition e_acute : string := String (ascii_of_nat 233) EmptyString.

Definition degraded : Server.globals :=
  {| Server.model := None; Server.labels := None |}.

End Sample.

(** ** Notions used to state further properties *)

(** The character [sep] does not occur in [s]. *)
Definition sep_free (sep : ascii) (s : string) : Prop :=
  forall j, String.get j s <> Some sep.

(** ** [base64.b64encode] of the standard library

    The client sends [base64.b64encode(img_encoded.tobytes())] (line
    182), that is [binascii.b2a_base64] without the final newline: the
    bytes are shifted into [leftchar] eight bits at a time, every six
    bits that are ready leave as one character of the alphabet, and the
    last two or four bits are padded with [=]. *)

Module Base64Encode.

Definition table_b2a_base64 : string :=
  "ABCDEFGHIJKLMNOPQRSTUVWXYZabcdefghijklmnopqrstuvwxyz0123456789+/".

Definition b64_char (this_ch : Z) : ascii :=
  match String.get (Z.to_nat this_ch) table_b2a_base64 with
  | Some c => c
  | None => "="%char
  end.

(** [unsigned int leftchar] *)
Definition wrap32 (z : Z) : Z := Z.land z 4294967295.

(** The inner [while (leftbits >= 6)]: the characters that leave and the
    bits that stay. *)
Fixpoint drain (fuel : nat) (leftchar leftbits : Z) : string * Z :=
  match fuel with
  | O => (EmptyString, leftbits)
  | S fuel' =>
      if 6 <=? leftbits then
        let this_ch := Z.land (Z.shiftr leftchar (leftbits - 6)) 63 in
        let rest := drain fuel' leftchar (leftbits - 6) in
        (String (b64_char this_ch) (fst rest), snd rest)
      else (EmptyString, leftbits)
  end.

Fixpoint b2a_loop (bin_data : list Z) (leftchar leftbits : Z) : string :=
  match bin_data with
  | [] =>
      if leftbits =? 2 then
        String (b64_char (Z.shiftl (Z.land leftchar 3) 4)) "=="
      else if leftbits =? 4 then
        String (b64_char (Z.shiftl (Z.land leftchar 15) 2)) "="
      else EmptyString
  | b :: rest =>
      let leftchar' := wrap32 (Z.lor (Z.shiftl leftchar 8) b) in
      let out := drain (Z.to_nat (leftbits + 8)) leftchar' (leftbits + 8) in
      (fst out ++ b2a_loop rest leftchar' (snd out))%string
  end.

Definition b64encode (bin_data : list Z) : string := b2a_loop bin_data 0 0.

(** A byte string: every element is in 0..255. *)
Definition is_bytes (bin_data : list Z) : bool :=
  forallb (fun b => (0 <=? b) && (b <? 256)) bin_data.

End Base64Encode.

(** The number of characters of the base64 alphabet in a text. *)
Fixpoint count_data (s : string) : Z :=
  match s with
  | EmptyString => 0
  | String c r =>
      match Base64.b64_value c with
      | Some _ => 1 + count_data r
      | None => count_data r
      end
  end.

(** The detection the service makes of a box of the model, when the
    class index has a name (lines 45-64 of the server). *)
Definition to_detection (names : list (Z * string)) (b : Server.raw_box)
  : Server.detection :=
  let '(x1, y1, x2, y2) := Server.xyxy b in
  {| Server.xmin := Server.int_of_float x1;
     Server.ymin := Server.int_of_float y1;
     Server.xmax := Server.int_of_float x2;
     Server.ymax := Server.int_of_float y2;
     Server.class_name :=
       match Server.lookup_label (Server.int_of_float (Server.cls b)) names with
       | Some name => name
       | None => EmptyString
       end;
     Server.confidence := Server.conf b |}.

Definition has_label (names : list (Z * string)) (b : Server.raw_box) : bool :=
  match Server.lookup_label (Server.int_of_float (Server.cls b)) names with
  | Some _ => true
  | None => false
  end.

(** The events an iteration may emit once its frame is acquired, under a
    configuration and the key read in that iteration: the request, the
    log lines, the display, the key wait; a write to the recording only
    with [--record]; a snapshot only to [capture.png] and on the [p]
    key. *)
Definition after_acquire_ok (cfg : Client.config) (key : Z)
    (e : Client.event) : bool :=
  match e with
  | Client.Print _ | Client.Post _ _ | Client.Imshow _ | Client.WaitKey _ => true
  | Client.RecorderWrite _ => Client.cfg_record cfg
  | Client.Imwrite name _ =>
      String.eqb name "capture.png"
      && ((key =? Py.ord "p") || (key =? Py.ord "P"))
  | _ => false
  end.

(** The events of acquiring a frame from a source of the given type. *)
Definition acquire_ok (cfg : Client.config) (e : Client.event) : bool :=
  match e with
  | Client.Print _ => true
  | Client.Imread _ => negb (Client.is_stream (Client.cfg_source_type cfg))
  | Client.CapRead =>
      match Client.cfg_source_type cfg with
      | Client.video | Client.usb _ | Client.rtsp => true
      | _ => false
      end
  | Client.PicameraCapture =>
      match Client.cfg_source_type cfg with
      | Client.picamera _ => true
      | _ => false
      end
  | _ => false
  end.

Definition iteration_event_ok (cfg : Client.config) (key : Z)
    (e : Client.event) : bool :=
  acquire_ok cfg e || after_acquire_ok cfg key e.

(** The image files read, in the order of the trace. *)
Definition reads (tr : list Client.event) : list string :=
  flat_map (fun e => match e with Client.Imread file => [file] | _ => [] end) tr.

(** * Properties *)

(** ** The script monad *)

Section ScriptLemmas.

Context {E A B : Type}.

Lemma bind_ret_l (a : A) (k : A -> script E B) : bind (ret a) k = k a.
Proof. unfold bind, ret. destruct (k a) as [o t]. reflexivity. Qed.

Lemma bind_ret_inv (m : script E A) (k : A -> script E B) (b : B) :
  result_of (bind m k) = Ret b ->
  exists a t, m = (Ret a, t) /\ result_of (k a) = Ret b.
Proof.
  destruct m as [[a | c | e] t]; cbn.
  - destruct (k a) as [o t2] eqn:Hk. cbn. intros ->.
    exists a, t. split; [reflexivity | now rewrite Hk].
  - discriminate.
  - discriminate.
Qed.

Lemma bind_ok (m : script E A) (k : A -> script E B) (a : A) (t : list E) :
  m = (Ret a, t) ->
  bind m k = (fst (k a), t ++ snd (k a)).
Proof. intros ->. cbn. destruct (k a). reflexivity. Qed.

Lemma bind_exit (m : script E A) (k : A -> script E B) (c : Z) (t : list E) :
  m = (Exit c, t) -> bind m k = (Exit c, t).
Proof. intros ->. reflexivity. Qed.

Lemma bind_raise (m : script E A) (k : A -> script E B) (e : exn) (t : list E) :
  m = (Raise e, t) -> bind m k = (Raise e, t).
Proof. intros ->. reflexivity. Qed.

End ScriptLemmas.

(** ** The frame-rate buffer *)

Import Client.

(** The update is total: [pop(0)] is only called on a buffer that holds
    at least [fps_avg_len] samples. *)
Lemma update_frame_rate_buffer_eq (buf : list Q) (x : Q) :
  update_frame_rate_buffer buf x =
  ret (if (fps_avg_len <=? List.length buf)%nat then tl buf ++ [x] else buf ++ [x]).
Proof.
  unfold update_frame_rate_buffer.
  destruct buf as [| y r].
  - reflexivity.
  - destruct (fps_avg_len <=? List.length (y :: r))%nat; reflexivity.
Qed.

Lemma update_frame_rate_buffer_length (buf buf' : list Q) (x : Q) :
  (List.length buf <= fps_avg_len)%nat ->
  result_of (update_frame_rate_buffer buf x) = Ret buf' ->
  (List.length buf' <= fps_avg_len)%nat.
Proof.
  rewrite update_frame_rate_buffer_eq. unfold result_of, ret. cbn [fst].
  intros Hlen.
  destruct (Nat.leb_spec fps_avg_len (List.length buf)) as [Hfull | Hroom];
    intros Heq; injection Heq as <-; rewrite List.length_app; cbn [List.length].
  - destruct buf; cbn [tl List.length] in *; unfold fps_avg_len in *; lia.
  - lia.
Qed.

Lemma feed_samples_eq (samples buf : list Q) :
  (List.length buf <= fps_avg_len)%nat ->
  feed_samples samples buf =
  ret (skipn (List.length (buf ++ samples) - fps_avg_len) (buf ++ samples)).
Proof.
  revert buf. induction samples as [| x rest IH]; intros buf Hlen.
  - cbn [feed_samples]. rewrite app_nil_r.
    replace (List.length buf - fps_avg_len)%nat with 0%nat by lia.
    reflexivity.
  - cbn [feed_samples]. rewrite update_frame_rate_buffer_eq, bind_ret_l.
    destruct (Nat.leb_spec fps_avg_len (List.length buf)) as [Hfull | Hroom].
    + destruct buf as [| y r];
        [cbn [List.length] in Hfull; unfold fps_avg_len in Hfull; lia |].
      cbn [tl List.length] in *.
      rewrite IH by (rewrite List.length_app; cbn [List.length]; lia).
      rewrite <- app_assoc. cbn [app].
      replace (List.length (y :: r ++ x :: rest) - fps_avg_len)%nat
        with (S (List.length (r ++ x :: rest) - fps_avg_len))%nat.
      * reflexivity.
      * cbn [List.length]. rewrite List.length_app. cbn [List.length].
        unfold fps_avg_len in *. lia.
    + rewrite IH by (rewrite List.length_app; cbn [List.length]; lia).
      rewrite <- app_assoc. reflexivity.
Qed.

(** What one iteration does to the buffer: it leaves it alone (no frame,
    or the loop is left), or it pushes this iteration's sample and
    recomputes the average over the new buffer. *)
Ltac bind_inv H :=
  apply bind_ret_inv in H;
  let a := fresh "a" in
  let t := fresh "t" in
  let Ha := fresh "Hrun" in
  destruct H as (a & t & Ha & H).

Lemma iteration_buffer (cfg : config) (w : world) (st : loop_state)
    (inp : iter_input) (c : control) :
  result_of (iteration cfg w st inp) = Ret c ->
  frame_rate_buffer (state_of c) = frame_rate_buffer st \/
  (update_frame_rate_buffer (frame_rate_buffer st) (in_frame_rate inp)
     = ret (frame_rate_buffer (state_of c)) /\
   avg_frame_rate (state_of c) = np_mean w (frame_rate_buffer (state_of c))).
Proof.
  unfold iteration. intros H. bind_inv H.
  destruct a as [[f |] n |].
  - do 6 bind_inv H. destruct a4.
    + injection H as <-. left. reflexivity.
    + bind_inv H. injection H as <-. right. cbn [state_of frame_rate_buffer avg_frame_rate].
      split; [| reflexivity].
      rewrite update_frame_rate_buffer_eq in Hrun6 |- *.
      unfold ret in Hrun6. injection Hrun6 as <- <-. reflexivity.
  - injection H as <-. left. reflexivity.
  - injection H as <-. left. reflexivity.
Qed.

Lemma iteration_buffer_bounded (cfg : config) (w : world) (st : loop_state)
    (inp : iter_input) (c : control) :
  (List.length (frame_rate_buffer st) <= fps_avg_len)%nat ->
  result_of (iteration cfg w st inp) = Ret c ->
  (List.length (frame_rate_buffer (state_of c)) <= fps_avg_len)%nat.
Proof.
  intros Hlen H. destruct (iteration_buffer _ _ _ _ _ H) as [-> | [Hupd _]].
  - exact Hlen.
  - eapply update_frame_rate_buffer_length; [exact Hlen |].
    rewrite Hupd. reflexivity.
Qed.

Lemma loop_buffer_bounded (cfg : config) (w : world) (inputs : list iter_input) :
  forall (st : loop_state) (e : loop_end),
    (List.length (frame_rate_buffer st) <= fps_avg_len)%nat ->
    result_of (loop cfg w inputs st) = Ret e ->
    (List.length (frame_rate_buffer (end_state e)) <= fps_avg_len)%nat.
Proof.
  induction inputs as [| inp rest IH]; intros st e Hlen H.
  - cbn in H. injection H as <-. exact Hlen.
  - cbn [loop] in H. bind_inv H.
    assert (Hc : result_of (iteration cfg w st inp) = Ret a)
      by (rewrite Hrun; reflexivity).
    pose proof (iteration_buffer_bounded _ _ _ _ _ Hlen Hc) as Hlen'.
    destruct a as [st' | st'].
    + eapply IH; [exact Hlen' | exact H].
    + injection H as <-. exact Hlen'.
Qed.

(** C2. The frame-rate buffer never holds more than [fps_avg_len] = 200
    samples: every iteration of the loop preserves the bound, and so
    does every run of the loop from the initial state.  A sample pushed
    on a full buffer evicts the oldest one first, so after 201 samples
    the buffer, and with it the rolling average, is made of the last 200
    and the first sample is gone. *)
Theorem frame_rate_buffer_bounded_fifo :
  fps_avg_len = 200%nat /\
  (forall cfg w st inp c,
      (List.length (frame_rate_buffer st) <= fps_avg_len)%nat ->
      result_of (iteration cfg w st inp) = Ret c ->
      (List.length (frame_rate_buffer (state_of c)) <= fps_avg_len)%nat) /\
  (forall cfg w inputs e,
      result_of (loop cfg w inputs initial_state) = Ret e ->
      (List.length (frame_rate_buffer (end_state e)) <= fps_avg_len)%nat) /\
  (forall oldest rest x,
      List.length (oldest :: rest) = fps_avg_len ->
      update_frame_rate_buffer (oldest :: rest) x = ret (rest ++ [x])) /\
  (forall first rest,
      List.length rest = fps_avg_len ->
      feed_samples (first :: rest) [] = ret rest).
Proof.
  split; [reflexivity |].
  split; [exact iteration_buffer_bounded |].
  split.
  { intros cfg w inputs e H. eapply loop_buffer_bounded; [| exact H].
    cbn. unfold fps_avg_len. lia. }
  split.
  { intros oldest rest x Hlen. rewrite update_frame_rate_buffer_eq.
    rewrite Hlen, Nat.leb_refl. reflexivity. }
  intros first rest Hlen.
  rewrite feed_samples_eq by (cbn; lia).
  cbn [app List.length]. rewrite Hlen.
  replace (S fps_avg_len - fps_avg_len)%nat with 1%nat by lia.
  reflexivity.
Qed.

Lemma frame_rate_buffer_bounded_fifo_witness :
  (exists c,
      result_of (iteration Sample.video_cfg Sample.machine initial_state
                   (Sample.answers (ReqJson (JDict [])) Sample.no_key (30 # 1)))
      = Ret c /\
      (List.length (frame_rate_buffer (state_of c)) <= fps_avg_len)%nat) /\
  update_frame_rate_buffer ((7 # 1) :: repeat (30 # 1) 199) (25 # 1)
    = ret (repeat (30 # 1) 199 ++ [25 # 1]) /\
  feed_samples ((7 # 1) :: repeat (30 # 1) 200) [] = ret (repeat (30 # 1) 200).
Proof.
  destruct frame_rate_buffer_bounded_fifo as (_ & Hiter & _ & Hfifo & Hfeed).
  split; [| split].
  - eexists. split; [vm_compute; reflexivity |].
    apply (Hiter Sample.video_cfg Sample.machine initial_state
             (Sample.answers (ReqJson (JDict [])) Sample.no_key (30 # 1))).
    + unfold fps_avg_len. simpl. lia.
    + vm_compute. reflexivity.
  - apply Hfifo. vm_compute. reflexivity.
  - apply Hfeed. vm_compute. reflexivity.
Defined.

(** ** One iteration of the loop *)

Lemma render_eq_gen (cfg : config) (w : world) (st : loop_state) (f : frame)
    (predictions : json) :
  render cfg w st f predictions =
  (dets <- Json.iter predictions ;;
   drawn <- draw_detections cfg w dets ([], 0) ;;
   if resize_ok w cfg then
     ret ({| base := f; ops := fst drawn ++ annotations cfg st (snd drawn) |},
          snd drawn)
   else raise resize_error)%script.
Proof.
  unfold render, annotations, resize_ok.
  destruct (Json.iter predictions) as [[dets | c | e] t]; try reflexivity.
  cbn [bind].
  destruct (draw_detections cfg w dets ([], 0)) as [[drawn | c | e] t2];
    try reflexivity.
  cbn [bind ret].
  destruct (cfg_resize cfg) as [[resW resH] |];
    [destruct (resize_succeeds w (resW, resH)) |];
    destruct (is_stream (cfg_source_type cfg));
    cbn [app bind ret raise fst snd]; rewrite <- ?app_assoc; reflexivity.
Qed.

Lemma render_eq (cfg : config) (w : world) (st : loop_state) (f : frame)
    (predictions : json) :
  resize_ok w cfg = true ->
  render cfg w st f predictions =
  (dets <- Json.iter predictions ;;
   drawn <- draw_detections cfg w dets ([], 0) ;;
   ret ({| base := f; ops := fst drawn ++ annotations cfg st (snd drawn) |},
        snd drawn))%script.
Proof.
  intros Hres. rewrite render_eq_gen, Hres. reflexivity.
Qed.

Lemma request_predictions_failure (cfg : config) (f : frame)
    (r : request_outcome) (e : exn) :
  request_failure r = Some e ->
  request_predictions cfg f r =
  (Ret (JList []), [Post (cfg_server_url cfg) f; Print (failure_msg e)]).
Proof.
  unfold request_failure, request_predictions.
  destruct r as [e' | v].
  - intros [= ->]. reflexivity.
  - destruct v; intros [= <-]; reflexivity.
Qed.

Lemma handle_key_result (key : Z) (d : display) :
  result_of (handle_key key d) =
  Ret ((key =? Py.ord "q") || (key =? Py.ord "Q")).
Proof.
  unfold handle_key.
  destruct ((key =? Py.ord "q") || (key =? Py.ord "Q")); [reflexivity |].
  destruct ((key =? Py.ord "s") || (key =? Py.ord "S")); [reflexivity |].
  destruct ((key =? Py.ord "p") || (key =? Py.ord "P")); reflexivity.
Qed.

(** The iteration once [predictions] is known to be a list on which the
    drawing loop ends with [drawn]. *)
Lemma iteration_after_request (cfg : config) (w : world) (st : loop_state)
    (inp : iter_input) (f : frame) (n : nat) (tacq treq tdraw : list event)
    (dets : list json) (drawn : list draw_op * Z) :
  resize_ok w cfg = true ->
  acquire cfg st inp = (Ret (Got (Some f) n), tacq) ->
  request_predictions cfg f (in_request inp) = (Ret (JList dets), treq) ->
  draw_detections cfg w dets ([], 0) = (Ret drawn, tdraw) ->
  let shown := {| base := f; ops := fst drawn ++ annotations cfg st (snd drawn) |} in
  let quit := (in_key inp =? Py.ord "q") || (in_key inp =? Py.ord "Q") in
  let buf :=
    if (fps_avg_len <=? List.length (frame_rate_buffer st))%nat
    then tl (frame_rate_buffer st) ++ [in_frame_rate inp]
    else frame_rate_buffer st ++ [in_frame_rate inp] in
  iteration cfg w st inp =
  (Ret (if quit then Break (set_img_count st n)
        else Continue {| avg_frame_rate := np_mean w buf;
                         frame_rate_buffer := buf;
                         img_count := n |}),
   tacq ++ treq ++ tdraw ++ [Imshow shown]
     ++ (if cfg_record cfg then [RecorderWrite shown] else [])
     ++ [WaitKey (if is_stream (cfg_source_type cfg) then Some 5 else None)]
     ++ trace_of (handle_key (in_key inp) shown)).
Proof.
  intros Hres Hacq Hreq Hdraw shown quit buf.
  unfold iteration. rewrite Hacq. cbn [bind]. rewrite Hreq. cbn [bind].
  rewrite render_eq by exact Hres. cbn [Json.iter ret bind]. rewrite Hdraw.
  cbn [bind ret fst snd emit]. fold shown.
  pose proof (handle_key_result (in_key inp) shown) as Hkey. fold quit in Hkey.
  destruct (handle_key (in_key inp) shown) as [okey tkey].
  unfold result_of in Hkey. cbn [fst] in Hkey. subst okey.
  unfold trace_of. cbn [snd].
  rewrite update_frame_rate_buffer_eq. fold buf.
  destruct (cfg_record cfg), quit; cbn [bind ret emit app];
    rewrite ?app_nil_r, <- ?app_assoc; cbn [app]; reflexivity.
Qed.

(** C3. When the inference request of an iteration fails, whatever the
    exception (time-out, connection error, HTTP error status, undecodable
    JSON, or anything else deriving from [Exception]), the iteration
    prints the message of the matching [except] clause, shows the frame
    with no box and an object count of 0, and ends as an iteration with
    no detection does: it leaves the loop only on the quit key, and
    otherwise the loop goes on with the next iteration.  The display
    resolution, where one is set, is one [cv2.resize] accepts: with a
    side that is not positive every frame ends the script at line 233,
    whether its request failed or not. *)
Theorem failed_request_zero_detections_loop_continues
    (cfg : config) (w : world) (st : loop_state) (inp : iter_input)
    (f : frame) (n : nat) (tacq : list event) (e : exn)
    (rest : list iter_input) :
  resize_ok w cfg = true ->
  acquire cfg st inp = (Ret (Got (Some f) n), tacq) ->
  request_failure (in_request inp) = Some e ->
  let blank := {| base := f; ops := annotations cfg st 0 |} in
  let quit := (in_key inp =? Py.ord "q") || (in_key inp =? Py.ord "Q") in
  let buf :=
    if (fps_avg_len <=? List.length (frame_rate_buffer st))%nat
    then tl (frame_rate_buffer st) ++ [in_frame_rate inp]
    else frame_rate_buffer st ++ [in_frame_rate inp] in
  let st' := {| avg_frame_rate := np_mean w buf;
                frame_rate_buffer := buf;
                img_count := n |} in
  let events :=
    tacq ++ [Post (cfg_server_url cfg) f; Print (failure_msg e); Imshow blank]
      ++ (if cfg_record cfg then [RecorderWrite blank] else [])
      ++ [WaitKey (if is_stream (cfg_source_type cfg) then Some 5 else None)]
      ++ trace_of (handle_key (in_key inp) blank) in
  iteration cfg w st inp =
    (Ret (if quit then Break (set_img_count st n) else Continue st'), events) /\
  (quit = false ->
   loop cfg w (inp :: rest) st =
     (result_of (loop cfg w rest st'), events ++ trace_of (loop cfg w rest st'))).
Proof.
  intros Hres Hacq Hfail blank quit buf st' events.
  assert (Hit : iteration cfg w st inp =
                (Ret (if quit then Break (set_img_count st n) else Continue st'),
                 events)).
  { rewrite (iteration_after_request cfg w st inp f n tacq
               [Post (cfg_server_url cfg) f; Print (failure_msg e)] []
               [] ([], 0) Hres Hacq
               (request_predictions_failure cfg f _ e Hfail) eq_refl).
    reflexivity. }
  split; [exact Hit |].
  intros Hq. cbn [loop]. rewrite Hit, Hq. cbn [bind].
  destruct (loop cfg w rest st') as [o t]. reflexivity.
Qed.

Lemma failed_request_zero_detections_loop_continues_witness :
  let inp := Sample.answers (ReqRaises (RequestsTimeout "read timed out"))
                            Sample.no_key (30 # 1) in
  let blank := {| base := Frame 1;
                  ops := [Resize 640 480;
                          PutText (FpsText 0) (10, 20) (0, 255, 255) 2;
                          PutText (CountText 0) (10, 40) (0, 255, 255) 2] |} in
  iteration Sample.video_cfg Sample.machine initial_state inp =
    (Ret (Continue {| avg_frame_rate := 30 # 1;
                      frame_rate_buffer := [30 # 1];
                      img_count := 0 |}),
     [CapRead; Post "http://10.0.0.5:5001/predict" (Frame 1);
      Print "Permintaan server timed out. Pastikan VPS Anda berjalan dan dapat diakses.";
      Imshow blank; RecorderWrite blank; WaitKey (Some 5)]).
Proof.
  intros inp blank.
  apply (proj1 (failed_request_zero_detections_loop_continues
                  Sample.video_cfg Sample.machine initial_state inp
                  (Frame 1) 0 [CapRead] (RequestsTimeout "read timed out") []
                  eq_refl eq_refl eq_refl)).
Defined.

(** ** Source rules *)

Import SourceRules.

Lemma digit_not_space (c : ascii) (d : Z) :
  Py.digit_val c = Some d -> Py.is_int_space c = false.
Proof.
  unfold Py.digit_val, Py.is_int_space.
  destruct ((48 <=? Py.ord c) && (Py.ord c <=? 57)) eqn:H; [| discriminate].
  intros _. apply andb_true_iff in H. destruct H as [H1 H2].
  apply Z.leb_le in H1, H2.
  repeat (apply orb_false_iff; split).
  - apply andb_false_iff. right. apply Z.leb_gt. lia.
  - apply Z.eqb_neq. lia.
  - apply Z.eqb_neq. lia.
  - apply Z.eqb_neq. lia.
Qed.

Lemma int_body_digits (s : string) :
  forall (st : Py.int_state) (acc : Z),
    all_digits s = true ->
    (st = Py.AfterDigit \/ (st = Py.NeedDigit /\ s <> EmptyString)) ->
    Py.int_body st acc s = Some (decimal_value acc s).
Proof.
  induction s as [| c r IH]; intros st acc Hall Hst.
  - destruct Hst as [-> | [_ Hne]]; [reflexivity | congruence].
  - cbn [all_digits] in Hall. apply andb_true_iff in Hall.
    destruct Hall as [Hc Hr]. unfold is_digit in Hc.
    cbn [Py.int_body decimal_value].
    destruct (Py.digit_val c) as [d |] eqn:Hd; [| discriminate].
    destruct Hst as [-> | [-> _]]; apply IH; auto.
Qed.

Lemma count_digits_all (s : string) :
  all_digits s = true -> Py.count_digits s = Z.of_nat (String.length s).
Proof.
  induction s as [| c r IH]; [reflexivity |].
  cbn [all_digits Py.count_digits String.length]. unfold is_digit.
  destruct (Py.digit_val c); [| discriminate].
  cbn [andb]. intros H. rewrite (IH H). lia.
Qed.

Lemma int_literal_digits (s : string) :
  digits s = true -> Py.int_literal s = Some (decimal_value 0 s).
Proof.
  unfold digits. intros H. apply andb_true_iff in H. destruct H as [Hne Hall].
  destruct s as [| c r]; [discriminate |].
  assert (Hc : is_digit c = true).
  { cbn [all_digits] in Hall. apply andb_true_iff in Hall. tauto. }
  unfold is_digit in Hc.
  destruct (Py.digit_val c) as [d |] eqn:Hd; [| discriminate].
  unfold Py.int_literal. cbn [Py.lstrip].
  rewrite (digit_not_space c d Hd).
  assert (Hsign : c <> "+"%char /\ c <> "-"%char).
  { split; intros ->; vm_compute in Hd; discriminate. }
  destruct Hsign as [Hplus Hminus].
  transitivity (Py.int_body Py.NeedDigit 0 (String c r)).
  - destruct c as [[] [] [] [] [] [] [] []]; try reflexivity; congruence.
  - apply int_body_digits; [exact Hall |]. right. split; congruence.
Qed.

Lemma digits_all (s : string) : digits s = true -> all_digits s = true.
Proof.
  unfold digits. intros H. apply andb_true_iff in H. tauto.
Qed.

(** [int] on a run of digits: its decimal value up to 4300 digits,
    [ValueError] beyond. *)
Lemma int_of_digits (s : string) :
  digits s = true -> within_int_limit s = true ->
  Py.int_of_str s = Some (decimal_value 0 s).
Proof.
  intros Hd Hlim. unfold Py.int_of_str.
  rewrite (int_literal_digits s Hd), (count_digits_all s (digits_all s Hd)).
  unfold within_int_limit in Hlim. apply Z.leb_le in Hlim.
  destruct (Z.ltb_spec Py.int_max_str_digits (Z.of_nat (String.length s)));
    [lia | reflexivity].
Qed.

Lemma int_of_long_digits (s : string) :
  digits s = true -> within_int_limit s = false ->
  Py.int_of_str s = None.
Proof.
  intros Hd Hlim. unfold Py.int_of_str.
  rewrite (int_literal_digits s Hd), (count_digits_all s (digits_all s Hd)).
  unfold within_int_limit in Hlim. apply Z.leb_gt in Hlim.
  destruct (Z.ltb_spec Py.int_max_str_digits (Z.of_nat (String.length s)));
    [reflexivity | lia].
Qed.

Lemma resolve_source_camera (w : world) (s : string) (n : Z) :
  isdir w s = false -> isfile w s = false ->
  (Py.startswith s "usb" = true ->
   Py.int_of_str (Py.slice_from 3 s) = Some n ->
   resolve_source w s = ret (usb n)) /\
  (Py.startswith s "usb" = false -> Py.startswith s "picamera" = true ->
   Py.int_of_str (Py.slice_from 8 s) = Some n ->
   resolve_source w s = ret (picamera n)).
Proof.
  intros Hd Hf. unfold resolve_source, Py.int. rewrite Hd, Hf. split.
  - intros -> ->. reflexivity.
  - intros -> -> ->. reflexivity.
Qed.

Lemma resolve_source_no_rule (w : world) (s : string) :
  Cli.no_source_rule w s = true ->
  resolve_source w s = (Exit 0, [Print (invalid_source_msg s)]).
Proof.
  unfold Cli.no_source_rule, resolve_source. intros H.
  repeat (apply andb_true_iff in H; destruct H as [H ?]).
  repeat match goal with
         | Hn : negb _ = true |- _ => apply negb_true_iff in Hn; rewrite Hn
         end.
  reflexivity.
Qed.

Lemma resolve_source_follows_rules (w : world) (s : string) :
  camera_index_is_digits w s = true ->
  realises s (resolve_source w s) (classify w s).
Proof.
  unfold camera_index_is_digits, classify, resolve_source.
  destruct (isdir w s); [intros _; reflexivity |].
  destruct (isfile w s).
  - intros _. cbv zeta.
    destruct (Py.str_in (snd (Py.splitext s)) img_ext_list); [reflexivity |].
    destruct (Py.str_in (snd (Py.splitext s)) vid_ext_list); [reflexivity |].
    exists 0. reflexivity.
  - cbn [orb].
    destruct (Py.startswith s "usb").
    + intros Hdig. apply andb_true_iff in Hdig. destruct Hdig as [Hdig Hlim].
      rewrite Hdig. cbn [andb realises].
      unfold Py.int. rewrite (int_of_digits _ Hdig Hlim). reflexivity.
    + cbn [andb]. destruct (Py.startswith s "picamera").
      * intros Hdig. apply andb_true_iff in Hdig. destruct Hdig as [Hdig Hlim].
        rewrite Hdig. cbn [andb realises].
        unfold Py.int. rewrite (int_of_digits _ Hdig Hlim). reflexivity.
      * intros _. cbn [andb].
        destruct (Py.startswith s "rtsp://"); [reflexivity |].
        exists 0. reflexivity.
Qed.

(** C5, as amended.  The resolver applies the rules in their order: an
    existing directory is a folder of images, whatever the rest of the
    string; an existing file is an image or a video by its extension, or
    an unsupported file; then the prefix "usb" and then the prefix
    "picamera" give a camera whose index is what [int] reads in the rest
    of the string, which for a rest made of at most 4300 digits is the
    spec's rule; then "rtsp://" gives a network stream; a string that is
    no existing path and has none of the prefixes fails with the
    invalid-source message and terminates.  A camera prefix followed by
    more than 4300 digits ends the script with the uncaught [ValueError]
    of [int]. *)
Theorem source_rules_in_order (w : world) (s : string) :
  (isdir w s = true -> resolve_source w s = ret folder) /\
  (camera_index_is_digits w s = true ->
   realises s (resolve_source w s) (classify w s)) /\
  (isdir w s = false -> isfile w s = false ->
   forall n,
     (Py.startswith s "usb" = true ->
      Py.int_of_str (Py.slice_from 3 s) = Some n ->
      resolve_source w s = ret (usb n)) /\
     (Py.startswith s "usb" = false -> Py.startswith s "picamera" = true ->
      Py.int_of_str (Py.slice_from 8 s) = Some n ->
      resolve_source w s = ret (picamera n))) /\
  (Cli.no_source_rule w s = true ->
   resolve_source w s = (Exit 0, [Print (invalid_source_msg s)])) /\
  (isdir w s = false -> isfile w s = false ->
   (Py.startswith s "usb" = true /\
    digits (Py.slice_from 3 s) = true /\
    within_int_limit (Py.slice_from 3 s) = false) \/
   (Py.startswith s "usb" = false /\ Py.startswith s "picamera" = true /\
    digits (Py.slice_from 8 s) = true /\
    within_int_limit (Py.slice_from 8 s) = false) ->
   exists msg, resolve_source w s = (Raise (ValueError msg), [])).
Proof.
  split; [| split; [| split; [| split]]].
  - unfold resolve_source. intros ->. reflexivity.
  - apply resolve_source_follows_rules.
  - intros Hd Hf n. apply resolve_source_camera; assumption.
  - apply resolve_source_no_rule.
  - intros Hd Hf H. unfold resolve_source, Py.int. rewrite Hd, Hf.
    destruct H as [(-> & Hdig & Hlim) | (-> & -> & Hdig & Hlim)];
      rewrite (int_of_long_digits _ Hdig Hlim); eexists; reflexivity.
Qed.

Lemma source_rules_in_order_witness :
  resolve_source Sample.machine "shots" = ret folder /\
  realises "picamera0" (resolve_source Sample.machine "picamera0")
           (Classified (picamera 0)) /\
  resolve_source Sample.machine "usb 2" = ret (usb 2) /\
  resolve_source Sample.machine "webcam" =
    (Exit 0, [Print (invalid_source_msg "webcam")]) /\
  (exists msg,
      resolve_source Sample.machine ("usb" ++ Sample.long_digits)%string =
      (Raise (ValueError msg), [])).
Proof.
  split; [| split; [| split; [| split]]].
  - apply (proj1 (source_rules_in_order Sample.machine "shots")).
    vm_compute. reflexivity.
  - apply (proj1 (proj2 (source_rules_in_order Sample.machine "picamera0"))).
    vm_compute. reflexivity.
  - apply (proj1 (proj2 (proj2 (source_rules_in_order Sample.machine "usb 2")))
             eq_refl eq_refl 2); vm_compute; reflexivity.
  - apply (proj1 (proj2 (proj2 (proj2
             (source_rules_in_order Sample.machine "webcam"))))).
    vm_compute. reflexivity.
  - apply (proj2 (proj2 (proj2 (proj2
             (source_rules_in_order Sample.machine
                ("usb" ++ Sample.long_digits)%string))))).
    + vm_compute. reflexivity.
    + vm_compute. reflexivity.
    + left. repeat split; vm_compute; reflexivity.
Defined.

(** The property as the specification states it fails on "usb-1": no rule
    of the specification matches the string (the rest after "usb" is not
    made of digits), so it should be an invalid source, but the script
    takes it for the USB camera of index -1. *)
Lemma source_rules_counterexample :
  classify Sample.machine "usb-1" = InvalidSource /\
  resolve_source Sample.machine "usb-1" = ret (usb (-1)) /\
  ~ realises "usb-1" (resolve_source Sample.machine "usb-1")
                      (classify Sample.machine "usb-1").
Proof.
  split; [vm_compute; reflexivity |].
  split; [vm_compute; reflexivity |].
  vm_compute. intros [code H]. discriminate H.
Qed.

Example resolve_source_letters_after_usb :
  exists msg, resolve_source Sample.machine "usbcam" = (Raise (ValueError msg), []).
Proof. eexists. vm_compute. reflexivity. Qed.

(** ** Invalid command lines *)

Lemma resolve_source_ok (w : world) (s : string) :
  Cli.source_ok w s = true -> exists t, resolve_source w s = ret t.
Proof.
  unfold Cli.source_ok, resolve_source, Py.int.
  destruct (isdir w s); [intros _; eexists; reflexivity |].
  destruct (isfile w s).
  - cbv zeta.
    destruct (Py.str_in (snd (Py.splitext s)) img_ext_list);
      [intros _; eexists; reflexivity |].
    destruct (Py.str_in (snd (Py.splitext s)) vid_ext_list);
      [intros _; eexists; reflexivity |].
    discriminate.
  - destruct (Py.startswith s "usb").
    { destruct (Py.int_of_str (Py.slice_from 3 s));
        [intros _; eexists; reflexivity | discriminate]. }
    destruct (Py.startswith s "picamera").
    { destruct (Py.int_of_str (Py.slice_from 8 s));
        [intros _; eexists; reflexivity | discriminate]. }
    destruct (Py.startswith s "rtsp://");
      [intros _; eexists; reflexivity | discriminate].
Qed.

Lemma resolve_source_unsupported (w : world) (s : string) :
  Cli.unsupported_file w s = true ->
  resolve_source w s =
  (Exit 0, [Print (unsupported_ext_msg (snd (Py.splitext s)))]).
Proof.
  unfold Cli.unsupported_file, resolve_source. intros H.
  repeat (apply andb_true_iff in H; destruct H as [H ?]).
  repeat match goal with
         | Hn : negb _ = true |- _ => apply negb_true_iff in Hn
         end.
  cbv zeta.
  repeat match goal with
         | Hn : _ = _ |- _ => rewrite Hn; clear Hn
         end.
  reflexivity.
Qed.

Lemma parse_resolution_malformed (s : string) :
  Cli.malformed_resolution (Some s) = true ->
  parse_resolution (Some s) = (Exit 0, [Print (bad_resolution_msg s)]).
Proof.
  unfold Cli.malformed_resolution, Cli.resolution_value_error, parse_resolution.
  intros H. apply andb_true_iff in H. destruct H as [Ht H]. rewrite Ht.
  unfold Py.int.
  destruct (Py.split "x" s) as [| p0 rest]; [discriminate |].
  cbn [py_index nth_error]. rewrite bind_ret_l.
  destruct (Py.int_of_str p0) as [resW |]; [| reflexivity].
  rewrite !bind_ret_l.
  destruct rest as [| p1 rest']; [discriminate |].
  cbn [py_index nth_error]. rewrite bind_ret_l.
  destruct (Py.int_of_str p1) as [resH |]; [discriminate | reflexivity].
Qed.

Lemma record_without_resolution_exits (t : source_type) (a : args) :
  Cli.record_without_resolution a = true ->
  parse_resolution (resolution a) = ret None /\
  exists msg,
    setup_recording t (resolution a) None (record a) = (Exit 0, [Print msg]).
Proof.
  unfold Cli.record_without_resolution, parse_resolution, setup_recording.
  intros H. apply andb_true_iff in H. destruct H as [-> H].
  apply negb_true_iff in H. rewrite H. split.
  - destruct (resolution a); reflexivity.
  - destruct (is_stream t); eexists; reflexivity.
Qed.

Lemma resolve_source_bad_camera (w : world) (s : string) :
  Cli.bad_camera_index w s = true ->
  exists msg, resolve_source w s = (Raise (ValueError msg), []).
Proof.
  unfold Cli.bad_camera_index, resolve_source, Py.int. intros H.
  apply andb_true_iff in H. destruct H as [H Hidx].
  apply andb_true_iff in H. destruct H as [Hd Hf].
  apply negb_true_iff in Hd, Hf. rewrite Hd, Hf.
  destruct (Py.startswith s "usb").
  { destruct (Py.int_of_str (Py.slice_from 3 s));
      [discriminate | eexists; reflexivity]. }
  destruct (Py.startswith s "picamera"); [| discriminate].
  destruct (Py.int_of_str (Py.slice_from 8 s));
    [discriminate | eexists; reflexivity].
Qed.

(** A source string that none of the three failures applies to is
    accepted. *)
Lemma resolve_source_accepts (w : world) (s : string) :
  Cli.no_source_rule w s = false ->
  Cli.unsupported_file w s = false ->
  Cli.bad_camera_index w s = false ->
  exists t, resolve_source w s = ret t.
Proof.
  unfold Cli.no_source_rule, Cli.unsupported_file, Cli.bad_camera_index,
    resolve_source, Py.int.
  destruct (isdir w s); [intros _ _ _; eexists; reflexivity |].
  destruct (isfile w s); cbn [negb andb].
  - intros _ H _. cbv zeta.
    destruct (Py.str_in (snd (Py.splitext s)) img_ext_list);
      [eexists; reflexivity |].
    destruct (Py.str_in (snd (Py.splitext s)) vid_ext_list);
      [eexists; reflexivity | discriminate].
  - intros Hno _ Hbad.
    destruct (Py.startswith s "usb").
    { destruct (Py.int_of_str (Py.slice_from 3 s));
        [eexists; reflexivity | discriminate]. }
    destruct (Py.startswith s "picamera").
    { destruct (Py.int_of_str (Py.slice_from 8 s));
        [eexists; reflexivity | discriminate]. }
    destruct (Py.startswith s "rtsp://");
      [eexists; reflexivity | discriminate].
Qed.

Lemma parse_resolution_without_x (user_res : option string) :
  Cli.resolution_without_x user_res = true ->
  exists msg, parse_resolution user_res = (Raise (IndexError msg), []).
Proof.
  unfold Cli.resolution_without_x, parse_resolution.
  destruct user_res as [s |]; [| discriminate].
  intros H. apply andb_true_iff in H. destruct H as [-> H].
  unfold Py.int.
  destruct (Py.split "x" s) as [| p0 [| p1 rest]]; try discriminate.
  cbn [py_index nth_error]. rewrite bind_ret_l.
  destruct (Py.int_of_str p0) as [resW |]; [| discriminate].
  eexists. reflexivity.
Qed.

Lemma malformed_not_without_x (user_res : option string) :
  Cli.malformed_resolution user_res = true ->
  Cli.resolution_without_x user_res = false.
Proof.
  unfold Cli.malformed_resolution, Cli.resolution_without_x,
    Cli.resolution_value_error.
  destruct user_res as [s |]; [| reflexivity].
  intros H. apply andb_true_iff in H. destruct H as [-> H]. cbn [andb].
  destruct (Py.split "x" s) as [| p0 [| p1 rest]]; try reflexivity.
  destruct (Py.int_of_str p0); [discriminate | reflexivity].
Qed.

Lemma record_not_without_x (a : args) :
  Cli.record_without_resolution a = true ->
  Cli.resolution_without_x (resolution a) = false.
Proof.
  unfold Cli.record_without_resolution, Cli.resolution_without_x.
  intros H. apply andb_true_iff in H. destruct H as [_ H].
  apply negb_true_iff in H. rewrite H. destruct (resolution a); reflexivity.
Qed.

(** C4, as amended.  On an invalid command line (an unsupported source
    string: one no rule applies to, an existing file of unsupported
    extension, or a camera prefix not followed by an index [int] reads;
    a malformed resolution: a width or height [int] rejects, or no "x";
    or [--record] without [--resolution]) the script ends before any
    frame is read, sent or shown.  It ends with one diagnostic message
    and exit status 0, except in two cases where an exception goes
    uncaught and no message of the script is printed: the [ValueError]
    of [int] on the camera index, and the [IndexError] of a resolution
    without "x". *)
Theorem invalid_cli_exits_before_any_frame
    (w : world) (a : args) (inputs : list iter_input) :
  Cli.invalid_combination w a = true ->
  existsb Cli.frame_event (trace_of (main w a inputs)) = false /\
  match Cli.ending_of w a with
  | Cli.Diagnostic => exists msg, main w a inputs = (Exit 0, [Print msg])
  | Cli.UncaughtValueError =>
      exists msg, main w a inputs = (Raise (ValueError msg), [])
  | Cli.UncaughtIndexError =>
      exists msg, main w a inputs = (Raise (IndexError msg), [])
  end.
Proof.
  intros H.
  assert (Hmain :
            match Cli.ending_of w a with
            | Cli.Diagnostic => exists msg, main w a inputs = (Exit 0, [Print msg])
            | Cli.UncaughtValueError =>
                exists msg, main w a inputs = (Raise (ValueError msg), [])
            | Cli.UncaughtIndexError =>
                exists msg, main w a inputs = (Raise (IndexError msg), [])
            end).
  { unfold Cli.invalid_combination in H. unfold Cli.ending_of, main, startup.
    destruct (Cli.no_source_rule w (source a)) eqn:Hno.
    { rewrite (resolve_source_no_rule _ _ Hno). eexists. reflexivity. }
    destruct (Cli.unsupported_file w (source a)) eqn:Hun.
    { rewrite (resolve_source_unsupported _ _ Hun). eexists. reflexivity. }
    destruct (Cli.bad_camera_index w (source a)) eqn:Hbad.
    { destruct (resolve_source_bad_camera _ _ Hbad) as [msg ->].
      exists msg. reflexivity. }
    cbn [orb] in H |- *.
    destruct (resolve_source_accepts _ _ Hno Hun Hbad) as [t ->].
    rewrite bind_ret_l.
    destruct (Cli.resolution_without_x (resolution a)) eqn:Hx.
    { destruct (parse_resolution_without_x _ Hx) as [msg ->].
      exists msg. reflexivity. }
    rewrite orb_false_r in H.
    apply orb_true_iff in H. destruct H as [H | H].
    - destruct (resolution a) as [s |] eqn:Hres; [| discriminate].
      rewrite (parse_resolution_malformed _ H). eexists. reflexivity.
    - destruct (record_without_resolution_exits t a H) as [-> [msg Hrec]].
      rewrite bind_ret_l, Hrec. exists msg. reflexivity. }
  split; [| exact Hmain].
  destruct (Cli.ending_of w a); destruct Hmain as [msg ->]; reflexivity.
Qed.

Lemma invalid_cli_exits_before_any_frame_witness :
  (exists msg,
      main Sample.machine (Sample.cli "clip.mp4" None true)
           [Sample.answers (ReqJson (JDict [])) Sample.no_key (30 # 1)]
      = (Exit 0, [Print msg])) /\
  (exists msg,
      main Sample.machine (Sample.cli "usb0" (Some "wide") false) []
      = (Exit 0, [Print msg])) /\
  (exists msg,
      main Sample.machine (Sample.cli "usbcam" None true) []
      = (Raise (ValueError msg), [])) /\
  (exists msg,
      main Sample.machine (Sample.cli "usb0" (Some "640") false) []
      = (Raise (IndexError msg), [])).
Proof.
  split; [| split; [| split]].
  - apply (proj2 (invalid_cli_exits_before_any_frame Sample.machine
                    (Sample.cli "clip.mp4" None true)
                    [Sample.answers (ReqJson (JDict [])) Sample.no_key (30 # 1)]
                    eq_refl)).
  - apply (proj2 (invalid_cli_exits_before_any_frame Sample.machine
                    (Sample.cli "usb0" (Some "wide") false) [] eq_refl)).
  - apply (proj2 (invalid_cli_exits_before_any_frame Sample.machine
                    (Sample.cli "usbcam" None true) [] eq_refl)).
  - apply (proj2 (invalid_cli_exits_before_any_frame Sample.machine
                    (Sample.cli "usb0" (Some "640") false) [] eq_refl)).
Defined.

(** The property as the specification states it asks for a non-zero exit
    status; [--record] without [--resolution] ends with [sys.exit(0)]. *)
Lemma invalid_cli_counterexample :
  let a := Sample.cli "clip.mp4" None true in
  Cli.record_without_resolution a = true /\
  main Sample.machine a [] =
    (Exit 0, [Print "Harap tentukan resolusi untuk merekam video."]) /\
  ~ (exists code, code <> 0 /\ result_of (main Sample.machine a []) = Exit code).
Proof.
  split; [reflexivity |].
  split; [vm_compute; reflexivity |].
  intros [code [Hne H]]. vm_compute in H. injection H as <-. apply Hne. reflexivity.
Qed.

(** ** Drawing the detections *)

Import Wire.

Lemma py_getitem_in_range {E A : Type} (l : list A) (i : Z) (default : A) :
  0 <= i < Z.of_nat (List.length l) ->
  @py_getitem E A l i = ret (nth (Z.to_nat i) l default).
Proof.
  intros [Hlo Hhi]. unfold py_getitem, py_index.
  apply Z.leb_le in Hlo as Hlo'. apply Z.ltb_lt in Hhi as Hhi'.
  rewrite Hlo', Hhi'. cbn [andb].
  assert (Hn : (Z.to_nat i < List.length l)%nat) by lia.
  destruct (nth_error l (Z.to_nat i)) as [x |] eqn:Hx.
  - rewrite (nth_error_nth _ _ default Hx). reflexivity.
  - apply nth_error_None in Hx. lia.
Qed.

Lemma color_idx_in_range (w : world) (classname : json) :
  0 <= Py.mod_ (py_hash w classname) (Z.of_nat (List.length bbox_colors))
    < Z.of_nat (List.length bbox_colors).
Proof. unfold Py.mod_. apply Z.mod_pos_bound. cbn. lia. Qed.

Lemma palette_color_in_palette (w : world) (classname : json) :
  In (palette_color w classname) bbox_colors.
Proof.
  unfold palette_color. apply nth_In.
  pose proof (color_idx_in_range w classname). lia.
Qed.

(** The loop body reads the six fields with their defaults and hands
    them to the drawing code. *)
Lemma draw_detection_dict (cfg : config) (w : world) (acc : list draw_op * Z)
    (d : list (string * json)) :
  draw_detection cfg w acc (JDict d) =
  draw_box cfg w acc
           (field d "xmin" (JInt 0)) (field d "ymin" (JInt 0))
           (field d "xmax" (JInt 0)) (field d "ymax" (JInt 0))
           (field d "class_name" (JStr "unknown"))
           (field d "confidence" (JFloat 0)).
Proof.
  unfold draw_detection, field. cbn [Json.get]. rewrite !bind_ret_l.
  reflexivity.
Qed.

Lemma draw_box_below (cfg : config) (w : world) (acc : list draw_op * Z)
    (xmin ymin xmax ymax classname conf : json) (c : Q) :
  Json.as_number conf = Some c ->
  Qgtb c (cfg_min_thresh cfg) = false ->
  draw_box cfg w acc xmin ymin xmax ymax classname conf = ret acc.
Proof.
  intros Hc Hgt. unfold draw_box. rewrite Hc, Hgt. reflexivity.
Qed.

Lemma draw_box_drawn (cfg : config) (w : world) (acc : list draw_op * Z)
    (x1 y1 x2 y2 : Z) (classname conf : json) (c : Q) :
  Json.as_number conf = Some c ->
  Qgtb c (cfg_min_thresh cfg) = true ->
  drawable w x1 y1 x2 y2 classname conf c = true ->
  draw_box cfg w acc (JInt x1) (JInt y1) (JInt x2) (JInt y2) classname conf =
  ret (fst acc ++ detection_ops w x1 y1 x2 y2 classname c, snd acc + 1).
Proof.
  intros Hc Hgt Hd. unfold drawable in Hd. cbv zeta in Hd.
  apply andb_true_iff in Hd. destruct Hd as [Hd Horg].
  apply andb_true_iff in Hd. destruct Hd as [Hd Hp2y].
  apply andb_true_iff in Hd. destruct Hd as [Hd Hp2x].
  apply andb_true_iff in Hd. destruct Hd as [Hd Hp1y].
  apply andb_true_iff in Hd. destruct Hd as [Hd Hov].
  apply andb_true_iff in Hd. destruct Hd as [Hd Hy2].
  apply andb_true_iff in Hd. destruct Hd as [Hd Hx2].
  apply andb_true_iff in Hd. destruct Hd as [Hd Hy1].
  apply andb_true_iff in Hd. destruct Hd as [Hhash Hx1].
  apply negb_true_iff in Hov.
  unfold draw_box. rewrite Hc, Hgt, Hhash. cbn [negb].
  rewrite (py_getitem_in_range bbox_colors _ (0, 0, 0)
             (color_idx_in_range w classname)).
  rewrite bind_ret_l. cbn [as_pixel]. rewrite Hx1, Hy1, Hx2, Hy2.
  rewrite !bind_ret_l. rewrite Hov. cbv zeta. unfold cv_point. cbn [fst snd].
  rewrite Hx1, Hp1y, Hp2x, Hp2y, Horg. cbn [andb]. rewrite !bind_ret_l.
  reflexivity.
Qed.

(** Above the threshold, values that are not drawable end the script:
    [TypeError] of [hash], [cv2.error] of a drawing call, or
    [OverflowError] of [int]. *)
Lemma draw_box_fails (cfg : config) (w : world) (acc : list draw_op * Z)
    (x1 y1 x2 y2 : Z) (classname conf : json) (c : Q) :
  Json.as_number conf = Some c ->
  Qgtb c (cfg_min_thresh cfg) = true ->
  drawable w x1 y1 x2 y2 classname conf c = false ->
  exists e,
    draw_box cfg w acc (JInt x1) (JInt y1) (JInt x2) (JInt y2) classname conf =
    (Raise e, []).
Proof.
  intros Hc Hgt Hd. unfold drawable in Hd. cbv zeta in Hd.
  unfold draw_box. rewrite Hc, Hgt.
  destruct (Json.hashable classname); cbn [negb]; [| eexists; reflexivity].
  rewrite (py_getitem_in_range bbox_colors _ (0, 0, 0)
             (color_idx_in_range w classname)).
  rewrite bind_ret_l. cbn [as_pixel].
  destruct (in_c_int x1) eqn:Hx1; [rewrite bind_ret_l | eexists; reflexivity].
  destruct (in_c_int y1) eqn:Hy1; [rewrite bind_ret_l | eexists; reflexivity].
  destruct (in_c_int x2) eqn:Hx2; [rewrite bind_ret_l | eexists; reflexivity].
  destruct (in_c_int y2) eqn:Hy2; [rewrite bind_ret_l | eexists; reflexivity].
  destruct (percent_overflows conf); [eexists; reflexivity |].
  cbv zeta. unfold cv_point. cbn [fst snd]. rewrite Hx1. cbn [andb negb] in *.
  match goal with
  | |- context [in_c_int (?a - ?b - 10)] =>
      destruct (in_c_int (a - b - 10));
        [rewrite bind_ret_l | eexists; reflexivity]
  end.
  match goal with
  | |- context [in_c_int (x1 + ?a)] =>
      destruct (in_c_int (x1 + a)); [| eexists; reflexivity]
  end.
  match goal with
  | |- context [in_c_int (?a + ?b - 10)] =>
      destruct (in_c_int (a + b - 10));
        [cbn [andb]; rewrite bind_ret_l | eexists; reflexivity]
  end.
  match goal with
  | |- context [in_c_int (?a - 7)] =>
      destruct (in_c_int (a - 7)); [discriminate Hd | eexists; reflexivity]
  end.
Qed.

Lemma draw_detection_wire (cfg : config) (w : world) (acc : list draw_op * Z)
    (d : Server.detection) :
  passes cfg w d = true ->
  draw_detection cfg w acc (to_json d) =
  ret (if above cfg d then (fst acc ++ box_ops w d, snd acc + 1) else acc).
Proof.
  unfold passes, to_json. intros H. rewrite draw_detection_dict.
  unfold field. cbn [Json.assoc String.eqb Ascii.eqb Bool.eqb].
  destruct (above cfg d) eqn:Ha.
  - apply draw_box_drawn; [reflexivity | exact Ha | exact H].
  - apply (draw_box_below _ _ _ _ _ _ _ _ _ (Server.confidence d));
      [reflexivity | exact Ha].
Qed.

Lemma draw_detection_wire_fails (cfg : config) (w : world)
    (acc : list draw_op * Z) (d : Server.detection) :
  passes cfg w d = false ->
  exists e, draw_detection cfg w acc (to_json d) = (Raise e, []).
Proof.
  unfold passes, to_json. intros H. apply orb_false_iff in H.
  destruct H as [Ha Hd]. apply negb_false_iff in Ha.
  rewrite draw_detection_dict.
  unfold field. cbn [Json.assoc String.eqb Ascii.eqb Bool.eqb].
  apply (draw_box_fails _ _ _ _ _ _ _ _ _ (Server.confidence d));
    [reflexivity | exact Ha | exact Hd].
Qed.

Lemma draw_detections_wire (cfg : config) (w : world)
    (dets : list Server.detection) :
  forallb (passes cfg w) dets = true ->
  forall acc : list draw_op * Z,
    draw_detections cfg w (map to_json dets) acc =
    ret (fst acc ++ flat_map (box_ops w) (filter (above cfg) dets),
         snd acc + Z.of_nat (List.length (filter (above cfg) dets))).
Proof.
  induction dets as [| d rest IH]; intros H acc.
  - cbn. rewrite app_nil_r, Z.add_0_r. destruct acc. reflexivity.
  - cbn [forallb] in H. apply andb_true_iff in H. destruct H as [Hd Hrest].
    cbn [map draw_detections].
    rewrite (draw_detection_wire _ _ _ _ Hd), bind_ret_l, (IH Hrest).
    cbn [filter]. destruct (above cfg d).
    + cbn [fst snd flat_map List.length]. rewrite <- app_assoc.
      f_equal. f_equal. lia.
    + reflexivity.
Qed.

Lemma draw_detections_wire_fails (cfg : config) (w : world)
    (dets : list Server.detection) :
  forallb (passes cfg w) dets = false ->
  forall acc : list draw_op * Z,
    exists e, draw_detections cfg w (map to_json dets) acc = (Raise e, []).
Proof.
  induction dets as [| d rest IH]; intros H acc; [discriminate |].
  cbn [forallb] in H. cbn [map draw_detections].
  destruct (passes cfg w d) eqn:Hd.
  - rewrite (draw_detection_wire _ _ _ _ Hd), bind_ret_l. apply IH. exact H.
  - destruct (draw_detection_wire_fails cfg w acc d Hd) as [e ->].
    exists e. reflexivity.
Qed.

Lemma render_wire (cfg : config) (w : world) (st : loop_state) (f : frame)
    (dets : list Server.detection) :
  forallb (passes cfg w) dets = true ->
  resize_ok w cfg = true ->
  let drawn := filter (above cfg) dets in
  render cfg w st f (JList (map to_json dets)) =
  ret ({| base := f;
          ops := flat_map (box_ops w) drawn
                   ++ annotations cfg st (Z.of_nat (List.length drawn)) |},
       Z.of_nat (List.length drawn)).
Proof.
  intros Hp Hres drawn. rewrite render_eq by exact Hres.
  cbn [Json.iter]. rewrite bind_ret_l.
  rewrite (draw_detections_wire _ _ _ Hp), bind_ret_l. reflexivity.
Qed.

(** A call of [render] that returns has drawn every detection it had to
    and resized the frame where it had to. *)
Lemma render_wire_returns (cfg : config) (w : world) (st : loop_state)
    (f : frame) (dets : list Server.detection) (r : display * Z) :
  result_of (render cfg w st f (JList (map to_json dets))) = Ret r ->
  forallb (passes cfg w) dets = true /\ resize_ok w cfg = true.
Proof.
  rewrite render_eq_gen. cbn [Json.iter]. rewrite bind_ret_l.
  destruct (forallb (passes cfg w) dets) eqn:Hp.
  - rewrite (draw_detections_wire _ _ _ Hp), bind_ret_l.
    destruct (resize_ok w cfg); [intros _; split; reflexivity | discriminate].
  - destruct (draw_detections_wire_fails cfg w dets Hp ([], 0)) as [e ->].
    discriminate.
Qed.

Lemma Qgtb_lt (a b : Q) : Qgtb a b = true <-> (b < a)%Q.
Proof.
  unfold Qgtb. rewrite negb_true_iff. split.
  - intros H. apply Qnot_le_lt. intros Hle.
    apply Qle_bool_iff in Hle. congruence.
  - intros H. destruct (Qle_bool a b) eqn:Hb; [| reflexivity].
    apply Qle_bool_iff in Hb. exfalso. apply (Qlt_not_le _ _ H Hb).
Qed.

(** C6. Of the detections the service returns for a frame, exactly those
    whose confidence exceeds the threshold are drawn on the display
    copy, in the order received, each with the palette entry at index
    [hash(class_name) % 20]: the colour is a function of the class name
    for the hash function of the run, and it is an entry of the
    palette.  This is for detections the drawing calls accept (corners
    and label coordinates that fit a C [int], a confidence whose
    percentage is finite) and, for the frame shown, a display resolution
    [cv2.resize] accepts; a detection above the threshold that is not of
    this kind ends the script with the exception of the call that
    refuses it. *)
Theorem detections_drawn_iff_above_threshold
    (cfg : config) (w : world) (st : loop_state) (f : frame)
    (dets : list Server.detection) :
  forallb (passes cfg w) dets = true ->
  let drawn := filter (above cfg) dets in
  draw_detections cfg w (map to_json dets) ([], 0) =
    ret (flat_map (box_ops w) drawn, Z.of_nat (List.length drawn)) /\
  (resize_ok w cfg = true ->
   render cfg w st f (JList (map to_json dets)) =
   ret ({| base := f;
           ops := flat_map (box_ops w) drawn
                    ++ annotations cfg st (Z.of_nat (List.length drawn)) |},
        Z.of_nat (List.length drawn))) /\
  (forall d, In d drawn <->
             In d dets /\ (cfg_min_thresh cfg < Server.confidence d)%Q) /\
  (forall d, exists p1 p2 rest,
      box_ops w d = Rectangle p1 p2 (color_of w (Server.class_name d)) 2 :: rest) /\
  (forall classname, In (color_of w classname) bbox_colors) /\
  (forall acc d,
      above cfg d = true -> drawable_box w d = false ->
      exists e, draw_detection cfg w acc (to_json d) = (Raise e, [])).
Proof.
  intros Hp drawn.
  split; [| split; [| split; [| split; [| split]]]].
  - rewrite (draw_detections_wire _ _ _ Hp). cbn [fst snd app]. reflexivity.
  - intros Hres. apply render_wire; assumption.
  - intros d. unfold drawn. rewrite filter_In. unfold above.
    rewrite Qgtb_lt. tauto.
  - intros d. unfold box_ops, detection_ops. do 3 eexists. reflexivity.
  - intros classname. apply palette_color_in_palette.
  - intros acc d Ha Hd. apply draw_detection_wire_fails.
    unfold passes. rewrite Ha, Hd. reflexivity.
Qed.

Lemma detections_drawn_iff_above_threshold_witness :
  let helmet := {| Server.xmin := 10; Server.ymin := 20; Server.xmax := 110;
                   Server.ymax := 220; Server.class_name := "helmet";
                   Server.confidence := 9 # 10 |} in
  let vest := {| Server.xmin := 5; Server.ymin := 6; Server.xmax := 50;
                 Server.ymax := 60; Server.class_name := "vest";
                 Server.confidence := 3 # 10 |} in
  forallb (passes Sample.image_cfg Sample.machine) [helmet; vest] = true /\
  draw_detections Sample.image_cfg Sample.machine
                  (map to_json [helmet; vest]) ([], 0) =
  ret ([Rectangle (10, 20) (110, 220) (169, 162, 241) 2;
        Rectangle (10, 0) (70, 16) (169, 162, 241) FILLED;
        PutText (LabelText (JStr "helmet") (9 # 10)) (10, 15) (0, 0, 0) 1],
       1).
Proof.
  intros helmet vest. split; [vm_compute; reflexivity |].
  apply (proj1 (detections_drawn_iff_above_threshold
                  Sample.image_cfg Sample.machine initial_state (Frame 1)
                  [helmet; vest] eq_refl)).
Defined.

(** ** Annotations *)

Lemma annotations_count (cfg : config) (st : loop_state) (object_count : Z) :
  In (PutText (CountText object_count) (10, 40) (0, 255, 255) 2)
     (annotations cfg st object_count).
Proof.
  unfold annotations. apply in_or_app. right. apply in_or_app. right.
  left. reflexivity.
Qed.

Lemma annotations_fps (cfg : config) (st : loop_state) (object_count : Z)
    (t : text) (org : Z * Z) (c : color) (k : Z) (avg : Q) :
  t = FpsText avg ->
  In (PutText t org c k) (annotations cfg st object_count) ->
  is_stream (cfg_source_type cfg) = true.
Proof.
  intros -> H. unfold annotations in H.
  apply in_app_or in H. destruct H as [H | H].
  - destruct (cfg_resize cfg) as [[resW resH] |]; cbn in H;
      [destruct H as [H | []]; discriminate | contradiction].
  - apply in_app_or in H. destruct H as [H | H].
    + destruct (is_stream (cfg_source_type cfg)); [reflexivity | contradiction].
    + cbn in H. destruct H as [H | []]. discriminate.
Qed.

(** C9, as amended.  Every frame [render] hands back carries the object
    count, and the count is the number of detections whose confidence
    exceeds the threshold, that is, of the boxes drawn, not of the
    detections returned; the rolling average frame rate is written on
    the frame for video, USB, Picamera and RTSP sources and not for an
    image or a folder of images.  [render] does hand back a frame when
    the drawing calls accept the detections above the threshold and
    [cv2.resize] accepts the display resolution. *)
Theorem frame_annotated_with_drawn_count
    (cfg : config) (w : world) (st : loop_state) (f : frame)
    (dets : list Server.detection) :
  let count := Z.of_nat (List.length (filter (above cfg) dets)) in
  (forallb (passes cfg w) dets = true -> resize_ok w cfg = true ->
   exists d, render cfg w st f (JList (map to_json dets)) = ret (d, count)) /\
  (forall d n,
      result_of (render cfg w st f (JList (map to_json dets))) = Ret (d, n) ->
      n = count /\
      base d = f /\
      In (PutText (CountText count) (10, 40) (0, 255, 255) 2) (ops d) /\
      (forall n' org c k,
          In (PutText (CountText n') org c k) (ops d) -> n' = count) /\
      (is_stream (cfg_source_type cfg) = true ->
       In (PutText (FpsText (avg_frame_rate st)) (10, 20) (0, 255, 255) 2)
          (ops d)) /\
      (is_stream (cfg_source_type cfg) = false ->
       forall avg org c k, ~ In (PutText (FpsText avg) org c k) (ops d))).
Proof.
  intros count. split.
  { intros Hp Hres. eexists. apply render_wire; assumption. }
  intros d n Hret.
  destruct (render_wire_returns _ _ _ _ _ _ Hret) as [Hp Hres].
  rewrite (render_wire cfg w st f dets Hp Hres) in Hret.
  unfold result_of, ret in Hret. cbn [fst] in Hret.
  injection Hret as <- <-. fold count.
  cbn [base ops].
  assert (Hbox : forall t org c k,
             In (PutText t org c k)
                (flat_map (box_ops w) (filter (above cfg) dets)) ->
             exists cn q, t = LabelText cn q).
  { intros t org c k H. apply in_flat_map in H. destruct H as (d & _ & H).
    unfold box_ops, detection_ops in H. cbn in H.
    destruct H as [H | [H | [H | []]]]; try discriminate.
    injection H as <- _ _ _. eauto. }
  split; [reflexivity |].
  split; [reflexivity |].
  split; [apply in_or_app; right; apply annotations_count |].
  split; [| split].
  - intros n org c k H. apply in_app_or in H. destruct H as [H | H].
    + apply Hbox in H. destruct H as (cn & q & H). discriminate.
    + unfold annotations in H.
      apply in_app_or in H. destruct H as [H | H].
      { destruct (cfg_resize cfg) as [[resW resH] |]; cbn in H;
          [destruct H as [H | []]; discriminate | contradiction]. }
      apply in_app_or in H. destruct H as [H | H].
      { destruct (is_stream (cfg_source_type cfg)); cbn in H;
          [destruct H as [H | []]; discriminate | contradiction]. }
      cbn in H. destruct H as [H | []]. injection H as <-. reflexivity.
  - intros Hs. apply in_or_app. right. unfold annotations. rewrite Hs.
    apply in_or_app. right. left. reflexivity.
  - intros Hs avg org c k H. apply in_app_or in H. destruct H as [H | H].
    + apply Hbox in H. destruct H as (cn & q & H). discriminate.
    + apply (annotations_fps cfg st count _ org c k avg eq_refl) in H.
      congruence.
Qed.

Lemma frame_annotated_with_drawn_count_witness :
  let helmet := {| Server.xmin := 10; Server.ymin := 20; Server.xmax := 110;
                   Server.ymax := 220; Server.class_name := "helmet";
                   Server.confidence := 9 # 10 |} in
  exists d,
    render Sample.video_cfg Sample.machine initial_state (Frame 1)
           (JList (map to_json [helmet])) = ret (d, 1) /\
    In (PutText (CountText 1) (10, 40) (0, 255, 255) 2) (ops d) /\
    In (PutText (FpsText 0) (10, 20) (0, 255, 255) 2) (ops d).
Proof.
  intros helmet.
  destruct (frame_annotated_with_drawn_count
              Sample.video_cfg Sample.machine initial_state (Frame 1) [helmet])
    as [Hreturns Hshown].
  destruct (Hreturns eq_refl eq_refl) as [d Hr].
  exists d. split; [exact Hr |].
  assert (Hres : result_of
                   (render Sample.video_cfg Sample.machine initial_state
                           (Frame 1) (JList (map to_json [helmet])))
                 = Ret (d, 1))
    by (rewrite Hr; reflexivity).
  destruct (Hshown d 1 Hres) as (_ & _ & Hcount & _ & Hfps & _).
  split; [exact Hcount | apply Hfps; reflexivity].
Defined.

(** The property as the specification states it fails on an image source
    with one detection of confidence 0.3 under the threshold 0.5: the
    service returned one detection, the frame is annotated with the
    count 0, and no frame rate is written on it. *)
Lemma frame_annotation_counterexample :
  let vest := {| Server.xmin := 5; Server.ymin := 6; Server.xmax := 50;
                 Server.ymax := 60; Server.class_name := "vest";
                 Server.confidence := 3 # 10 |} in
  render Sample.image_cfg Sample.machine initial_state (Frame 1)
         (JList (map to_json [vest])) =
  ret ({| base := Frame 1;
          ops := [PutText (CountText 0) (10, 40) (0, 255, 255) 2] |}, 0) /\
  0 <> Z.of_nat (List.length [vest]).
Proof.
  intros vest. split; [vm_compute; reflexivity | discriminate].
Qed.

(** ** Missing fields *)






Example empty_detection_object_drawn_with_defaults :
  render Sample.image_cfg Sample.machine initial_state (Frame 1)
         (JList [JDict [("confidence", JFloat (9 # 10))]]) =
  ret ({| base := Frame 1;
          ops := [Rectangle (0, 0) (0, 0) (169, 162, 241) 2;
                  Rectangle (0, 0) (60, 16) (169, 162, 241) FILLED;
                  PutText (LabelText (JStr "unknown") (9 # 10)) (0, 15) (0, 0, 0) 1;
                  PutText (CountText 1) (10, 40) (0, 255, 255) 2] |}, 1).
Proof. vm_compute. reflexivity. Qed.

(** A corner beyond the C [int] range, a confidence whose percentage is
    infinite and a display resolution of 0 x 0 each end the script. *)
Example undrawable_values_end_the_script :
  draw_detection Sample.image_cfg Sample.machine ([], 0)
                 (JDict [("xmax", JInt 2147483648);
                         ("confidence", JFloat (9 # 10))]) =
    (Raise cv2_bad_argument, []) /\
  draw_detection Sample.image_cfg Sample.machine ([], 0)
                 (JDict [("confidence", JFloat (inject_Z (10 ^ 308)))]) =
    (Raise (OverflowError "cannot convert float infinity to integer"), []) /\
  render {| cfg_server_url := "http://10.0.0.5:5001/predict";
            cfg_min_thresh := 1 # 2;
            cfg_source_type := image;
            cfg_resize := Some (0, 0);
            cfg_record := false;
            cfg_imgs_list := ["test.jpg"] |}
         Sample.machine initial_state (Frame 1) (JList []) =
    (Raise resize_error, []).
Proof. repeat split; vm_compute; reflexivity. Qed.

(** ** Leaving the loop *)

Lemma loop_break_runs_cleanup (w : world) (a : args) (inputs : list iter_input)
    (cfg : config) (st : loop_state) (t0 t1 : list event) :
  startup w a = (Ret cfg, t0) ->
  loop cfg w inputs initial_state = (Ret (Broke st), t1) ->
  exists released,
    main w a inputs =
    (Ret (Broke st),
     t0 ++ t1 ++ [PrintAvgFps (avg_frame_rate st)] ++ released
        ++ [DestroyAllWindows]) /\
    (cfg_record cfg = true -> recorder_isOpened_at_end w = true ->
     In RecorderRelease released) /\
    (cfg_source_type cfg = video \/ cfg_source_type cfg = rtsp \/
     (exists i, cfg_source_type cfg = usb i) ->
     cap_isOpened_at_end w = true -> In CapRelease released) /\
    ((exists i, cfg_source_type cfg = picamera i) -> In PicameraStop released).
Proof.
  intros Hs Hl. unfold main. rewrite Hs. cbn [bind]. rewrite Hl. cbn [bind].
  unfold cleanup.
  exists ((match cfg_source_type cfg with
           | video | usb _ | rtsp =>
               if cap_isOpened_at_end w then [CapRelease] else []
           | picamera _ => [PicameraStop]
           | _ => []
           end) ++
          (if cfg_record cfg
           then if recorder_isOpened_at_end w then [RecorderRelease] else []
           else [])).
  split; [| split; [| split]].
  - destruct (cfg_source_type cfg), (cap_isOpened_at_end w), (cfg_record cfg),
      (recorder_isOpened_at_end w); cbn; rewrite ?app_nil_r;
      rewrite <- ?app_assoc; reflexivity.
  - intros -> ->. apply in_or_app. right. left. reflexivity.
  - intros Hsrc ->. apply in_or_app. left.
    destruct Hsrc as [-> | [-> | [i ->]]]; left; reflexivity.
  - intros [i ->]. apply in_or_app. left. left. reflexivity.
Qed.

Lemma images_exhausted_exits (cfg : config) (w : world) (st : loop_state)
    (inp : iter_input) :
  cfg_source_type cfg = image \/ cfg_source_type cfg = folder ->
  (List.length (cfg_imgs_list cfg) <= img_count st)%nat ->
  iteration cfg w st inp =
  (Exit 0, [Print "Semua gambar telah diproses. Keluar dari program."]).
Proof.
  intros Hsrc Hlen. unfold iteration, acquire.
  apply Nat.leb_le in Hlen.
  destruct Hsrc as [-> | ->]; rewrite Hlen; reflexivity.
Qed.

(** C7, on the failing input.  With a single image as source, once the
    image has been shown and a key other than the quit key pressed, the
    next iteration finds the list of images exhausted and calls
    [sys.exit(0)] inside the loop: the script ends there, and neither
    the final frame rate is printed nor the windows closed. *)
Theorem image_source_exhaustion_skips_cleanup :
  let shown := {| base := Frame 1;
                  ops := [PutText (CountText 0) (10, 40) (0, 255, 255) 2] |} in
  let run :=
    main Sample.machine (Sample.cli "test.jpg" None false)
         [Sample.answers (ReqJson (JDict [("predictions", JList [])]))
                         Sample.space_key (30 # 1);
          Sample.answers (ReqJson (JDict [("predictions", JList [])]))
                         Sample.space_key (30 # 1)] in
  run =
    (Exit 0,
     [Imread "test.jpg"; Post "http://10.0.0.5:5001/predict" (Frame 1);
      Imshow shown; WaitKey None;
      Print "Semua gambar telah diproses. Keluar dari program."]) /\
  ~ In DestroyAllWindows (trace_of run) /\
  (forall avg, ~ In (PrintAvgFps avg) (trace_of run)).
Proof.
  intros shown run.
  assert (Hrun : run =
    (Exit 0,
     [Imread "test.jpg"; Post "http://10.0.0.5:5001/predict" (Frame 1);
      Imshow shown; WaitKey None;
      Print "Semua gambar telah diproses. Keluar dari program."]))
    by (vm_compute; reflexivity).
  split; [exact Hrun |]. rewrite Hrun. unfold trace_of. cbn [snd].
  split.
  - intros H. cbn in H.
    repeat (destruct H as [H | H]; [discriminate H |]). exact H.
  - intros avg H. cbn in H.
    repeat (destruct H as [H | H]; [discriminate H |]). exact H.
Qed.

Example quit_key_runs_cleanup :
  trace_of (main Sample.machine (Sample.cli "test.jpg" None false)
              [Sample.answers (ReqJson (JDict [])) (Py.ord "q") (30 # 1)]) =
  [Imread "test.jpg"; Post "http://10.0.0.5:5001/predict" (Frame 1);
   Imshow {| base := Frame 1;
             ops := [PutText (CountText 0) (10, 40) (0, 255, 255) 2] |};
   WaitKey None; PrintAvgFps 0; DestroyAllWindows].
Proof. vm_compute. reflexivity. Qed.

(** ** The inference service *)

Import Server.

Lemma predict_on_image (w : Server.world) (g : globals) (r : request)
    (d : list (string * json)) (image_b64 : json) :
  is_json r = true ->
  json_body r = Some (JDict d) ->
  Json.assoc "image" d = Some image_b64 ->
  predict w g r =
  try_except
    (image_bytes <- Base64.b64decode image_b64 ;;
     frame <- lift (imdecode w image_bytes) ;;
     match frame with
     | None => ret (ErrorBody undecodable_msg, 400)
     | Some fr =>
         m <- read_model g ;;
         boxes <- lift (m fr) ;;
         emit LogInferenceTime ;;;
         predictions <- extract_all g boxes [] ;;
         ret (PredictionsBody predictions, 200)
     end)%script
    (fun e =>
       match e with
       | BinasciiError _ =>
           Some (emit (Log "[ERROR] String base64 tidak valid.") ;;;
                 ret (ErrorBody bad_base64_msg, 400))%script
       | _ =>
           Some (emit (Log ("[ERROR] Terjadi kesalahan saat melakukan prediksi: "
                            ++ exn_str e)%string) ;;;
                 ret (ErrorBody (internal_error_msg e), 500))%script
       end).
Proof.
  intros Hj Hb Hi. unfold predict, request_json, json_contains, json_getitem.
  rewrite Hj, Hb. cbn [negb]. rewrite !bind_ret_l, Hi. cbn [negb].
  rewrite !bind_ret_l. reflexivity.
Qed.

(** A payload the decoder rejects with [binascii.Error] is answered with
    status 400. *)
Lemma predict_binascii_error_is_400 (w : Server.world) (g : globals)
    (r : request) (d : list (string * json)) (s msg : string) :
  is_json r = true ->
  json_body r = Some (JDict d) ->
  Json.assoc "image" d = Some (JStr s) ->
  Base64.is_ascii s = true ->
  Base64.a2b_base64 s = inl (BinasciiError msg) ->
  predict w g r =
  (Ret (ErrorBody bad_base64_msg, 400), [Log "[ERROR] String base64 tidak valid."]).
Proof.
  intros Hj Hb Hi Ha He. rewrite (predict_on_image w g r d _ Hj Hb Hi).
  unfold Base64.b64decode. rewrite Ha, He. reflexivity.
Qed.

Example predict_bad_padding_is_400 :
  serve Sample.decoder Sample.degraded (Sample.post (JDict [("image", JStr "abc")]))
  = Handled (ErrorBody bad_base64_msg) 400.
Proof. vm_compute. reflexivity. Qed.

Example b64decode_valid :
  Base64.a2b_base64 "/9j/4A==" = inr [255; 216; 255; 224].
Proof. vm_compute. reflexivity. Qed.

Example b64decode_skips_foreign_characters :
  Base64.a2b_base64 "/9 j/\4A==!" = inr [255; 216; 255; 224].
Proof. vm_compute. reflexivity. Qed.

(** C1, on the failing input.  The string of the single character of
    code point 233 is no base64 text; [b64decode] rejects it with a plain
    [ValueError], which the [except base64.binascii.Error] clause does
    not take, so the request is answered by the catch-all clause with
    status 500, whatever the model and the image decoder are. *)
Theorem non_ascii_base64_payload_is_500 (w : Server.world) (g : globals) :
  predict w g (Sample.post (JDict [("image", JStr Sample.e_acute)])) =
  (Ret (ErrorBody
          "Kesalahan internal server: string argument should contain only ASCII characters",
        500),
   [Log "[ERROR] Terjadi kesalahan saat melakukan prediksi: string argument should contain only ASCII characters"])
  /\ status_of (serve w g (Sample.post (JDict [("image", JStr Sample.e_acute)])))
     = 500.
Proof. split; reflexivity. Qed.

Example non_string_payload_is_500 (w : Server.world) (g : globals) :
  status_of (serve w g (Sample.post (JDict [("image", JInt 7)]))) = 500.
Proof. reflexivity. Qed.

(** C8. When loading the model raises, the start-up code prints the
    failure and goes on to [app.run]: the service starts with [model]
    and [labels] unbound.  In that state it still answers every request:
    400 when the body is not JSON or has no image, 400 when the image
    does not decode, and 500 with the [NameError] of the unbound model
    when it does. *)
Theorem model_load_failure_service_still_starts (e : exn) :
  server_main (LoadRaises e) =
    (Ret {| model := None; labels := None |},
     [Log (startup_error_msg e); AppRun "0.0.0.0" 5001]) /\
  (forall w r,
      is_json r = false ->
      predict w {| model := None; labels := None |} r =
      ret (ErrorBody missing_image_msg, 400)) /\
  (forall w r d image_b64 image_bytes,
      is_json r = true ->
      json_body r = Some (JDict d) ->
      Json.assoc "image" d = Some image_b64 ->
      @Base64.b64decode log image_b64 = ret image_bytes ->
      (imdecode w image_bytes = inr None ->
       predict w {| model := None; labels := None |} r =
       ret (ErrorBody undecodable_msg, 400)) /\
      (forall bmp,
          imdecode w image_bytes = inr (Some bmp) ->
          result_of (predict w {| model := None; labels := None |} r) =
          Ret (ErrorBody (internal_error_msg
                            (NameError "name 'model' is not defined")), 500))) /\
  (forall w r, exists status,
      status_of (serve w {| model := None; labels := None |} r) = status /\
      (status = 400 \/ status = 500)).
Proof.
  split; [reflexivity |].
  split; [| split].
  - intros w r Hj. unfold predict. rewrite Hj. reflexivity.
  - intros w r d image_b64 image_bytes Hj Hb Hi Hdec.
    rewrite (predict_on_image w _ r d _ Hj Hb Hi), Hdec, bind_ret_l.
    split.
    + intros ->. reflexivity.
    + intros bmp ->. reflexivity.
  - intros w r. eexists. split; [reflexivity |].
    unfold serve.
    destruct (is_json r) eqn:Hj.
    2:{ unfold predict. rewrite Hj. left. reflexivity. }
    destruct (json_body r) as [j |] eqn:Hb.
    2:{ unfold predict, request_json. rewrite Hj, Hb. left. reflexivity. }
    destruct j as [| b | z | q | s | l | d];
      try (unfold predict, request_json, json_contains; rewrite Hj, Hb;
           right; reflexivity).
    + unfold predict, request_json, json_contains, json_getitem.
      rewrite Hj, Hb. cbn [negb bind ret].
      destruct (Py.contains "image" s); [right | left]; reflexivity.
    + unfold predict, request_json, json_contains, json_getitem.
      rewrite Hj, Hb. cbn [negb bind ret].
      destruct (existsb _ l); [right | left]; reflexivity.
    + destruct (Json.assoc "image" d) as [image_b64 |] eqn:Hi.
      2:{ unfold predict, request_json, json_contains.
          rewrite Hj, Hb. cbn [negb bind ret]. rewrite Hi. left. reflexivity. }
      rewrite (predict_on_image w _ r d _ Hj Hb Hi).
      destruct (Base64.b64decode image_b64) as [[bytes | c | ex] t] eqn:Hdec.
      * cbn [bind]. destruct (imdecode w bytes) as [ex | [bmp |]];
          cbn; try (destruct ex); auto.
      * exfalso. unfold Base64.b64decode in Hdec.
        destruct image_b64; try discriminate Hdec.
        destruct (Base64.is_ascii s); [| discriminate Hdec].
        destruct (Base64.a2b_base64 s); discriminate Hdec.
      * cbn. destruct ex; cbn; auto.
Qed.

Lemma model_load_failure_service_still_starts_witness :
  predict Sample.decoder Sample.degraded
          {| is_json := false; json_body := None |} =
    ret (ErrorBody missing_image_msg, 400) /\
  result_of (predict Sample.decoder Sample.degraded
               (Sample.post (JDict [("image", JStr "/9j/4A==")]))) =
    Ret (ErrorBody "Kesalahan internal server: name 'model' is not defined", 500).
Proof.
  destruct (model_load_failure_service_still_starts
              (OtherException "bestnew.pt not found"))
    as (_ & Hnojson & Himage & _).
  split.
  - apply Hnojson. reflexivity.
  - apply (proj2 (Himage Sample.decoder
                    (Sample.post (JDict [("image", JStr "/9j/4A==")]))
                    [("image", JStr "/9j/4A==")] (JStr "/9j/4A==")
                    [255; 216; 255; 224]
                    eq_refl eq_refl eq_refl eq_refl) (Bitmap 1)).
    reflexivity.
Defined.

(** ** The built-ins on small inputs *)

Example splitext_jpg : Py.splitext "dir.d/test.jpg" = ("dir.d/test", ".jpg").
Proof. reflexivity. Qed.
Example splitext_hidden : Py.splitext "dir.d/.bashrc" = ("dir.d/.bashrc", EmptyString).
Proof. reflexivity. Qed.
Example splitext_nodot : Py.splitext "dir.d/video" = ("dir.d/video", EmptyString).
Proof. reflexivity. Qed.
Example int_plain : Py.int_of_str "480" = Some 480.
Proof. reflexivity. Qed.
Example int_signed_padded : Py.int_of_str " -1_0 " = Some (-10).
Proof. reflexivity. Qed.
Example int_empty : Py.int_of_str EmptyString = None.
Proof. reflexivity. Qed.
Example int_letters : Py.int_of_str "cam" = None.
Proof. reflexivity. Qed.
Example split_res : Py.split "x" "640x480" = ["640"; "480"].
Proof. reflexivity. Qed.
Example split_nosep : Py.split "x" "640" = ["640"].
Proof. reflexivity. Qed.


(** * Further properties of the two programs *)

(** ** Paths and resolutions *)

Lemma slice_to_from (n : nat) (s : string) :
  (Py.slice_to n s ++ Py.slice_from n s)%string = s.
Proof.
  revert s. induction n as [| n IH]; intros s; [reflexivity |].
  destruct s as [| c r]; [reflexivity |].
  cbn [Py.slice_to Py.slice_from String.append]. now rewrite IH.
Qed.

Lemma slice_from_get (n : nat) (s : string) (c : ascii) :
  String.get n s = Some c ->
  exists r, Py.slice_from n s = String c r /\
            forall j, String.get j r = String.get (S (n + j)) s.
Proof.
  revert s. induction n as [| n IH]; intros s H.
  - destruct s as [| d r]; [discriminate |]. cbn in H. injection H as ->.
    exists r. split; [reflexivity |]. intros j. reflexivity.
  - destruct s as [| d r]; [discriminate |]. cbn [String.get] in H.
    destruct (IH r H) as (r' & Hr & Hget). exists r'. split; [exact Hr |].
    intros j. rewrite Hget. reflexivity.
Qed.

(** [rfind_from]: either the character does not occur and [last] comes
    back, or the result is the index (counted from [i]) of its last
    occurrence. *)
Lemma rfind_from_spec (c : ascii) (s : string) :
  forall i last,
    (Py.rfind_from c s i last = last /\
     forall j, String.get j s <> Some c) \/
    (exists k,
        Py.rfind_from c s i last = i + Z.of_nat k /\
        String.get k s = Some c /\
        forall j, (k < j)%nat -> String.get j s <> Some c).
Proof.
  induction s as [| d r IH]; intros i last.
  - left. split; [reflexivity |]. intros j. destruct j; discriminate.
  - cbn [Py.rfind_from].
    destruct (IH (i + 1) (if Py.chr_eqb d c then i else last))
      as [[Heq Hno] | (k & Heq & Hk & Hafter)].
    + rewrite Heq. unfold Py.chr_eqb. destruct (Ascii.eqb_spec d c) as [-> | Hne].
      * right. exists 0%nat. split; [lia |]. split; [reflexivity |].
        intros j Hj. destruct j; [lia |]. cbn. apply Hno.
      * left. split; [reflexivity |]. intros j. destruct j.
        -- cbn. congruence.
        -- cbn. apply Hno.
    + right. exists (S k). split; [rewrite Heq; lia |]. split; [exact Hk |].
      intros j Hj. destruct j; [lia |]. cbn. apply Hafter. lia.
Qed.

Lemma rfind_spec (c : ascii) (s : string) :
  (Py.rfind c s = -1 /\ forall j, String.get j s <> Some c) \/
  (exists k,
      Py.rfind c s = Z.of_nat k /\ String.get k s = Some c /\
      forall j, (k < j)%nat -> String.get j s <> Some c).
Proof.
  unfold Py.rfind.
  destruct (rfind_from_spec c s 0 (-1)) as [H | (k & H1 & H2 & H3)];
    [left; exact H | right; exists k; rewrite H1; auto].
Qed.

(** [os.path.splitext] cuts the path in two: the pieces put together
    give the path back, and the extension is empty or starts at a dot
    and holds neither a slash nor a second dot. *)
Theorem splitext_partition (p : string) :
  (fst (Py.splitext p) ++ snd (Py.splitext p))%string = p /\
  (snd (Py.splitext p) = EmptyString \/
   exists r, snd (Py.splitext p) = String "." r /\
             forall j, String.get j r <> Some "/"%char /\
                       String.get j r <> Some "."%char).
Proof.
  unfold Py.splitext.
  destruct ((Py.rfind "/" p <? Py.rfind "." p)
            && Py.skip_leading_dots p (Z.to_nat (Py.rfind "/" p + 1))
                 (Z.to_nat (Py.rfind "." p - (Py.rfind "/" p + 1)))) eqn:Hcut.
  2:{ cbn [fst snd]. split; [| left; reflexivity].
      clear. induction p as [| c r IH]; [reflexivity |]. cbn. now rewrite IH. }
  cbn [fst snd]. split; [apply slice_to_from |]. right.
  apply andb_true_iff in Hcut. destruct Hcut as [Hlt _]. apply Z.ltb_lt in Hlt.
  destruct (rfind_spec "." p) as [[Hd _] | (k & Hd & Hk & Hafter)].
  { destruct (rfind_spec "/" p) as [[Hs _] | (k' & Hs & _)]; lia. }
  rewrite Hd, Nat2Z.id.
  destruct (slice_from_get k p "." Hk) as (r & Hr & Hget).
  exists r. split; [exact Hr |]. intros j. rewrite Hget. split.
  - destruct (rfind_spec "/" p) as [[_ Hno] | (k' & Hs & _ & Hafter')].
    + apply Hno.
    + apply Hafter'. lia.
  - apply Hafter. lia.
Qed.

Lemma append_empty_r (s : string) : (s ++ EmptyString)%string = s.
Proof. induction s as [| c r IH]; [reflexivity |]. cbn. now rewrite IH. Qed.

Lemma append_assoc (a b c : string) :
  ((a ++ b) ++ c)%string = (a ++ (b ++ c))%string.
Proof. induction a as [| x r IH]; [reflexivity |]. cbn. now rewrite IH. Qed.

Lemma split_acc_not_nil (sep : ascii) (s cur : string) :
  Py.split_acc sep s cur <> [].
Proof.
  revert cur. induction s as [| c r IH]; intros cur; cbn [Py.split_acc].
  - discriminate.
  - destruct (Py.chr_eqb c sep); [discriminate | apply IH].
Qed.

Lemma split_acc_concat (sep : ascii) (s : string) :
  forall cur,
    String.concat (String sep EmptyString) (Py.split_acc sep s cur)
    = (cur ++ s)%string.
Proof.
  induction s as [| c r IH]; intros cur.
  - cbn. now rewrite append_empty_r.
  - cbn [Py.split_acc]. unfold Py.chr_eqb.
    destruct (Ascii.eqb_spec c sep) as [-> | Hne].
    + specialize (IH EmptyString). cbn [String.append] in IH.
      cbn [String.concat].
      destruct (Py.split_acc sep r EmptyString) as [| x xs] eqn:Hs;
        [exfalso; exact (split_acc_not_nil _ _ _ Hs) |].
      rewrite IH. reflexivity.
    + rewrite IH, append_assoc. reflexivity.
Qed.

Lemma sep_free_cons (sep c : ascii) (r : string) :
  sep_free sep (String c r) <-> c <> sep /\ sep_free sep r.
Proof.
  unfold sep_free. split.
  - intros H. split.
    + intros ->. apply (H 0%nat). reflexivity.
    + intros j. apply (H (S j)).
  - intros [Hc Hr] j. destruct j; cbn; [congruence | apply Hr].
Qed.

Lemma sep_free_app (sep : ascii) (a b : string) :
  sep_free sep a -> sep_free sep b -> sep_free sep (a ++ b)%string.
Proof.
  induction a as [| c r IH]; intros Ha Hb; [exact Hb |].
  apply sep_free_cons in Ha. destruct Ha as [Hc Hr].
  cbn [String.append]. apply sep_free_cons. split; [exact Hc | auto].
Qed.

Lemma split_acc_sep_free (sep : ascii) (a : string) :
  sep_free sep a ->
  forall s cur, Py.split_acc sep (a ++ s) cur = Py.split_acc sep s (cur ++ a).
Proof.
  induction a as [| c r IH]; intros Ha s cur.
  - cbn. now rewrite append_empty_r.
  - apply sep_free_cons in Ha. destruct Ha as [Hc Hr].
    cbn [String.append Py.split_acc]. unfold Py.chr_eqb.
    destruct (Ascii.eqb_spec c sep) as [-> | _]; [congruence |].
    rewrite (IH Hr), append_assoc. reflexivity.
Qed.

Lemma split_sep_free (sep : ascii) (a : string) :
  sep_free sep a -> Py.split sep a = [a].
Proof.
  intros Ha. unfold Py.split.
  rewrite <- (append_empty_r a) at 1.
  rewrite (split_acc_sep_free sep a Ha). reflexivity.
Qed.

Lemma split_acc_parts (sep : ascii) (s : string) :
  forall cur part,
    sep_free sep cur ->
    In part (Py.split_acc sep s cur) -> sep_free sep part.
Proof.
  induction s as [| c r IH]; intros cur part Hcur Hin.
  - cbn in Hin. destruct Hin as [<- | []]. exact Hcur.
  - cbn [Py.split_acc] in Hin. unfold Py.chr_eqb in Hin.
    destruct (Ascii.eqb_spec c sep) as [-> | Hne].
    + destruct Hin as [<- | Hin]; [exact Hcur |].
      apply (IH EmptyString part); [| exact Hin].
      intros j. destruct j; discriminate.
    + eapply IH; [| exact Hin].
      apply sep_free_app; [exact Hcur |].
      apply sep_free_cons. split; [exact Hne |]. intros j. destruct j; discriminate.
Qed.

(** [s.split(sep)] and [sep.join] are inverse: the parts joined by the
    separator give the string back, no part holds the separator, and
    there is always a first part, so that [split('x')[0]] cannot
    raise. *)
Theorem split_join_round_trip (sep : ascii) (s : string) :
  String.concat (String sep EmptyString) (Py.split sep s) = s /\
  (forall part, In part (Py.split sep s) -> sep_free sep part) /\
  (exists p0 rest, Py.split sep s = p0 :: rest).
Proof.
  split; [| split].
  - unfold Py.split. rewrite split_acc_concat. reflexivity.
  - intros part. apply split_acc_parts. intros j. destruct j; discriminate.
  - destruct (Py.split sep s) as [| p0 rest] eqn:H.
    + exfalso. exact (split_acc_not_nil _ _ _ H).
    + eauto.
Qed.

Lemma digits_sep_free (s : string) :
  all_digits s = true -> sep_free "x" s.
Proof.
  induction s as [| c r IH]; intros H.
  - intros j. destruct j; discriminate.
  - cbn [all_digits] in H. apply andb_true_iff in H. destruct H as [Hc Hr].
    apply sep_free_cons. split; [| auto].
    intros ->. vm_compute in Hc. discriminate.
Qed.

(** A resolution written as two runs of digits around an [x] is parsed
    into that width and that height when neither run has more than 4300
    digits; with a longer run [int] raises [ValueError] and the script
    prints the bad-resolution message and exits with status 0. *)
Theorem parse_resolution_width_x_height (a b : string) :
  digits a = true -> digits b = true ->
  parse_resolution (Some (a ++ "x" ++ b)%string) =
  if within_int_limit a && within_int_limit b
  then ret (Some (decimal_value 0 a, decimal_value 0 b))
  else (Exit 0, [Print (bad_resolution_msg (a ++ "x" ++ b)%string)]).
Proof.
  intros Ha Hb.
  assert (Ha' := Ha). assert (Hb' := Hb).
  unfold digits in Ha', Hb'.
  apply andb_true_iff in Ha', Hb'. destruct Ha' as [Hane Haall], Hb' as [_ Hball].
  assert (Hsplit : Py.split "x" (a ++ "x" ++ b)%string = [a; b]).
  { unfold Py.split. rewrite (split_acc_sep_free "x" a (digits_sep_free a Haall)).
    cbn [String.append Py.split_acc Py.chr_eqb Ascii.eqb Bool.eqb].
    fold (Py.split "x" b). rewrite (split_sep_free "x" b (digits_sep_free b Hball)).
    reflexivity. }
  unfold parse_resolution, truthy.
  replace (String.eqb (a ++ "x" ++ b) EmptyString) with false
    by (destruct a; [discriminate | reflexivity]).
  cbn [negb]. rewrite Hsplit. cbn [py_index nth_error]. rewrite !bind_ret_l.
  unfold Py.int.
  destruct (within_int_limit a) eqn:Hla.
  - rewrite (int_of_digits a Ha Hla), bind_ret_l.
    destruct (within_int_limit b) eqn:Hlb.
    + rewrite (int_of_digits b Hb Hlb), !bind_ret_l. reflexivity.
    + rewrite (int_of_long_digits b Hb Hlb). reflexivity.
  - rewrite (int_of_long_digits a Ha Hla). reflexivity.
Qed.

Lemma parse_resolution_width_x_height_witness :
  parse_resolution (Some "1280x720") = ret (Some (1280, 720)) /\
  parse_resolution (Some (Sample.long_digits ++ "x720")%string) =
    (Exit 0, [Print (bad_resolution_msg (Sample.long_digits ++ "x720")%string)]).
Proof.
  split.
  - apply (parse_resolution_width_x_height "1280" "720"); reflexivity.
  - apply (parse_resolution_width_x_height Sample.long_digits "720");
      vm_compute; reflexivity.
Defined.

(** A resolution with no [x] in it that [int] accepts as a whole is not
    reported as malformed: [split('x')[1]] raises [IndexError], which the
    [except ValueError] clause does not take, and the script dies. *)
Theorem resolution_without_x_raises_index_error
    (w : Client.world) (a : args) (inputs : list iter_input) (s : string) (n : Z) :
  Cli.source_ok w (source a) = true ->
  resolution a = Some s ->
  sep_free "x" s ->
  Py.int_of_str s = Some n ->
  main w a inputs = raise (IndexError "list index out of range").
Proof.
  intros Hsrc Hres Hfree Hint. unfold main, startup.
  destruct (resolve_source_ok _ _ Hsrc) as [t ->]. rewrite bind_ret_l, Hres.
  unfold parse_resolution, truthy.
  destruct s as [| c r]; [vm_compute in Hint; discriminate Hint |].
  cbn [String.eqb negb]. rewrite (split_sep_free "x" _ Hfree).
  cbn [py_index nth_error]. rewrite bind_ret_l.
  unfold Py.int. rewrite Hint. reflexivity.
Qed.

Lemma resolution_without_x_raises_index_error_witness :
  main Sample.machine (Sample.cli "usb0" (Some "640") false) [] =
  raise (IndexError "list index out of range").
Proof.
  apply (resolution_without_x_raises_index_error
           Sample.machine (Sample.cli "usb0" (Some "640") false) [] "640" 640).
  - reflexivity.
  - reflexivity.
  - intros j. do 4 (destruct j; [discriminate |]). discriminate.
  - reflexivity.
Defined.

(** ** What start-up guarantees to the loop *)

Lemma bind_ret_inv_full {E A B : Type} (m : script E A) (k : A -> script E B)
    (b : B) (t : list E) :
  bind m k = (Ret b, t) ->
  exists a t1 t2, m = (Ret a, t1) /\ k a = (Ret b, t2) /\ t = t1 ++ t2.
Proof.
  destruct m as [[a | c | e] t1]; cbn; try discriminate.
  destruct (k a) as [o t2] eqn:Hk. intros [= -> <-].
  exists a, t1, t2. auto.
Qed.

Lemma resolve_source_ret (w : Client.world) (s : string) (t0 : source_type)
    (tr : list event) :
  resolve_source w s = (Ret t0, tr) -> tr = [].
Proof.
  intros H.
  assert (Hok : Cli.source_ok w s = true)
    by (unfold Cli.source_ok; rewrite H; reflexivity).
  destruct (resolve_source_ok w s Hok) as [t' Ht'].
  rewrite Ht' in H. unfold ret in H. congruence.
Qed.

Lemma parse_resolution_ret (user_res : option string) (res : option (Z * Z))
    (tr : list event) :
  parse_resolution user_res = (Ret res, tr) ->
  tr = [] /\ (truthy user_res = true <-> res <> None).
Proof.
  unfold parse_resolution.
  destruct user_res as [s |]; [| intros [= <- <-]; split; [reflexivity |];
                                  cbn; split; [discriminate | congruence]].
  destruct (truthy (Some s)) eqn:Ht;
    [| intros [= <- <-]; split; [reflexivity |];
       split; [discriminate | congruence]].
  unfold Py.int.
  destruct (Py.split "x" s) as [| p0 rest]; [discriminate |].
  cbn [py_index nth_error]. rewrite bind_ret_l.
  destruct (Py.int_of_str p0) as [resW |]; [| discriminate].
  rewrite bind_ret_l.
  destruct rest as [| p1 rest']; [discriminate |].
  cbn [py_index nth_error]. rewrite bind_ret_l.
  destruct (Py.int_of_str p1) as [resH |]; [| discriminate].
  rewrite !bind_ret_l. intros [= <- <-].
  split; [reflexivity |]. split; [discriminate | reflexivity].
Qed.

(** A configuration that reaches the loop is coherent: recording
    implies a stream source, a parsed resolution and a video writer
    opened on [demo1.avi] at 30 frames per second with that resolution;
    without [--record] no writer is opened; a Picamera source has a
    resolution; an image or folder source opens nothing, and a single
    image is the whole list of images. *)
Theorem startup_config_coherent
    (w : Client.world) (a : args) (cfg : config) (tr : list event) :
  startup w a = (Ret cfg, tr) ->
  cfg_record cfg = record a /\
  cfg_min_thresh cfg = thresh a /\
  (cfg_record cfg = true ->
   is_stream (cfg_source_type cfg) = true /\
   exists resW resH,
     cfg_resize cfg = Some (resW, resH) /\
     In (VideoWriterOpen "demo1.avi" 30 resW resH) tr) /\
  (cfg_record cfg = false ->
   forall name fps resW resH, ~ In (VideoWriterOpen name fps resW resH) tr) /\
  (forall i, cfg_source_type cfg = picamera i -> cfg_resize cfg <> None) /\
  (is_stream (cfg_source_type cfg) = false -> tr = []) /\
  (cfg_source_type cfg = image -> cfg_imgs_list cfg = [source a]).
Proof.
  unfold startup. intros H.
  apply bind_ret_inv_full in H. destruct H as (t0 & tr0 & tr1 & Hsrc & H & ->).
  apply resolve_source_ret in Hsrc as Htr0. subst tr0.
  apply bind_ret_inv_full in H. destruct H as (res & tr2 & tr3 & Hres & H & ->).
  apply parse_resolution_ret in Hres. destruct Hres as [-> Htruthy].
  apply bind_ret_inv_full in H. destruct H as ([] & tr4 & tr5 & Hrec & H & ->).
  apply bind_ret_inv_full in H. destruct H as (imgs & tr6 & tr7 & Hinit & H & ->).
  unfold ret in H. injection H as <- <-.
  cbn [cfg_record cfg_min_thresh cfg_source_type cfg_resize cfg_imgs_list app].
  rewrite app_nil_r.
  assert (Hwriter : forall name fps resW resH,
             In (VideoWriterOpen name fps resW resH) tr6 -> False).
  { intros name fps resW resH Hin. unfold init_source in Hinit.
    destruct t0; unfold ret in Hinit.
    - injection Hinit as _ <-. exact Hin.
    - injection Hinit as _ <-. exact Hin.
    - cbn [bind emit] in Hinit.
      destruct (cap_isOpened w (CapPath (source a))); cbn in Hinit;
        [| discriminate].
      destruct (truthy (resolution a)); [destruct res as [[rw rh] |] |];
        cbn in Hinit; try discriminate; injection Hinit as _ <-;
        cbn in Hin; intuition discriminate.
    - cbn [bind emit] in Hinit.
      destruct (cap_isOpened w (CapIndex usb_idx)); cbn in Hinit;
        [| discriminate].
      destruct (truthy (resolution a)); [destruct res as [[rw rh] |] |];
        cbn in Hinit; try discriminate; injection Hinit as _ <-;
        cbn in Hin; intuition discriminate.
    - cbn [bind emit] in Hinit.
      destruct (truthy (resolution a)); [destruct res as [[rw rh] |] |];
        cbn in Hinit; try discriminate; injection Hinit as _ <-;
        cbn in Hin; intuition discriminate.
    - cbn [bind emit] in Hinit.
      destruct (cap_isOpened w (CapPath (source a))); cbn in Hinit;
        [| discriminate].
      destruct (truthy (resolution a)); [destruct res as [[rw rh] |] |];
        cbn in Hinit; try discriminate; injection Hinit as _ <-;
        cbn in Hin; intuition discriminate. }
  split; [reflexivity |]. split; [reflexivity |].
  split; [| split; [| split; [| split]]].
  - intros Hr. unfold setup_recording in Hrec. rewrite Hr in Hrec.
    destruct (is_stream t0); cbn [negb] in Hrec; [| discriminate].
    split; [reflexivity |].
    destruct (truthy (resolution a)); cbn [negb] in Hrec; [| discriminate].
    destruct res as [[resW resH] |]; cbn in Hrec; [| discriminate].
    injection Hrec as <-. exists resW, resH. split; [reflexivity |].
    left. reflexivity.
  - intros Hr name fps resW resH Hin. unfold setup_recording in Hrec.
    rewrite Hr in Hrec. unfold ret in Hrec. injection Hrec as <-.
    exact (Hwriter _ _ _ _ Hin).
  - intros i -> Hnone. unfold init_source in Hinit. cbn [bind emit] in Hinit.
    destruct (truthy (resolution a)) eqn:Ht; cbn in Hinit; [| discriminate].
    apply (proj1 Htruthy eq_refl). exact Hnone.
  - intros Hs. unfold setup_recording in Hrec.
    destruct (record a).
    + rewrite Hs in Hrec. discriminate.
    + unfold ret in Hrec. injection Hrec as <-.
      unfold init_source in Hinit.
      destruct t0; try discriminate Hs; unfold ret in Hinit;
        injection Hinit as _ <-; reflexivity.
  - intros ->. unfold init_source, ret in Hinit. injection Hinit as <- _.
    reflexivity.
Qed.

Lemma startup_config_coherent_witness :
  exists cfg tr,
    startup Sample.machine (Sample.cli "clip.mp4" (Some "640x480") true)
    = (Ret cfg, tr) /\
    is_stream (cfg_source_type cfg) = true /\
    cfg_resize cfg = Some (640, 480) /\
    In (VideoWriterOpen "demo1.avi" 30 640 480) tr.
Proof.
  eexists. eexists. split; [vm_compute; reflexivity |].
  destruct (startup_config_coherent
              Sample.machine (Sample.cli "clip.mp4" (Some "640x480") true)
              _ _ eq_refl) as (_ & _ & Hrec & _).
  destruct (Hrec eq_refl) as (Hs & resW & resH & Hres & Hin).
  split; [exact Hs |].
  split; [reflexivity |].
  left. reflexivity.
Defined.

(** ** The drawing loop on arbitrary JSON *)

(** The three ways the drawing code can go on one detection. *)
Lemma draw_box_cases (cfg : config) (w : Client.world)
    (acc : list draw_op * Z) (xmin ymin xmax ymax classname conf : json) :
  (exists e,
      draw_box cfg w acc xmin ymin xmax ymax classname conf = (Raise e, [])) \/
  draw_box cfg w acc xmin ymin xmax ymax classname conf = ret acc \/
  (exists box background label,
      draw_box cfg w acc xmin ymin xmax ymax classname conf =
      ret (fst acc ++ [box; background; label], snd acc + 1)).
Proof.
  unfold draw_box.
  destruct (Json.as_number conf) as [c |]; [| left; eexists; reflexivity].
  destruct (Qgtb c (cfg_min_thresh cfg)); [| right; left; reflexivity].
  destruct (negb (Json.hashable classname)); [left; eexists; reflexivity |].
  rewrite (py_getitem_in_range bbox_colors _ (0, 0, 0) (color_idx_in_range w _)).
  rewrite bind_ret_l.
  destruct xmin as [| | x1 | | | |]; try (left; eexists; reflexivity).
  cbn [as_pixel].
  destruct (in_c_int x1); [rewrite bind_ret_l | left; eexists; reflexivity].
  destruct ymin as [| | y1 | | | |]; try (left; eexists; reflexivity).
  cbn [as_pixel].
  destruct (in_c_int y1); [rewrite bind_ret_l | left; eexists; reflexivity].
  destruct xmax as [| | x2 | | | |]; try (left; eexists; reflexivity).
  cbn [as_pixel].
  destruct (in_c_int x2); [rewrite bind_ret_l | left; eexists; reflexivity].
  destruct ymax as [| | y2 | | | |]; try (left; eexists; reflexivity).
  cbn [as_pixel].
  destruct (in_c_int y2); [rewrite bind_ret_l | left; eexists; reflexivity].
  destruct (percent_overflows conf); [left; eexists; reflexivity |].
  cbv zeta. unfold cv_point. cbn [fst snd].
  repeat match goal with
         | |- context [if ?b then ret _ else raise _] =>
             destruct b; [rewrite bind_ret_l | left; eexists; reflexivity]
         end.
  right. right. do 3 eexists. reflexivity.
Qed.

Lemma draw_detection_cases (cfg : config) (w : Client.world)
    (acc : list draw_op * Z) (detection : json) :
  (exists e, draw_detection cfg w acc detection = (Raise e, [])) \/
  draw_detection cfg w acc detection = ret acc \/
  (exists box background label,
      draw_detection cfg w acc detection =
      ret (fst acc ++ [box; background; label], snd acc + 1)).
Proof.
  destruct detection as [| b | z | q | s | l | d];
    try (left; eexists; reflexivity).
  rewrite draw_detection_dict. apply draw_box_cases.
Qed.

Lemma draw_detection_step (cfg : config) (w : Client.world)
    (acc acc' : list draw_op * Z) (detection : json) (tr : list event) :
  draw_detection cfg w acc detection = (Ret acc', tr) ->
  tr = [] /\
  (acc' = acc \/
   exists box background label,
     acc' = (fst acc ++ [box; background; label], snd acc + 1)).
Proof.
  destruct (draw_detection_cases cfg w acc detection)
    as [[e ->] | [-> | (box & bg & label & ->)]].
  - discriminate.
  - intros [= <- <-]. split; [reflexivity | left; reflexivity].
  - intros [= <- <-]. split; [reflexivity |]. right. do 3 eexists. reflexivity.
Qed.

Lemma draw_detection_silent (cfg : config) (w : Client.world)
    (acc : list draw_op * Z) (detection : json) :
  trace_of (draw_detection cfg w acc detection) = [].
Proof.
  destruct (draw_detection_cases cfg w acc detection)
    as [[e ->] | [-> | (box & bg & label & ->)]]; reflexivity.
Qed.

Lemma draw_detections_bound (cfg : config) (w : Client.world)
    (dets : list json) :
  forall acc acc' tr,
    draw_detections cfg w dets acc = (Ret acc', tr) ->
    tr = [] /\
    snd acc <= snd acc' <= snd acc + Z.of_nat (List.length dets) /\
    Z.of_nat (List.length (fst acc')) =
      Z.of_nat (List.length (fst acc)) + 3 * (snd acc' - snd acc).
Proof.
  induction dets as [| d rest IH]; intros acc acc' tr H.
  - cbn [draw_detections] in H. unfold ret in H. injection H as <- <-.
    split; [reflexivity |]. cbn [List.length]. lia.
  - cbn [draw_detections] in H. apply bind_ret_inv_full in H.
    destruct H as (acc1 & t1 & t2 & Hd & Hrest & ->).
    apply draw_detection_step in Hd. destruct Hd as [-> Hacc1].
    apply IH in Hrest. destruct Hrest as (-> & Hcount & Hops).
    split; [reflexivity |]. cbn [List.length].
    destruct Hacc1 as [-> | (box & bg & label & ->)].
    + lia.
    + cbn [fst snd] in *. rewrite List.length_app in Hops. cbn [List.length] in Hops.
      lia.
Qed.

(** Whatever JSON list the service sends, if the frame is rendered then
    the object count written on it lies between 0 and the number of
    detections received, and three drawing operations (box, label
    background, label) were made per counted object, before the
    annotations. *)
Theorem object_count_bounded
    (cfg : config) (w : Client.world) (st : loop_state) (f : frame)
    (dets : list json) (shown : display) (object_count : Z) (tr : list event) :
  render cfg w st f (JList dets) = (Ret (shown, object_count), tr) ->
  tr = [] /\
  0 <= object_count <= Z.of_nat (List.length dets) /\
  base shown = f /\
  exists boxes,
    ops shown = boxes ++ annotations cfg st object_count /\
    Z.of_nat (List.length boxes) = 3 * object_count.
Proof.
  rewrite render_eq_gen. cbn [Json.iter]. rewrite bind_ret_l. intros H.
  apply bind_ret_inv_full in H. destruct H as (drawn & t1 & t2 & Hd & H & ->).
  destruct (resize_ok w cfg); [| discriminate H].
  unfold ret in H. injection H as <- <- <-.
  apply draw_detections_bound in Hd. destruct Hd as (-> & Hcount & Hops).
  cbn [fst snd List.length] in *.
  split; [reflexivity |]. split; [lia |]. split; [reflexivity |].
  exists (fst drawn). split; [reflexivity | lia].
Qed.

Lemma object_count_bounded_witness :
  exists shown object_count,
    render Sample.image_cfg Sample.machine initial_state (Frame 1)
           (JList [JDict [("confidence", JFloat (9 # 10))]; JDict []])
    = (Ret (shown, object_count), []) /\
    0 <= object_count <= 2.
Proof.
  eexists. eexists. split; [vm_compute; reflexivity |].
  apply (object_count_bounded Sample.image_cfg Sample.machine initial_state
           (Frame 1) [JDict [("confidence", JFloat (9 # 10))]; JDict []]
           _ _ [] eq_refl).
Defined.

(** The drawing loop sits after the [try] block: a detection whose
    confidence is present but is no number makes [conf > min_thresh]
    raise [TypeError], nothing is shown for that frame, and the
    exception ends the loop and the script without clean-up. *)
Theorem non_numeric_confidence_ends_the_script
    (cfg : config) (w : Client.world) (st : loop_state) (inp : iter_input)
    (later : list iter_input) (f : frame) (n : nat) (tacq : list event)
    (body d : list (string * json)) (others : list json) (v : json) :
  acquire cfg st inp = (Ret (Got (Some f) n), tacq) ->
  in_request inp = ReqJson (JDict body) ->
  Json.assoc "predictions" body = Some (JList (JDict d :: others)) ->
  Json.assoc "confidence" d = Some v ->
  Json.as_number v = None ->
  loop cfg w (inp :: later) st =
  (Raise (TypeError ("'>' not supported between instances of '"
                     ++ Json.type_name v ++ "' and 'float'")%string),
   tacq ++ [Post (cfg_server_url cfg) f]).
Proof.
  intros Hacq Hreq Hpred Hconf Hnum.
  cbn [loop]. unfold iteration. rewrite Hacq. cbn [bind].
  unfold request_predictions. rewrite Hreq.
  cbn [Json.get emit bind ret try_except]. rewrite Hpred.
  cbn [bind app]. rewrite render_eq_gen.
  cbn [Json.iter ret bind draw_detections].
  unfold draw_detection, draw_box. cbn [Json.get].
  rewrite !bind_ret_l, Hconf, Hnum.
  reflexivity.
Qed.

Lemma non_numeric_confidence_ends_the_script_witness :
  loop Sample.video_cfg Sample.machine
       [Sample.answers
          (ReqJson (JDict [("predictions",
                            JList [JDict [("confidence", JStr "high")]])]))
          Sample.no_key (30 # 1)]
       initial_state =
  (Raise (TypeError "'>' not supported between instances of 'str' and 'float'"),
   [CapRead; Post "http://10.0.0.5:5001/predict" (Frame 1)]).
Proof.
  apply (non_numeric_confidence_ends_the_script
           Sample.video_cfg Sample.machine initial_state
           (Sample.answers
              (ReqJson (JDict [("predictions",
                                JList [JDict [("confidence", JStr "high")]])]))
              Sample.no_key (30 # 1))
           [] (Frame 1) 0
           [CapRead]
           [("predictions", JList [JDict [("confidence", JStr "high")]])]
           [("confidence", JStr "high")] [] (JStr "high")
           eq_refl eq_refl eq_refl eq_refl eq_refl).
Defined.

(** ** The events of the loop *)

Lemma forallb_bind {E A B : Type} (P : E -> bool) (m : script E A)
    (k : A -> script E B) :
  forallb P (trace_of m) = true ->
  (forall a t, m = (Ret a, t) -> forallb P (trace_of (k a)) = true) ->
  forallb P (trace_of (bind m k)) = true.
Proof.
  destruct m as [[a | c | e] t]; cbn [trace_of snd bind]; intros Hm Hk;
    try exact Hm.
  specialize (Hk a t eq_refl). destruct (k a) as [o t2].
  cbn [trace_of snd] in *. rewrite forallb_app, Hm, Hk. reflexivity.
Qed.

Lemma draw_detections_silent (cfg : config) (w : Client.world)
    (dets : list json) :
  forall acc, trace_of (draw_detections cfg w dets acc) = [].
Proof.
  induction dets as [| d rest IH]; intros acc; [reflexivity |].
  cbn [draw_detections].
  pose proof (draw_detection_silent cfg w acc d) as Hd.
  destruct (draw_detection cfg w acc d) as [[acc1 | c | e] t1];
    cbn [trace_of snd] in Hd; subst t1; cbn [bind]; try reflexivity.
  specialize (IH acc1). destruct (draw_detections cfg w rest acc1) as [o t2].
  cbn [trace_of snd] in *. subst t2. reflexivity.
Qed.

Lemma render_silent (cfg : config) (w : Client.world) (st : loop_state)
    (f : frame) (predictions : json) :
  trace_of (render cfg w st f predictions) = [].
Proof.
  rewrite render_eq_gen.
  destruct (Json.iter predictions) as [[dets | c | e] t] eqn:Hit.
  - assert (t = []) by (destruct predictions; unfold Json.iter, ret, raise in Hit; congruence). subst t.
    cbn [bind].
    pose proof (draw_detections_silent cfg w dets ([], 0)) as Hd.
    destruct (draw_detections cfg w dets ([], 0)) as [[drawn | c | e] t1];
      cbn [trace_of snd] in Hd; subst t1; try reflexivity.
    destruct (resize_ok w cfg); reflexivity.
  - destruct predictions; unfold Json.iter, ret, raise in Hit; congruence.
  - destruct predictions; unfold Json.iter, ret, raise in Hit; try congruence;
      injection Hit as _ <-; reflexivity.
Qed.

Lemma request_predictions_events (cfg : config) (key : Z) (f : frame)
    (r : request_outcome) :
  forallb (after_acquire_ok cfg key) (trace_of (request_predictions cfg f r))
  = true.
Proof.
  unfold request_predictions. destruct r as [e | v].
  - reflexivity.
  - destruct v; reflexivity.
Qed.

Lemma handle_key_events (cfg : config) (key : Z) (d : display) :
  forallb (after_acquire_ok cfg key) (trace_of (handle_key key d)) = true.
Proof.
  unfold handle_key.
  destruct ((key =? Py.ord "q") || (key =? Py.ord "Q")); [reflexivity |].
  destruct ((key =? Py.ord "s") || (key =? Py.ord "S")); [reflexivity |].
  destruct ((key =? Py.ord "p") || (key =? Py.ord "P")) eqn:Hp; [| reflexivity].
  cbn -[Py.ord]. rewrite Hp. reflexivity.
Qed.

Lemma acquire_events (cfg : config) (st : loop_state) (inp : iter_input) :
  forallb (acquire_ok cfg) (trace_of (acquire cfg st inp)) = true.
Proof.
  unfold acquire.
  destruct (cfg_source_type cfg) eqn:Hs.
  - destruct (List.length (cfg_imgs_list cfg) <=? img_count st)%nat; [reflexivity |].
    unfold py_index. destruct (nth_error _ _); [| reflexivity].
    cbn. rewrite Hs. reflexivity.
  - destruct (List.length (cfg_imgs_list cfg) <=? img_count st)%nat; [reflexivity |].
    unfold py_index. destruct (nth_error _ _); [| reflexivity].
    cbn. rewrite Hs. reflexivity.
  - destruct (in_cap_read inp) as [[] [fr |]]; cbn; rewrite Hs; reflexivity.
  - destruct (in_cap_read inp) as [[] [fr |]]; cbn; rewrite Hs; reflexivity.
  - destruct (in_picamera inp) as [fr |]; cbn; rewrite Hs; reflexivity.
  - destruct (in_cap_read inp) as [[] [fr |]]; cbn; rewrite Hs; reflexivity.
Qed.

(** The trace of an iteration is the trace of the acquisition followed
    by events allowed after it; nothing follows an acquisition that did
    not return. *)
Lemma iteration_trace_split (cfg : config) (w : Client.world)
    (st : loop_state) (inp : iter_input) :
  exists rest,
    trace_of (iteration cfg w st inp) = trace_of (acquire cfg st inp) ++ rest /\
    forallb (after_acquire_ok cfg (in_key inp)) rest = true /\
    forallb (fun e => match e with Imread _ => false | _ => true end) rest = true.
Proof.
  unfold iteration.
  destruct (acquire cfg st inp) as [[a | c | e] tacq];
    cbn [bind trace_of snd];
    try (exists []; rewrite app_nil_r; repeat split; reflexivity).
  match goal with
  | |- context [let '(o, t2) := ?K in _] => destruct K as [o t2] eqn:HK
  end.
  exists t2. cbn [snd]. split; [reflexivity |].
  assert (Hall : forallb (after_acquire_ok cfg (in_key inp)) t2 = true).
  { change t2 with (trace_of (o, t2)). rewrite <- HK. clear HK.
    destruct a as [[f |] n |]; try reflexivity.
    apply forallb_bind; [apply request_predictions_events |]. intros predictions _ _.
    apply forallb_bind; [rewrite render_silent; reflexivity |]. intros dc _ _.
    apply forallb_bind; [reflexivity |]. intros _ _ _.
    apply forallb_bind; [destruct (cfg_record cfg) eqn:Hr; cbn;
                         rewrite ?Hr; reflexivity |]. intros _ _ _.
    apply forallb_bind; [reflexivity |]. intros _ _ _.
    apply forallb_bind; [apply handle_key_events |]. intros stop _ _.
    destruct stop; [reflexivity |].
    rewrite update_frame_rate_buffer_eq, bind_ret_l. reflexivity. }
  split; [exact Hall |].
  clear -Hall. induction t2 as [| e r IH]; [reflexivity |].
  cbn [forallb] in *. apply andb_true_iff in Hall. destruct Hall as [He Hr].
  rewrite (IH Hr), andb_true_r. destruct e; try reflexivity. discriminate He.
Qed.

(** What one iteration never does: every event it emits is the read of
    its source type, a log line, the request, the display or the key
    wait; it writes to the recording only under [--record], writes a
    snapshot only on the [p] key and only to [capture.png], and never
    opens or releases a device or closes the windows. *)
Theorem iteration_events_allowed
    (cfg : config) (w : Client.world) (st : loop_state) (inp : iter_input) :
  forallb (iteration_event_ok cfg (in_key inp))
          (trace_of (iteration cfg w st inp)) = true.
Proof.
  destruct (iteration_trace_split cfg w st inp) as (rest & -> & Hrest & _).
  rewrite forallb_app. apply andb_true_iff. split.
  - pose proof (acquire_events cfg st inp) as H.
    revert H. generalize (trace_of (acquire cfg st inp)).
    induction l as [| e r IH]; [reflexivity |]. cbn [forallb].
    intros H. apply andb_true_iff in H. destruct H as [He Hr].
    unfold iteration_event_ok at 1. rewrite He, (IH Hr). reflexivity.
  - revert Hrest. induction rest as [| e r IH]; [reflexivity |]. cbn [forallb].
    intros H. apply andb_true_iff in H. destruct H as [He Hr].
    unfold iteration_event_ok at 1. rewrite He, (IH Hr), orb_true_r. reflexivity.
Qed.

(** ** Image and folder sources *)

Lemma acquire_image (cfg : config) (st : loop_state) (inp : iter_input) :
  cfg_source_type cfg = image \/ cfg_source_type cfg = folder ->
  ((List.length (cfg_imgs_list cfg) <= img_count st)%nat /\
   acquire cfg st inp =
   (Exit 0, [Print "Semua gambar telah diproses. Keluar dari program."])) \/
  (exists file,
      nth_error (cfg_imgs_list cfg) (img_count st) = Some file /\
      acquire cfg st inp =
      (Ret (Got (in_imread inp) (S (img_count st))), [Imread file])).
Proof.
  intros Hsrc. unfold acquire.
  destruct (Nat.leb_spec (List.length (cfg_imgs_list cfg)) (img_count st))
    as [Hdone | Hmore].
  - left. split; [exact Hdone |]. destruct Hsrc as [-> | ->]; reflexivity.
  - right.
    destruct (nth_error (cfg_imgs_list cfg) (img_count st)) as [file |] eqn:Hn.
    + exists file. split; [reflexivity |].
      unfold py_index. destruct Hsrc as [-> | ->]; rewrite Hn; reflexivity.
    + apply nth_error_None in Hn. lia.
Qed.

Lemma acquire_never_raises (cfg : config) (st : loop_state) (inp : iter_input)
    (e : exn) :
  result_of (acquire cfg st inp) <> Raise e.
Proof.
  destruct (cfg_source_type cfg) eqn:Hs.
  1,2: destruct (acquire_image cfg st inp) as [[_ ->] | (file & _ & ->)];
    auto; discriminate.
  all: unfold acquire; rewrite Hs.
  1,2,4: destruct (in_cap_read inp) as [[] [fr |]]; discriminate.
  destruct (in_picamera inp); discriminate.
Qed.

Lemma reads_app (a b : list event) : reads (a ++ b) = reads a ++ reads b.
Proof. unfold reads. apply flat_map_app. Qed.

Lemma reads_none (tr : list event) :
  forallb (fun e => match e with Imread _ => false | _ => true end) tr = true ->
  reads tr = [].
Proof.
  induction tr as [| e r IH]; [reflexivity |]. cbn [forallb]. intros H.
  apply andb_true_iff in H. destruct H as [He Hr].
  unfold reads in *. cbn [flat_map]. rewrite (IH Hr).
  destruct e; try reflexivity. discriminate He.
Qed.

Lemma skipn_nth_error {A : Type} (l : list A) (n : nat) (x : A) :
  nth_error l n = Some x -> skipn n l = x :: skipn (S n) l.
Proof.
  revert l. induction n as [| n IH]; intros l H; destruct l as [| y r];
    try discriminate.
  - cbn in H. injection H as ->. reflexivity.
  - cbn [nth_error] in H. cbn [skipn]. rewrite (IH r H). reflexivity.
Qed.

Lemma iteration_image (cfg : config) (w : Client.world) (st : loop_state)
    (inp : iter_input) :
  cfg_source_type cfg = image \/ cfg_source_type cfg = folder ->
  reads (trace_of (iteration cfg w st inp)) =
    firstn 1 (skipn (img_count st) (cfg_imgs_list cfg)) /\
  (forall st', result_of (iteration cfg w st inp) = Ret (Continue st') ->
               (img_count st < List.length (cfg_imgs_list cfg))%nat /\
               img_count st' = S (img_count st)).
Proof.
  intros Hsrc.
  destruct (iteration_trace_split cfg w st inp) as (rest & Htr & _ & Hno).
  destruct (acquire_image cfg st inp Hsrc) as [[Hdone Hacq] | (file & Hn & Hacq)].
  - split.
    + rewrite Htr, Hacq, reads_app, (reads_none rest Hno).
      rewrite skipn_all2 by exact Hdone. reflexivity.
    + intros st'. unfold iteration. rewrite Hacq. discriminate.
  - split.
    + rewrite Htr, Hacq, reads_app, (reads_none rest Hno).
      rewrite (skipn_nth_error _ _ _ Hn). reflexivity.
    + intros st' H. split.
      * apply nth_error_Some. congruence.
      * unfold iteration in H. rewrite Hacq in H. cbn [bind] in H.
        destruct (in_imread inp) as [f |].
        -- match type of H with
           | context [let '(o, t2) := ?K in _] => destruct K as [o t2] eqn:HK
           end.
           cbn [result_of fst] in H. subst o.
           assert (HK' : result_of
                     (predictions <- request_predictions cfg f (in_request inp) ;;
                      dc <- render cfg w st f predictions ;;
                      emit (Imshow (fst dc)) ;;;
                      (if cfg_record cfg then emit (RecorderWrite (fst dc))
                       else ret tt) ;;;
                      emit (WaitKey (if is_stream (cfg_source_type cfg)
                                     then Some 5 else None)) ;;;
                      stop <- handle_key (in_key inp) (fst dc) ;;
                      (if (stop : bool) then ret (Break (set_img_count st (S (img_count st))))
                       else
                         buf <- update_frame_rate_buffer (frame_rate_buffer st)
                                  (in_frame_rate inp) ;;
                         ret (Continue {| avg_frame_rate := np_mean w buf;
                                          frame_rate_buffer := buf;
                                          img_count := S (img_count st) |})))%script
                     = Ret (Continue st'))
             by (rewrite HK; reflexivity).
           clear HK. do 6 bind_inv HK'. destruct a4; [discriminate |].
           bind_inv HK'. injection HK' as <-. reflexivity.
        -- cbn in H. injection H as <-. reflexivity.
Qed.

(** With an image or a folder as source, the images are read in the
    order of the list, each at most once, starting where the counter
    stands; and the loop cannot outlast the list: given more iterations
    than images left, the run has ended (by the exit at exhaustion, the
    quit key or an exception). *)
Theorem images_read_once_in_order
    (cfg : config) (w : Client.world) (inputs : list iter_input)
    (st : loop_state) :
  cfg_source_type cfg = image \/ cfg_source_type cfg = folder ->
  (exists k,
      (k <= List.length inputs)%nat /\
      reads (trace_of (loop cfg w inputs st)) =
      firstn k (skipn (img_count st) (cfg_imgs_list cfg))) /\
  ((List.length (cfg_imgs_list cfg) - img_count st < List.length inputs)%nat ->
   forall st', result_of (loop cfg w inputs st) <> Ret (Running st')).
Proof.
  intros Hsrc. revert st.
  induction inputs as [| inp rest IH]; intros st.
  { split; [exists 0%nat; split; [lia | reflexivity] |].
    cbn [List.length]. lia. }
  destruct (iteration_image cfg w st inp Hsrc) as [Hreads Hcont].
  cbn [loop].
  destruct (iteration cfg w st inp) as [[c | code | e] t1] eqn:Hit;
    cbn [trace_of snd result_of fst bind] in *.
  2,3: split; [exists 1%nat; split; [cbn; lia | exact Hreads] | discriminate].
  destruct c as [st' | st'].
  - destruct (Hcont st' eq_refl) as [Hlt Hcount].
    destruct (IH st') as [(k & Hk & Hrest) Hstop].
    destruct (loop cfg w rest st') as [o t2]. cbn [trace_of snd result_of fst] in *.
    split.
    + exists (S k). split; [cbn; lia |].
      rewrite reads_app, Hreads, Hrest, Hcount.
      destruct (nth_error (cfg_imgs_list cfg) (img_count st)) as [file |] eqn:Hn;
        [| apply nth_error_None in Hn; lia].
      rewrite (skipn_nth_error _ _ _ Hn). reflexivity.
    + intros Hlen. apply Hstop. cbn [List.length] in Hlen. lia.
  - cbn. split; [| discriminate].
    exists 1%nat. split; [lia |]. rewrite app_nil_r. exact Hreads.
Qed.

Lemma images_read_once_in_order_witness :
  exists k,
    (k <= 2)%nat /\
    reads (trace_of
             (loop Sample.image_cfg Sample.machine
                [Sample.answers (ReqJson (JDict [])) Sample.space_key (30 # 1);
                 Sample.answers (ReqJson (JDict [])) Sample.space_key (30 # 1)]
                initial_state))
    = firstn k ["test.jpg"].
Proof.
  apply (proj1 (images_read_once_in_order Sample.image_cfg Sample.machine
                  [Sample.answers (ReqJson (JDict [])) Sample.space_key (30 # 1);
                   Sample.answers (ReqJson (JDict [])) Sample.space_key (30 # 1)]
                  initial_state (or_introl eq_refl))).
Defined.

(** ** A run against a server that never answers *)

Lemma handle_key_shows_nothing (key : Z) (d d' : display) :
  ~ In (Imshow d') (trace_of (handle_key key d)).
Proof.
  unfold handle_key.
  destruct ((key =? Py.ord "q") || (key =? Py.ord "Q")); [intros [] |].
  destruct ((key =? Py.ord "s") || (key =? Py.ord "S"));
    [intros [H | []]; discriminate |].
  destruct ((key =? Py.ord "p") || (key =? Py.ord "P"));
    [intros [H | []]; discriminate | intros []].
Qed.

Lemma acquire_shows_nothing (cfg : config) (st : loop_state) (inp : iter_input)
    (d : display) :
  ~ In (Imshow d) (trace_of (acquire cfg st inp)).
Proof.
  intros Hin. pose proof (acquire_events cfg st inp) as Hall.
  rewrite forallb_forall in Hall. specialize (Hall _ Hin). discriminate Hall.
Qed.

Lemma failed_iteration (cfg : config) (w : Client.world) (st : loop_state)
    (inp : iter_input) (e : exn) :
  resize_ok w cfg = true ->
  request_failure (in_request inp) = Some e ->
  (forall d, In (Imshow d) (trace_of (iteration cfg w st inp)) ->
             ops d = annotations cfg st 0) /\
  (forall e', result_of (iteration cfg w st inp) <> Raise e').
Proof.
  intros Hres Hfail.
  destruct (acquire cfg st inp) as [[a | c | ex] tacq] eqn:Hacq.
  - destruct a as [[f |] n |].
    + rewrite (iteration_after_request cfg w st inp f n tacq
                 [Post (cfg_server_url cfg) f; Print (failure_msg e)] []
                 [] ([], 0) Hres Hacq
                 (request_predictions_failure cfg f _ e Hfail) eq_refl).
      cbn [trace_of snd result_of fst app].
      split.
      * intros d Hin. apply in_app_or in Hin. destruct Hin as [Hin | Hin].
        { exfalso. apply (acquire_shows_nothing cfg st inp d).
          rewrite Hacq. exact Hin. }
        cbn [In] in Hin. destruct Hin as [Hin | [Hin | [Hin | Hin]]];
          try discriminate.
        { injection Hin as <-. reflexivity. }
        apply in_app_or in Hin. destruct Hin as [Hin | Hin].
        { destruct (cfg_record cfg); cbn in Hin;
            [destruct Hin as [Hin | []]; discriminate | contradiction]. }
        cbn [app In] in Hin. destruct Hin as [Hin | Hin]; [discriminate |].
        exfalso. exact (handle_key_shows_nothing _ _ _ Hin).
      * intros e'. destruct (_ || _); discriminate.
    + unfold iteration. rewrite Hacq. cbn [bind ret trace_of snd result_of fst app].
      rewrite app_nil_r. split.
      * intros d Hin. exfalso. apply (acquire_shows_nothing cfg st inp d).
        rewrite Hacq. exact Hin.
      * discriminate.
    + unfold iteration. rewrite Hacq. cbn [bind ret trace_of snd result_of fst app].
      rewrite app_nil_r. split.
      * intros d Hin. exfalso. apply (acquire_shows_nothing cfg st inp d).
        rewrite Hacq. exact Hin.
      * discriminate.
  - unfold iteration. rewrite Hacq. cbn [bind trace_of snd result_of fst].
    split; try discriminate.
    intros d Hin. exfalso. apply (acquire_shows_nothing cfg st inp d).
    rewrite Hacq. exact Hin.
  - exfalso. apply (acquire_never_raises cfg st inp ex). rewrite Hacq. reflexivity.
Qed.

(** When every request of a run fails (the server cannot be reached,
    times out, answers an error status or something that is no JSON
    object) and the display resolution, if one is set, is one
    [cv2.resize] accepts, every frame that is shown carries no box and
    the object count 0, and no exception leaves the loop: the run goes on
    until the source ends or the user quits. *)
Theorem unreachable_server_run
    (cfg : config) (w : Client.world) (inputs : list iter_input) :
  resize_ok w cfg = true ->
  (forall inp, In inp inputs -> request_failure (in_request inp) <> None) ->
  forall st,
    (forall d, In (Imshow d) (trace_of (loop cfg w inputs st)) ->
               exists st0, ops d = annotations cfg st0 0) /\
    (forall e, result_of (loop cfg w inputs st) <> Raise e).
Proof.
  intros Hres.
  induction inputs as [| inp rest IH]; intros Hfail st.
  { split; [intros d [] | discriminate]. }
  assert (Hinp : exists e, request_failure (in_request inp) = Some e).
  { destruct (request_failure (in_request inp)) as [e |] eqn:H; [eauto |].
    exfalso. apply (Hfail inp); [left; reflexivity | exact H]. }
  destruct Hinp as [e He].
  destruct (failed_iteration cfg w st inp e Hres He) as [Hshow Hraise].
  assert (IH' := fun st' => IH (fun i Hi => Hfail i (or_intror Hi)) st').
  cbn [loop].
  destruct (iteration cfg w st inp) as [[c | code | ex] t1];
    cbn [trace_of snd result_of fst bind] in *.
  - destruct c as [st' | st'].
    + destruct (IH' st') as [Hshow' Hraise'].
      destruct (loop cfg w rest st') as [o t2].
      cbn [trace_of snd result_of fst] in *. split.
      * intros d Hin. apply in_app_or in Hin. destruct Hin as [Hin | Hin];
          [exists st; apply Hshow; exact Hin | apply Hshow'; exact Hin].
      * exact Hraise'.
    + cbn. split; [| discriminate].
      intros d Hin. rewrite app_nil_r in Hin. exists st. apply Hshow. exact Hin.
  - split; [| discriminate]. intros d Hin. exists st. apply Hshow. exact Hin.
  - exfalso. apply (Hraise ex). reflexivity.
Qed.

Lemma unreachable_server_run_witness :
  exists st0,
    [Resize 640 480; PutText (FpsText 0) (10, 20) (0, 255, 255) 2;
     PutText (CountText 0) (10, 40) (0, 255, 255) 2]
    = annotations Sample.video_cfg st0 0.
Proof.
  apply (proj1 (unreachable_server_run Sample.video_cfg Sample.machine
                  [Sample.answers (ReqRaises (RequestsConnectionError "refused"))
                                  Sample.no_key (30 # 1);
                   Sample.answers (ReqRaises (RequestsTimeout "timed out"))
                                  Sample.no_key (25 # 1)]
                  eq_refl
                  ltac:(intros inp [<- | [<- | []]]; simpl; discriminate)
                  initial_state)
           {| base := Frame 1;
              ops := [Resize 640 480;
                      PutText (FpsText 0) (10, 20) (0, 255, 255) 2;
                      PutText (CountText 0) (10, 40) (0, 255, 255) 2] |}).
  vm_compute. right. right. right. left. reflexivity.
Defined.

(** ** The frame rate that is shown and printed *)

Lemma iteration_average (cfg : config) (w : Client.world) (st : loop_state)
    (inp : iter_input) (c : control) :
  result_of (iteration cfg w st inp) = Ret c ->
  (frame_rate_buffer (state_of c) = frame_rate_buffer st /\
   avg_frame_rate (state_of c) = avg_frame_rate st) \/
  (frame_rate_buffer (state_of c) <> [] /\
   avg_frame_rate (state_of c) = np_mean w (frame_rate_buffer (state_of c))).
Proof.
  unfold iteration. intros H. bind_inv H.
  destruct a as [[f |] n |].
  - do 6 bind_inv H. destruct a4.
    + injection H as <-. left. split; reflexivity.
    + bind_inv H. injection H as <-. right.
      cbn [state_of frame_rate_buffer avg_frame_rate].
      split; [| reflexivity].
      rewrite update_frame_rate_buffer_eq in Hrun6.
      unfold ret in Hrun6.
      destruct (fps_avg_len <=? List.length (frame_rate_buffer st))%nat;
        injection Hrun6 as <- _;
        intros Hnil; apply app_eq_nil in Hnil; destruct Hnil as [_ Hnil];
        discriminate Hnil.
  - injection H as <-. left. split; reflexivity.
  - injection H as <-. left. split; reflexivity.
Qed.

Lemma cleanup_prints (cfg : config) (w : Client.world) (st : loop_state) :
  exists released,
    cleanup cfg w st = (Ret tt, PrintAvgFps (avg_frame_rate st) :: released).
Proof.
  unfold cleanup.
  destruct (cfg_source_type cfg), (cap_isOpened_at_end w), (cfg_record cfg),
    (recorder_isOpened_at_end w); eexists; reflexivity.
Qed.

Lemma loop_average (cfg : config) (w : Client.world)
    (inputs : list iter_input) :
  forall st e,
    (frame_rate_buffer st = [] /\ avg_frame_rate st = 0%Q) \/
    (frame_rate_buffer st <> [] /\
     avg_frame_rate st = np_mean w (frame_rate_buffer st)) ->
    result_of (loop cfg w inputs st) = Ret e ->
    (frame_rate_buffer (end_state e) = [] /\
     avg_frame_rate (end_state e) = 0%Q) \/
    (frame_rate_buffer (end_state e) <> [] /\
     avg_frame_rate (end_state e) = np_mean w (frame_rate_buffer (end_state e))).
Proof.
  induction inputs as [| inp rest IH]; intros st e Hinv H.
  - cbn in H. injection H as <-. exact Hinv.
  - cbn [loop] in H. bind_inv H.
    assert (Hc : result_of (iteration cfg w st inp) = Ret a)
      by (rewrite Hrun; reflexivity).
    assert (Hinv' : (frame_rate_buffer (state_of a) = [] /\
                     avg_frame_rate (state_of a) = 0%Q) \/
                    (frame_rate_buffer (state_of a) <> [] /\
                     avg_frame_rate (state_of a)
                     = np_mean w (frame_rate_buffer (state_of a)))).
    { destruct (iteration_average _ _ _ _ _ Hc) as [[Hb Ha] | Hnew].
      - rewrite Hb, Ha. exact Hinv.
      - right. exact Hnew. }
    destruct a as [st' | st'].
    + eapply IH; [exact Hinv' | exact H].
    + injection H as <-. exact Hinv'.
Qed.

(** Along a run from the initial state, the average frame rate is 0
    while no iteration has completed and, from then on, what [np.mean]
    gives for the buffer; when the loop is left by [break], the clean-up
    prints this value first. *)
Theorem average_is_mean_of_buffer
    (cfg : config) (w : Client.world) (inputs : list iter_input)
    (e : loop_end) :
  result_of (loop cfg w inputs initial_state) = Ret e ->
  ((frame_rate_buffer (end_state e) = [] /\
    avg_frame_rate (end_state e) = 0%Q) \/
   (frame_rate_buffer (end_state e) <> [] /\
    avg_frame_rate (end_state e) = np_mean w (frame_rate_buffer (end_state e)))) /\
  (forall a t0 st,
      startup w a = (Ret cfg, t0) ->
      e = Broke st ->
      exists released,
        main w a inputs =
        (Ret (Broke st),
         t0 ++ trace_of (loop cfg w inputs initial_state)
            ++ PrintAvgFps (avg_frame_rate st) :: released)).
Proof.
  intros H. split.
  - apply (loop_average cfg w inputs initial_state e); [| exact H].
    left. split; reflexivity.
  - intros a t0 st Hs ->. unfold main. rewrite Hs. cbn [bind].
    destruct (loop cfg w inputs initial_state) as [o t1].
    unfold result_of in H. cbn [fst] in H. subst o.
    cbn [bind trace_of snd].
    destruct (cleanup_prints cfg w st) as [released ->].
    exists released. cbn [bind ret]. rewrite app_nil_r. reflexivity.
Qed.

Lemma average_is_mean_of_buffer_witness :
  let inputs := [Sample.answers (ReqJson (JDict [])) Sample.no_key (30 # 1);
                 Sample.answers (ReqJson (JDict [])) Sample.no_key (20 # 1);
                 Sample.answers (ReqJson (JDict [])) (Py.ord "q") (10 # 1)] in
  exists st released,
    result_of (loop Sample.video_cfg Sample.machine inputs initial_state)
    = Ret (Broke st) /\
    frame_rate_buffer st = [30 # 1; 20 # 1] /\
    avg_frame_rate st = np_mean Sample.machine [30 # 1; 20 # 1] /\
    main Sample.machine (Sample.cli "clip.mp4" (Some "640x480") true) inputs =
    (Ret (Broke st),
     trace_of (startup Sample.machine
                 (Sample.cli "clip.mp4" (Some "640x480") true))
     ++ trace_of (loop Sample.video_cfg Sample.machine inputs initial_state)
     ++ PrintAvgFps (25 # 1) :: released).
Proof.
  intros inputs.
  destruct (average_is_mean_of_buffer Sample.video_cfg Sample.machine inputs
              (Broke {| avg_frame_rate := 25 # 1;
                        frame_rate_buffer := [30 # 1; 20 # 1];
                        img_count := 0 |})
              eq_refl) as [Havg Hprint].
  destruct (Hprint (Sample.cli "clip.mp4" (Some "640x480") true) _ _
              eq_refl eq_refl) as [released Hmain].
  eexists. exists released.
  split; [reflexivity |].
  split; [reflexivity |].
  split; [reflexivity |].
  exact Hmain.
Defined.

Lemma loop_break_runs_cleanup_witness :
  exists released,
    main Sample.machine (Sample.cli "clip.mp4" (Some "640x480") true)
         [Sample.answers (ReqJson (JDict [])) (Py.ord "q") (30 # 1)]
    = (Ret (Broke initial_state),
       trace_of (startup Sample.machine
                   (Sample.cli "clip.mp4" (Some "640x480") true))
       ++ trace_of (loop Sample.video_cfg Sample.machine
                      [Sample.answers (ReqJson (JDict [])) (Py.ord "q") (30 # 1)]
                      initial_state)
       ++ [PrintAvgFps 0] ++ released ++ [DestroyAllWindows]) /\
    In RecorderRelease released /\ In CapRelease released.
Proof.
  destruct (loop_break_runs_cleanup
              Sample.machine (Sample.cli "clip.mp4" (Some "640x480") true)
              [Sample.answers (ReqJson (JDict [])) (Py.ord "q") (30 # 1)]
              Sample.video_cfg initial_state
              [VideoWriterOpen "demo1.avi" 30 640 480;
               VideoCaptureOpen (CapPath "clip.mp4"); CapSet 640 480]
              (trace_of (loop Sample.video_cfg Sample.machine
                           [Sample.answers (ReqJson (JDict [])) (Py.ord "q") (30 # 1)]
                           initial_state))
              eq_refl eq_refl)
    as (released & Hmain & Hrec & Hcap & _).
  exists released. split; [exact Hmain |]. split.
  - apply Hrec; reflexivity.
  - apply Hcap; [left; reflexivity | reflexivity].
Defined.

(** ** Answers of the inference service *)

Lemma extract_all_labelled (g : globals) (names : list (Z * string))
    (boxes : list raw_box) :
  labels g = Some names ->
  forallb (has_label names) boxes = true ->
  forall predictions,
    extract_all g boxes predictions =
    ret (predictions ++ map (to_detection names) boxes).
Proof.
  intros Hl. induction boxes as [| b rest IH]; intros Hall predictions.
  - cbn. now rewrite app_nil_r.
  - cbn [forallb] in Hall. apply andb_true_iff in Hall. destruct Hall as [Hb Hrest].
    cbn [extract_all map]. unfold extract, read_labels, to_detection, has_label in *.
    rewrite Hl. destruct (xyxy b) as [[[x1 y1] x2] y2]. rewrite bind_ret_l.
    destruct (lookup_label (int_of_float (cls b)) names) as [name |];
      [| discriminate].
    rewrite bind_ret_l, (IH Hrest), <- app_assoc. reflexivity.
Qed.

(** On a request whose image decodes, with the model loaded and a name
    for every class index it reports, the service answers 200 with one
    detection per box of the model, in the model's order, corners
    truncated to integers, and logs the inference time. *)
Theorem predict_returns_boxes_in_model_order
    (w : Server.world) (g : globals) (r : request)
    (d : list (string * json)) (image_b64 : json) (image_bytes : list Z)
    (bmp : bitmap) (m : model_fn) (names : list (Z * string))
    (boxes : list raw_box) :
  is_json r = true ->
  json_body r = Some (JDict d) ->
  Json.assoc "image" d = Some image_b64 ->
  @Base64.b64decode log image_b64 = ret image_bytes ->
  imdecode w image_bytes = inr (Some bmp) ->
  model g = Some m ->
  labels g = Some names ->
  m bmp = inr boxes ->
  forallb (has_label names) boxes = true ->
  predict w g r =
  (Ret (PredictionsBody (map (to_detection names) boxes), 200),
   [LogInferenceTime]).
Proof.
  intros Hj Hb Hi Hdec Him Hm Hl Hrun Hall.
  rewrite (predict_on_image w g r d _ Hj Hb Hi), Hdec, bind_ret_l, Him.
  unfold lift at 1. rewrite bind_ret_l. unfold read_model. rewrite Hm, bind_ret_l.
  rewrite Hrun. unfold lift. rewrite bind_ret_l.
  rewrite (extract_all_labelled g names boxes Hl Hall). reflexivity.
Qed.

Lemma predict_returns_boxes_in_model_order_witness :
  let box := {| xyxy := (21 # 2, 5 # 1, 201 # 2, 80 # 1);
                cls := 1 # 1; conf := 9 # 10 |} in
  let g := {| model := Some (fun _ => inr [box]);
              labels := Some [(0, "helmet"); (1, "vest")] |} in
  predict Sample.decoder g (Sample.post (JDict [("image", JStr "/9j/4A==")])) =
  (Ret (PredictionsBody
          [{| xmin := 10; ymin := 5; xmax := 100; ymax := 80;
              class_name := "vest"; confidence := 9 # 10 |}], 200),
   [LogInferenceTime]).
Proof.
  intros box g.
  apply (predict_returns_boxes_in_model_order
           Sample.decoder g (Sample.post (JDict [("image", JStr "/9j/4A==")]))
           [("image", JStr "/9j/4A==")] (JStr "/9j/4A==") [255; 216; 255; 224]
           (Bitmap 1) (fun _ => inr [box]) [(0, "helmet"); (1, "vest")] [box]);
    reflexivity.
Defined.

Lemma extract_all_unlabelled (g : globals) (names : list (Z * string))
    (before : list raw_box) (b : raw_box) (after : list raw_box) :
  labels g = Some names ->
  forallb (has_label names) before = true ->
  has_label names b = false ->
  forall predictions,
    extract_all g (before ++ b :: after) predictions =
    raise (KeyError (str_of_Z (int_of_float (cls b)))).
Proof.
  intros Hl. induction before as [| b0 rest IH]; intros Hall Hb predictions.
  - cbn [app extract_all]. unfold extract, read_labels, has_label in *.
    rewrite Hl. destruct (xyxy b) as [[[x1 y1] x2] y2]. rewrite bind_ret_l.
    destruct (lookup_label (int_of_float (cls b)) names); [discriminate |].
    reflexivity.
  - cbn [forallb] in Hall. apply andb_true_iff in Hall. destruct Hall as [Hb0 Hrest].
    cbn [app extract_all]. unfold extract, read_labels, has_label in Hb0 |- *.
    rewrite Hl. destruct (xyxy b0) as [[[x1 y1] x2] y2]. rewrite bind_ret_l.
    destruct (lookup_label (int_of_float (cls b0)) names); [| discriminate].
    rewrite bind_ret_l. apply IH; assumption.
Qed.

(** When the model reports a class index that has no name, the request
    is answered 500 with the [KeyError] of that index, and none of the
    detections made before it is returned. *)
Theorem predict_unknown_class_is_500
    (w : Server.world) (g : globals) (r : request)
    (d : list (string * json)) (image_b64 : json) (image_bytes : list Z)
    (bmp : bitmap) (m : model_fn) (names : list (Z * string))
    (before : list raw_box) (b : raw_box) (after : list raw_box) :
  is_json r = true ->
  json_body r = Some (JDict d) ->
  Json.assoc "image" d = Some image_b64 ->
  @Base64.b64decode log image_b64 = ret image_bytes ->
  imdecode w image_bytes = inr (Some bmp) ->
  model g = Some m ->
  labels g = Some names ->
  m bmp = inr (before ++ b :: after) ->
  forallb (has_label names) before = true ->
  has_label names b = false ->
  result_of (predict w g r) =
  Ret (ErrorBody (internal_error_msg (KeyError (str_of_Z (int_of_float (cls b))))),
       500).
Proof.
  intros Hj Hb Hi Hdec Him Hm Hl Hrun Hall Hbad.
  rewrite (predict_on_image w g r d _ Hj Hb Hi), Hdec, bind_ret_l, Him.
  unfold lift at 1. rewrite bind_ret_l. unfold read_model. rewrite Hm, bind_ret_l.
  rewrite Hrun. unfold lift. rewrite bind_ret_l.
  rewrite (extract_all_unlabelled g names before b after Hl Hall Hbad).
  reflexivity.
Qed.

Lemma predict_unknown_class_is_500_witness :
  let known := {| xyxy := (1 # 1, 2 # 1, 3 # 1, 4 # 1); cls := 0 # 1; conf := 1 # 2 |} in
  let unknown := {| xyxy := (1 # 1, 2 # 1, 3 # 1, 4 # 1); cls := 5 # 1; conf := 1 # 2 |} in
  let g := {| model := Some (fun _ => inr [known; unknown]);
              labels := Some [(0, "helmet")] |} in
  result_of (predict Sample.decoder g
               (Sample.post (JDict [("image", JStr "/9j/4A==")]))) =
  Ret (ErrorBody "Kesalahan internal server: 5", 500).
Proof.
  intros known unknown g.
  apply (predict_unknown_class_is_500
           Sample.decoder g (Sample.post (JDict [("image", JStr "/9j/4A==")]))
           [("image", JStr "/9j/4A==")] (JStr "/9j/4A==") [255; 216; 255; 224]
           (Bitmap 1) (fun _ => inr [known; unknown]) [(0, "helmet")]
           [known] unknown []);
    reflexivity.
Defined.

(** A JSON body that is no object but passes the ['image' in ...] test (a
    list with the element "image", a string with that substring) is not
    answered by the handler: [request.json['image']] raises [TypeError]
    before the [try] block, and the framework answers 500. *)
Theorem non_object_body_escapes_handler
    (w : Server.world) (g : globals) (r : request) (v : json) :
  is_json r = true ->
  json_body r = Some v ->
  (exists l, v = JList l /\ In (JStr "image") l) \/
  (exists s, v = JStr s /\ Py.contains "image" s = true) ->
  (exists msg, predict w g r = raise (TypeError msg)) /\
  serve w g r = Framework 500.
Proof.
  intros Hj Hb Hv.
  assert (H : exists msg, predict w g r = raise (TypeError msg)).
  { unfold predict, request_json, json_contains, json_getitem.
    rewrite Hj, Hb. cbn [negb]. rewrite !bind_ret_l.
    destruct Hv as [(l & -> & Hin) | (s & -> & Hs)].
    - assert (Hex : existsb (fun x => match x with
                                      | JStr s => String.eqb s "image"
                                      | _ => false
                                      end) l = true).
      { apply existsb_exists. exists (JStr "image"). split; [exact Hin | reflexivity]. }
      rewrite Hex. cbn [negb]. rewrite !bind_ret_l. eexists. reflexivity.
    - rewrite Hs. cbn [negb]. rewrite !bind_ret_l. eexists. reflexivity. }
  split; [exact H |]. destruct H as [msg H]. unfold serve. rewrite H. reflexivity.
Qed.

Lemma non_object_body_escapes_handler_witness :
  serve Sample.decoder Sample.degraded (Sample.post (JList [JStr "image"]))
  = Framework 500.
Proof.
  apply (proj2 (non_object_body_escapes_handler
                  Sample.decoder Sample.degraded
                  (Sample.post (JList [JStr "image"])) (JList [JStr "image"])
                  eq_refl eq_refl
                  (or_introl (ex_intro _ [JStr "image"]
                                (conj eq_refl (or_introl eq_refl)))))).
Defined.

Lemma b64decode_outcome (v : json) :
  (exists bytes, @Base64.b64decode log v = ret bytes) \/
  (exists e, @Base64.b64decode log v = raise e).
Proof.
  unfold Base64.b64decode. destruct v; try (right; eexists; reflexivity).
  destruct (Base64.is_ascii s); [| right; eexists; reflexivity].
  destruct (Base64.a2b_base64 s) as [e | bytes];
    [right | left]; eexists; reflexivity.
Qed.

Lemma extract_all_outcome (g : globals) (boxes : list raw_box) :
  forall predictions,
    (exists ds, extract_all g boxes predictions = ret ds) \/
    (exists e, extract_all g boxes predictions = raise e).
Proof.
  induction boxes as [| b rest IH]; intros predictions.
  - left. eexists. reflexivity.
  - cbn [extract_all]. unfold extract, read_labels.
    destruct (xyxy b) as [[[x1 y1] x2] y2].
    destruct (labels g) as [names |]; [| right; eexists; reflexivity].
    rewrite bind_ret_l.
    destruct (lookup_label (int_of_float (cls b)) names) as [name |];
      [| right; eexists; reflexivity].
    rewrite bind_ret_l. apply IH.
Qed.

(** Every request whose body is a JSON object is answered by the handler
    itself, never by an exception that escapes it: with 200 and a list
    of predictions, or with 400 or 500 and an error message. *)
Theorem object_body_always_answered
    (w : Server.world) (g : globals) (r : request) (d : list (string * json)) :
  is_json r = true ->
  json_body r = Some (JDict d) ->
  exists b status,
    result_of (predict w g r) = Ret (b, status) /\
    ((status = 200 /\ exists predictions, b = PredictionsBody predictions) \/
     ((status = 400 \/ status = 500) /\ exists error, b = ErrorBody error)).
Proof.
  intros Hj Hb.
  destruct (Json.assoc "image" d) as [image_b64 |] eqn:Hi.
  2:{ unfold predict, request_json, json_contains.
      rewrite Hj, Hb. cbn [negb bind ret]. rewrite Hi.
      do 2 eexists. split; [reflexivity |]. right. split; [left; reflexivity | eauto]. }
  rewrite (predict_on_image w g r d _ Hj Hb Hi).
  assert (Herr : forall e : exn, exists b status,
             result_of
               (match e with
                | BinasciiError _ =>
                    (emit (Log "[ERROR] String base64 tidak valid.") ;;;
                     ret (ErrorBody bad_base64_msg, 400))%script
                | _ =>
                    (emit (Log ("[ERROR] Terjadi kesalahan saat melakukan prediksi: "
                                ++ exn_str e)%string) ;;;
                     ret (ErrorBody (internal_error_msg e), 500))%script
                end) = Ret (b, status) /\
             ((status = 200 /\ exists predictions, b = PredictionsBody predictions) \/
              ((status = 400 \/ status = 500) /\ exists error, b = ErrorBody error))).
  { intros e. destruct e; do 2 eexists; (split; [reflexivity |]); right;
      (split; [(left; reflexivity) || (right; reflexivity) | eauto]). }
  assert (Hraise : forall (e : exn) (t : list log) (h : exn -> option (script log response)),
             h = (fun e =>
                    match e with
                    | BinasciiError _ =>
                        Some (emit (Log "[ERROR] String base64 tidak valid.") ;;;
                              ret (ErrorBody bad_base64_msg, 400))%script
                    | _ =>
                        Some (emit (Log ("[ERROR] Terjadi kesalahan saat melakukan prediksi: "
                                         ++ exn_str e)%string) ;;;
                              ret (ErrorBody (internal_error_msg e), 500))%script
                    end) ->
             exists b status,
               result_of (try_except (Raise e, t) h) = Ret (b, status) /\
               ((status = 200 /\ exists predictions, b = PredictionsBody predictions) \/
                ((status = 400 \/ status = 500) /\ exists error, b = ErrorBody error))).
  { intros e t h ->. destruct (Herr e) as (b & status & Hres & Hshape).
    exists b, status. split; [| exact Hshape].
    unfold try_except.
    destruct e; cbn in Hres |- *; exact Hres. }
  destruct (b64decode_outcome image_b64) as [[bytes ->] | [e ->]].
  2:{ apply (Hraise e []). reflexivity. }
  rewrite bind_ret_l.
  destruct (imdecode w bytes) as [e | [bmp |]]; unfold lift at 1.
  - apply (Hraise e []). reflexivity.
  - rewrite bind_ret_l. unfold read_model.
    destruct (model g) as [m |].
    2:{ apply (Hraise _ []). reflexivity. }
    rewrite bind_ret_l. destruct (m bmp) as [e | boxes]; unfold lift.
    + apply (Hraise e []). reflexivity.
    + rewrite bind_ret_l.
      destruct (extract_all_outcome g boxes []) as [[ds ->] | [e ->]].
      * do 2 eexists. split; [reflexivity |]. left. split; [reflexivity | eauto].
      * apply (Hraise e [LogInferenceTime]). reflexivity.
  - rewrite bind_ret_l. do 2 eexists. split; [reflexivity |].
    right. split; [left; reflexivity | eauto].
Qed.

Lemma object_body_always_answered_witness :
  exists b status,
    result_of (predict Sample.decoder Sample.degraded
                 (Sample.post (JDict [("image", JNull)]))) = Ret (b, status) /\
    ((status = 200 /\ exists predictions, b = PredictionsBody predictions) \/
     ((status = 400 \/ status = 500) /\ exists error, b = ErrorBody error)).
Proof.
  apply (object_body_always_answered Sample.decoder Sample.degraded
           (Sample.post (JDict [("image", JNull)])) [("image", JNull)]);
    reflexivity.
Defined.

(** ** Corners of the boxes *)

Lemma div_monotone (n1 n2 : Z) (d1 d2 : positive) :
  0 <= n1 -> n1 * Zpos d2 <= n2 * Zpos d1 -> n1 / Zpos d1 <= n2 / Zpos d2.
Proof.
  intros Hn H. apply Z.div_le_lower_bound; [lia |].
  pose proof (Z.mul_div_le n1 (Zpos d1) ltac:(lia)) as Hfloor.
  assert (Hq : 0 <= n1 / Zpos d1) by (apply Z.div_pos; lia).
  nia.
Qed.

Lemma int_of_float_monotone (q1 q2 : Q) :
  (q1 <= q2)%Q -> int_of_float q1 <= int_of_float q2.
Proof.
  unfold Qle, int_of_float. destruct q1 as [n1 d1], q2 as [n2 d2]. cbn [Qnum Qden].
  intros H.
  destruct (Z.le_gt_cases 0 n1) as [Hn1 | Hn1].
  - assert (Hn2 : 0 <= n2) by nia.
    rewrite !Z.quot_div_nonneg by lia. apply div_monotone; assumption.
  - destruct (Z.le_gt_cases 0 n2) as [Hn2 | Hn2].
    + transitivity 0.
      * apply Z.quot_le_upper_bound; lia.
      * apply Z.quot_pos; lia.
    + assert (E : forall n (d : positive),
                 n < 0 -> n ÷ Zpos d = - ((- n) / Zpos d)).
      { intros n d Hn. rewrite <- Z.quot_div_nonneg by lia.
        rewrite Z.quot_opp_l by lia. lia. }
      rewrite (E n1 d1 Hn1), (E n2 d2 Hn2).
      apply -> Z.opp_le_mono. apply div_monotone; lia.
Qed.

(** The integer corners keep the order of the model's corners: a box
    with [x1 <= x2] and [y1 <= y2] becomes a detection with
    [xmin <= xmax] and [ymin <= ymax], and its confidence is the model's
    score unchanged. *)
Theorem extract_keeps_corner_order
    (g : globals) (b : raw_box) (d : detection) (t : list log)
    (x1 y1 x2 y2 : Q) :
  xyxy b = (x1, y1, x2, y2) ->
  (x1 <= x2)%Q -> (y1 <= y2)%Q ->
  extract g b = (Ret d, t) ->
  xmin d <= xmax d /\ ymin d <= ymax d /\ confidence d = conf b.
Proof.
  intros Hxy Hx Hy. unfold extract, read_labels. rewrite Hxy.
  destruct (labels g) as [names |]; [| discriminate].
  rewrite bind_ret_l.
  destruct (lookup_label (int_of_float (cls b)) names) as [name |];
    [| discriminate].
  unfold ret. intros [= <- _]. cbn [xmin xmax ymin ymax confidence].
  repeat split; apply int_of_float_monotone; assumption.
Qed.

Lemma extract_keeps_corner_order_witness :
  let b := {| xyxy := ((-3) # 2, 5 # 2, 7 # 2, 5 # 2); cls := 0 # 1; conf := 4 # 5 |} in
  let g := {| model := None; labels := Some [(0, "helmet")] |} in
  exists d, extract g b = (Ret d, []) /\ xmin d <= xmax d /\ ymin d <= ymax d.
Proof.
  intros b g. eexists. split; [vm_compute; reflexivity |].
  destruct (extract_keeps_corner_order g b _ [] ((-3) # 2) (5 # 2) (7 # 2) (5 # 2)
              eq_refl ltac:(vm_compute; discriminate) ltac:(vm_compute; discriminate)
              eq_refl) as (Hx & Hy & _).
  split; assumption.
Defined.

(** ** Base64 between the client and the service *)

Example b64encode_jpeg_marker :
  Base64Encode.b64encode [255; 216; 255; 224] = "/9j/4A==".
Proof. vm_compute. reflexivity. Qed.

Example b64encode_two_left : Base64Encode.b64encode [77; 97] = "TWE=".
Proof. vm_compute. reflexivity. Qed.

Lemma a2b_loop_unpadded (s : string) :
  forall q l p n out,
    q = 0 \/ q = 1 \/ q = 2 \/ q = 3 ->
    sep_free "=" s ->
    if (q + count_data s) mod 4 =? 0
    then exists bytes, Base64.a2b_loop s q l p n out = inr bytes
    else exists msg, Base64.a2b_loop s q l p n out = inl (BinasciiError msg).
Proof.
  induction s as [| c r IH]; intros q l p n out Hq Hfree.
  - cbn [count_data Base64.a2b_loop]. rewrite Z.add_0_r.
    destruct Hq as [-> | [-> | [-> | ->]]]; cbn; eexists; reflexivity.
  - apply sep_free_cons in Hfree. destruct Hfree as [Hc Hfree].
    cbn [count_data Base64.a2b_loop]. unfold Py.chr_eqb.
    destruct (Ascii.eqb_spec c "=") as [-> | _]; [congruence |].
    destruct (Base64.b64_value c) as [v |].
    + destruct Hq as [-> | [-> | [-> | ->]]]; cbn [Z.eqb].
      * specialize (IH 1 v 0 (n + 1) out (or_intror (or_introl eq_refl)) Hfree).
        replace (0 + (1 + count_data r)) with (1 + count_data r) by lia. exact IH.
      * specialize (IH 2 (Z.land v 15) 0 (n + 1)
                       (Base64.byte_of (Z.lor (Z.shiftl l 2) (Z.shiftr v 4)) :: out)
                       (or_intror (or_intror (or_introl eq_refl))) Hfree).
        replace (1 + (1 + count_data r)) with (2 + count_data r) by lia. exact IH.
      * specialize (IH 3 (Z.land v 3) 0 (n + 1)
                       (Base64.byte_of (Z.lor (Z.shiftl l 4) (Z.shiftr v 2)) :: out)
                       (or_intror (or_intror (or_intror eq_refl))) Hfree).
        replace (2 + (1 + count_data r)) with (3 + count_data r) by lia. exact IH.
      * specialize (IH 0 0 0 (n + 1)
                       (Base64.byte_of (Z.lor (Z.shiftl l 6) v) :: out)
                       (or_introl eq_refl) Hfree).
        replace ((3 + (1 + count_data r)) mod 4) with ((0 + count_data r) mod 4).
        -- exact IH.
        -- replace (3 + (1 + count_data r)) with (count_data r + 1 * 4) by lia.
           rewrite Z.mod_add by lia. reflexivity.
    + apply IH; assumption.
Qed.

(** A payload of ASCII text without padding whose number of alphabet
    characters is not a multiple of four is answered 400 with the
    invalid-base64 message, whatever other characters it holds and
    whatever the model and the image decoder are; nothing but the error
    line is logged. *)
Theorem unpadded_bad_length_is_400
    (w : Server.world) (g : globals) (r : request)
    (d : list (string * json)) (s : string) :
  is_json r = true ->
  json_body r = Some (JDict d) ->
  Json.assoc "image" d = Some (JStr s) ->
  Base64.is_ascii s = true ->
  sep_free "=" s ->
  count_data s mod 4 <> 0 ->
  predict w g r =
  (Ret (ErrorBody bad_base64_msg, 400), [Log "[ERROR] String base64 tidak valid."]).
Proof.
  intros Hj Hb Hi Ha Hfree Hcount.
  pose proof (a2b_loop_unpadded s 0 0 0 0 [] (or_introl eq_refl) Hfree) as H.
  replace (0 + count_data s) with (count_data s) in H by lia.
  destruct (Z.eqb_spec (count_data s mod 4) 0) as [Hz | _]; [contradiction |].
  destruct H as [msg H].
  exact (predict_binascii_error_is_400 w g r d s msg Hj Hb Hi Ha H).
Qed.

Lemma unpadded_bad_length_is_400_witness :
  predict Sample.decoder Sample.degraded
          (Sample.post (JDict [("image", JStr "/9j/4 A")])) =
  (Ret (ErrorBody bad_base64_msg, 400), [Log "[ERROR] String base64 tidak valid."]).
Proof.
  apply (unpadded_bad_length_is_400 Sample.decoder Sample.degraded
           (Sample.post (JDict [("image", JStr "/9j/4 A")]))
           [("image", JStr "/9j/4 A")] "/9j/4 A").
  - reflexivity.
  - reflexivity.
  - reflexivity.
  - reflexivity.
  - intros j. do 8 (destruct j; [discriminate |]). discriminate.
  - vm_compute. discriminate.
Defined.

Lemma lor_shiftl_add (a b k : Z) :
  0 <= k -> 0 <= b < 2 ^ k -> Z.lor (Z.shiftl a k) b = a * 2 ^ k + b.
Proof.
  intros Hk Hb.
  assert (Hland : Z.land (Z.shiftl a k) b = 0).
  { apply Z.bits_inj'. intros n Hn. rewrite Z.land_spec, Z.bits_0.
    destruct (Z.lt_ge_cases n k) as [Hlt | Hge].
    - rewrite Z.shiftl_spec_low by lia. reflexivity.
    - assert (Hbit : Z.testbit b n = false).
      { destruct (Z.eq_dec b 0) as [-> | Hb0]; [apply Z.bits_0 |].
        apply Z.bits_above_log2; [lia |]. apply Z.log2_lt_pow2; [lia |].
        apply Z.lt_le_trans with (2 ^ k); [lia | apply Z.pow_le_mono_r; lia]. }
      rewrite Hbit. apply andb_false_r. }
  rewrite <- Z.lxor_lor by exact Hland.
  rewrite <- Z.add_nocarry_lxor by exact Hland.
  rewrite Z.shiftl_mul_pow2 by lia. reflexivity.
Qed.

(** Masks, shifts and the 32-bit wrap as division and remainder. *)
Ltac to_arith :=
  unfold Base64Encode.wrap32, Base64.byte_of;
  change 4294967295 with (Z.ones 32); change 255 with (Z.ones 8);
  change 63 with (Z.ones 6); change 15 with (Z.ones 4);
  change 3 with (Z.ones 2);
  rewrite ?Z.land_ones by lia;
  rewrite ?Z.shiftr_div_pow2 by lia;
  change (2 ^ 32) with 4294967296; change (2 ^ 8) with 256;
  change (2 ^ 6) with 64; change (2 ^ 4) with 16; change (2 ^ 2) with 4;
  change (2 ^ 0) with 1.

Section EncoderSteps.

Variables (lc b : Z).
Hypothesis Hb : 0 <= b < 256.

Let lc' : Z := Base64Encode.wrap32 (Z.lor (Z.shiftl lc 8) b).

Lemma wrap32_shift_in : lc' = (lc * 256 + b) mod 4294967296.
Proof.
  unfold lc'. rewrite (lor_shiftl_add lc b 8) by lia. to_arith. reflexivity.
Qed.

Lemma sextet_after_0 : Z.land (Z.shiftr lc' 2) 63 = b / 4.
Proof. rewrite wrap32_shift_in. to_arith. Z.div_mod_to_equations. lia. Qed.

Lemma sextet_after_2 : Z.land (Z.shiftr lc' 4) 63 = lc mod 4 * 16 + b / 16.
Proof. rewrite wrap32_shift_in. to_arith. Z.div_mod_to_equations. lia. Qed.

Lemma sextet_after_4 : Z.land (Z.shiftr lc' 6) 63 = lc mod 16 * 4 + b / 64.
Proof. rewrite wrap32_shift_in. to_arith. Z.div_mod_to_equations. lia. Qed.

Lemma sextet_last : Z.land (Z.shiftr lc' 0) 63 = b mod 64.
Proof. rewrite wrap32_shift_in. to_arith. Z.div_mod_to_equations. lia. Qed.

Lemma low_bits_2 : lc' mod 4 = b mod 4.
Proof. rewrite wrap32_shift_in. Z.div_mod_to_equations. lia. Qed.

Lemma low_bits_4 : lc' mod 16 = b mod 16.
Proof. rewrite wrap32_shift_in. Z.div_mod_to_equations. lia. Qed.

Lemma b2a_step_0 (rest : list Z) :
  Base64Encode.b2a_loop (b :: rest) lc 0 =
  String (Base64Encode.b64_char (b / 4)) (Base64Encode.b2a_loop rest lc' 2).
Proof.
  cbn [Base64Encode.b2a_loop]. fold lc'.
  change (Base64Encode.drain (Z.to_nat (0 + 8)) lc' (0 + 8))
    with (String (Base64Encode.b64_char (Z.land (Z.shiftr lc' 2) 63)) EmptyString, 2).
  cbn [fst snd String.append]. rewrite sextet_after_0. reflexivity.
Qed.

Lemma b2a_step_2 (rest : list Z) :
  Base64Encode.b2a_loop (b :: rest) lc 2 =
  String (Base64Encode.b64_char (lc mod 4 * 16 + b / 16))
         (Base64Encode.b2a_loop rest lc' 4).
Proof.
  cbn [Base64Encode.b2a_loop]. fold lc'.
  change (Base64Encode.drain (Z.to_nat (2 + 8)) lc' (2 + 8))
    with (String (Base64Encode.b64_char (Z.land (Z.shiftr lc' 4) 63)) EmptyString, 4).
  cbn [fst snd String.append]. rewrite sextet_after_2. reflexivity.
Qed.

Lemma b2a_step_4 (rest : list Z) :
  Base64Encode.b2a_loop (b :: rest) lc 4 =
  String (Base64Encode.b64_char (lc mod 16 * 4 + b / 64))
         (String (Base64Encode.b64_char (b mod 64))
                 (Base64Encode.b2a_loop rest lc' 0)).
Proof.
  cbn [Base64Encode.b2a_loop]. fold lc'.
  change (Base64Encode.drain (Z.to_nat (4 + 8)) lc' (4 + 8))
    with (String (Base64Encode.b64_char (Z.land (Z.shiftr lc' 6) 63))
            (String (Base64Encode.b64_char (Z.land (Z.shiftr lc' 0) 63))
                    EmptyString), 0).
  cbn [fst snd String.append]. rewrite sextet_after_4, sextet_last. reflexivity.
Qed.

End EncoderSteps.

Lemma b2a_end_2 (lc : Z) :
  Base64Encode.b2a_loop [] lc 2 =
  String (Base64Encode.b64_char (lc mod 4 * 16)) "==".
Proof.
  cbn [Base64Encode.b2a_loop Z.eqb Pos.eqb]. f_equal. f_equal.
  rewrite Z.shiftl_mul_pow2 by lia. to_arith. reflexivity.
Qed.

Lemma b2a_end_4 (lc : Z) :
  Base64Encode.b2a_loop [] lc 4 =
  String (Base64Encode.b64_char (lc mod 16 * 4)) "=".
Proof.
  cbn [Base64Encode.b2a_loop Z.eqb Pos.eqb]. f_equal. f_equal.
  rewrite Z.shiftl_mul_pow2 by lia. to_arith. reflexivity.
Qed.

Lemma table_inverse_all :
  forallb (fun k =>
             let v := Z.of_nat k in
             match Base64.b64_value (Base64Encode.b64_char v) with
             | Some v' => v' =? v
             | None => false
             end
             && negb (Py.chr_eqb (Base64Encode.b64_char v) "=")
             && (Py.ord (Base64Encode.b64_char v) <? 128))
          (seq 0 64) = true.
Proof. vm_compute. reflexivity. Qed.

Lemma table_inverse (v : Z) :
  0 <= v < 64 ->
  Base64.b64_value (Base64Encode.b64_char v) = Some v /\
  Py.chr_eqb (Base64Encode.b64_char v) "=" = false /\
  (Py.ord (Base64Encode.b64_char v) <? 128) = true.
Proof.
  intros Hv. pose proof table_inverse_all as H.
  rewrite forallb_forall in H. specialize (H (Z.to_nat v)).
  rewrite Z2Nat.id in H by lia.
  assert (Hin : In (Z.to_nat v) (seq 0 64)) by (apply in_seq; lia).
  specialize (H Hin). cbv zeta in H.
  apply andb_true_iff in H. destruct H as [H Hascii].
  apply andb_true_iff in H. destruct H as [Hval Hpad].
  destruct (Base64.b64_value (Base64Encode.b64_char v)) as [v' |];
    [| discriminate].
  apply Z.eqb_eq in Hval. subst v'. apply negb_true_iff in Hpad. auto.
Qed.

Lemma a2b_data_char (v : Z) (r : string) (q l p n : Z) (out : list Z) :
  0 <= v < 64 ->
  Base64.a2b_loop (String (Base64Encode.b64_char v) r) q l p n out =
  if q =? 0 then Base64.a2b_loop r 1 v 0 (n + 1) out
  else if q =? 1 then
    Base64.a2b_loop r 2 (Z.land v 15) 0 (n + 1)
      (Base64.byte_of (Z.lor (Z.shiftl l 2) (Z.shiftr v 4)) :: out)
  else if q =? 2 then
    Base64.a2b_loop r 3 (Z.land v 3) 0 (n + 1)
      (Base64.byte_of (Z.lor (Z.shiftl l 4) (Z.shiftr v 2)) :: out)
  else
    Base64.a2b_loop r 0 0 0 (n + 1)
      (Base64.byte_of (Z.lor (Z.shiftl l 6) v) :: out).
Proof.
  intros Hv. destruct (table_inverse v Hv) as (Hval & Hpad & _).
  cbn [Base64.a2b_loop]. rewrite Hpad, Hval. reflexivity.
Qed.

Lemma first_byte (b1 low : Z) :
  0 <= b1 < 256 -> 0 <= low < 16 ->
  Base64.byte_of (Z.lor (Z.shiftl (b1 / 4) 2)
                        (Z.shiftr (b1 mod 4 * 16 + low) 4)) = b1.
Proof.
  intros H1 Hlow. to_arith.
  rewrite lor_shiftl_add by (change (2 ^ 2) with 4; Z.div_mod_to_equations; lia).
  to_arith. Z.div_mod_to_equations. lia.
Qed.

Lemma second_byte (b1 b2 low : Z) :
  0 <= b1 < 256 -> 0 <= b2 < 256 -> 0 <= low < 4 ->
  Base64.byte_of
    (Z.lor (Z.shiftl (Z.land (b1 mod 4 * 16 + b2 / 16) 15) 4)
           (Z.shiftr (b2 mod 16 * 4 + low) 2)) = b2.
Proof.
  intros H1 H2 Hlow. to_arith.
  rewrite lor_shiftl_add by (change (2 ^ 4) with 16; Z.div_mod_to_equations; lia).
  to_arith. Z.div_mod_to_equations. lia.
Qed.

Lemma third_byte (b2 b3 : Z) :
  0 <= b2 < 256 -> 0 <= b3 < 256 ->
  Base64.byte_of
    (Z.lor (Z.shiftl (Z.land (b2 mod 16 * 4 + b3 / 64) 3) 6) (b3 mod 64)) = b3.
Proof.
  intros H2 H3. to_arith.
  rewrite lor_shiftl_add by (change (2 ^ 6) with 64; Z.div_mod_to_equations; lia).
  to_arith. Z.div_mod_to_equations. lia.
Qed.

Lemma sextet_ranges (x y : Z) :
  0 <= x < 256 -> 0 <= y < 256 ->
  0 <= x / 4 < 64 /\ 0 <= x mod 4 * 16 + y / 16 < 64 /\
  0 <= x mod 16 * 4 + y / 64 < 64 /\ 0 <= y mod 64 < 64 /\
  0 <= x mod 4 * 16 < 64 /\ 0 <= x mod 16 * 4 < 64.
Proof. intros Hx Hy. Z.div_mod_to_equations. lia. Qed.

Lemma is_bytes_cons (b : Z) (rest : list Z) :
  Base64Encode.is_bytes (b :: rest) = true ->
  0 <= b < 256 /\ Base64Encode.is_bytes rest = true.
Proof.
  unfold Base64Encode.is_bytes. cbn [forallb]. intros H.
  apply andb_true_iff in H. destruct H as [Hb Hrest].
  apply andb_true_iff in Hb. destruct Hb as [Hlo Hhi].
  apply Z.leb_le in Hlo. apply Z.ltb_lt in Hhi. auto.
Qed.

Lemma decode_encode (k : nat) :
  forall bin_data lc n out,
    (List.length bin_data <= k)%nat ->
    Base64Encode.is_bytes bin_data = true ->
    Base64.a2b_loop (Base64Encode.b2a_loop bin_data lc 0) 0 0 0 n out =
    inr (rev out ++ bin_data).
Proof.
  induction k as [| k IH]; intros bin_data lc n out Hlen Hbytes.
  { destruct bin_data; [| cbn in Hlen; lia]. cbn. now rewrite app_nil_r. }
  destruct bin_data as [| b1 rest1]; [cbn; now rewrite app_nil_r |].
  apply is_bytes_cons in Hbytes. destruct Hbytes as [H1 Hbytes].
  rewrite (b2a_step_0 lc b1 H1).
  destruct rest1 as [| b2 rest2].
  { rewrite b2a_end_2, low_bits_2 by exact H1.
    destruct (sextet_ranges b1 0 H1 ltac:(lia)) as (R1 & _ & _ & _ & R2 & _).
    rewrite (a2b_data_char _ _ _ _ _ _ _ R1). cbn [Z.eqb].
    rewrite (a2b_data_char _ _ _ _ _ _ _ R2). cbn [Z.eqb Pos.eqb].
    replace (b1 mod 4 * 16) with (b1 mod 4 * 16 + 0) by lia.
    rewrite (first_byte b1 0 H1) by lia.
    cbn. rewrite <- ?app_assoc. reflexivity. }
  apply is_bytes_cons in Hbytes. destruct Hbytes as [H2 Hbytes].
  rewrite (b2a_step_2 _ b2 H2), low_bits_2 by exact H1.
  destruct (sextet_ranges b1 b2 H1 H2) as (R1 & R2 & _).
  destruct rest2 as [| b3 rest3].
  { rewrite b2a_end_4, low_bits_4 by exact H2.
    destruct (sextet_ranges b2 0 H2 ltac:(lia)) as (_ & _ & _ & _ & _ & R3).
    rewrite (a2b_data_char _ _ _ _ _ _ _ R1). cbn [Z.eqb].
    rewrite (a2b_data_char _ _ _ _ _ _ _ R2). cbn [Z.eqb Pos.eqb].
    rewrite (a2b_data_char _ _ _ _ _ _ _ R3). cbn [Z.eqb Pos.eqb].
    rewrite (first_byte b1 (b2 / 16) H1)
      by (Z.div_mod_to_equations; lia).
    replace (b2 mod 16 * 4) with (b2 mod 16 * 4 + 0) by lia.
    rewrite (second_byte b1 b2 0 H1 H2) by lia.
    cbn. rewrite <- ?app_assoc. reflexivity. }
  apply is_bytes_cons in Hbytes. destruct Hbytes as [H3 Hbytes].
  rewrite (b2a_step_4 _ b3 H3), low_bits_4 by exact H2.
  destruct (sextet_ranges b2 b3 H2 H3) as (_ & _ & R3 & R4 & _).
  rewrite (a2b_data_char _ _ _ _ _ _ _ R1). cbn [Z.eqb].
  rewrite (a2b_data_char _ _ _ _ _ _ _ R2). cbn [Z.eqb Pos.eqb].
  rewrite (a2b_data_char _ _ _ _ _ _ _ R3). cbn [Z.eqb Pos.eqb].
  rewrite (a2b_data_char _ _ _ _ _ _ _ R4). cbn [Z.eqb Pos.eqb].
  rewrite (first_byte b1 (b2 / 16) H1) by (Z.div_mod_to_equations; lia).
  rewrite (second_byte b1 b2 (b3 / 64) H1 H2) by (Z.div_mod_to_equations; lia).
  rewrite (third_byte b2 b3 H2 H3).
  rewrite IH by (cbn [List.length] in Hlen; assumption || lia).
  cbn [rev]. rewrite <- ?app_assoc. reflexivity.
Qed.

Lemma is_ascii_cons (c : ascii) (s : string) :
  Base64.is_ascii (String c s) = (Py.ord c <? 128) && Base64.is_ascii s.
Proof. reflexivity. Qed.

Lemma encode_is_ascii (bin_data : list Z) :
  forall lc leftbits,
    leftbits = 0 \/ leftbits = 2 \/ leftbits = 4 ->
    Base64Encode.is_bytes bin_data = true ->
    Base64.is_ascii (Base64Encode.b2a_loop bin_data lc leftbits) = true.
Proof.
  induction bin_data as [| b rest IH]; intros lc leftbits Hbits Hbytes.
  - destruct Hbits as [-> | [-> | ->]].
    + reflexivity.
    + rewrite b2a_end_2, is_ascii_cons.
      destruct (table_inverse (lc mod 4 * 16)
                  ltac:(Z.div_mod_to_equations; lia)) as (_ & _ & ->).
      reflexivity.
    + rewrite b2a_end_4, is_ascii_cons.
      destruct (table_inverse (lc mod 16 * 4)
                  ltac:(Z.div_mod_to_equations; lia)) as (_ & _ & ->).
      reflexivity.
  - apply is_bytes_cons in Hbytes. destruct Hbytes as [Hb Hbytes].
    destruct Hbits as [-> | [-> | ->]].
    + rewrite (b2a_step_0 lc b Hb), is_ascii_cons.
      destruct (table_inverse (b / 4) ltac:(Z.div_mod_to_equations; lia))
        as (_ & _ & ->).
      apply IH; auto.
    + rewrite (b2a_step_2 lc b Hb), is_ascii_cons.
      destruct (table_inverse (lc mod 4 * 16 + b / 16)
                  ltac:(Z.div_mod_to_equations; lia)) as (_ & _ & ->).
      apply IH; auto.
    + rewrite (b2a_step_4 lc b Hb), !is_ascii_cons.
      destruct (table_inverse (lc mod 16 * 4 + b / 64)
                  ltac:(Z.div_mod_to_equations; lia)) as (_ & _ & ->).
      destruct (table_inverse (b mod 64) ltac:(Z.div_mod_to_equations; lia))
        as (_ & _ & ->).
      apply IH; auto.
Qed.

(** What the client encodes the service decodes: for every byte string,
    [b64decode(b64encode(bytes))] is [bytes], so the image handed to
    [cv2.imdecode] on the service is the JPEG the client produced. *)
Theorem b64decode_b64encode (bin_data : list Z) :
  Base64Encode.is_bytes bin_data = true ->
  Base64.a2b_base64 (Base64Encode.b64encode bin_data) = inr bin_data /\
  @Base64.b64decode log (JStr (Base64Encode.b64encode bin_data)) = ret bin_data.
Proof.
  intros Hbytes.
  assert (Hdec : Base64.a2b_base64 (Base64Encode.b64encode bin_data) = inr bin_data).
  { unfold Base64.a2b_base64, Base64Encode.b64encode.
    apply (decode_encode (List.length bin_data)); [lia | exact Hbytes]. }
  split; [exact Hdec |].
  pose proof (encode_is_ascii bin_data 0 0 (or_introl eq_refl) Hbytes) as Ha.
  change (Base64Encode.b2a_loop bin_data 0 0)
    with (Base64Encode.b64encode bin_data) in Ha.
  unfold Base64.b64decode. rewrite Ha, Hdec. reflexivity.
Qed.

Lemma b64decode_b64encode_witness :
  Base64.a2b_base64 (Base64Encode.b64encode [255; 216; 255; 224; 0; 16; 74])
  = inr [255; 216; 255; 224; 0; 16; 74].
Proof.
  apply (proj1 (b64decode_b64encode [255; 216; 255; 224; 0; 16; 74] eq_refl)).
Defined.

Lemma split_join_round_trip_witness :
  String.concat "x" (Py.split "x" "640x480") = "640x480" /\
  sep_free "x" "480".
Proof.
  destruct (split_join_round_trip "x" "640x480") as (Hjoin & Hparts & _).
  split; [exact Hjoin |].
  apply Hparts. simpl. right. left. reflexivity.
Defined.
